(** * FigEDIT: shape model, undo/redo history and scene file

    A shallow embedding of [FigEDIT.cpp]: the shape classes derived from
    [ShapeBase], the [UndoRedoManager] with the handlers of [main] that
    apply its actions, and the scene file written by [guardarEscena] and
    read back by [cargarEscena].

    C++ [float] is IEEE binary32, modelled with [SpecFloat] at precision 24;
    [std::unique_ptr] is an [option] (a null pointer is [None]); what C++
    leaves undefined is a [Fault].  The input stream comes twice: as
    readers that stop at the first failed extraction, and, in [Failbit],
    with [failbit] and the locals the loader may leave unwritten. *)

From Stdlib Require Import ZArith NArith List Bool Ascii String Lia.
From Stdlib Require Import SpecFloat.
From Stdlib Require DecimalPos DecimalN.
Import ListNotations.
Local Open Scope Z_scope.

(** ** Outcomes *)

(** Where the source dereferences a null pointer, indexes a vector out of
    range, or goes on after a failed stream extraction and reads a local it
    never wrote, its behaviour is undefined: the model stops with a fault. *)
Inductive fault := NullDeref | OutOfRange | StreamFail.

Inductive result (A : Type) :=
| Ok (a : A)
| Fault (f : fault).
Arguments Ok {A} a.
Arguments Fault {A} f.

Definition bind {A B} (c : result A) (k : A -> result B) : result B :=
  match c with
  | Ok a => k a
  | Fault f => Fault f
  end.

Notation "x <- c ;; k" := (bind c (fun x => k))
  (at level 61, c at next level, right associativity).
Notation "' p <- c ;; k" := (bind c (fun p => k))
  (at level 61, p pattern, c at next level, right associativity).

(** ** binary32 *)

Module F32.
Definition prec : Z := 24.
Definition emax : Z := 128.
Definition t := spec_float.

Definition of_Z (n : Z) : t := binary_normalize prec emax n 0 false.

(** The float nearest to [n / d] (ties to even), as a decimal literal or
    [strtof] yields it. *)
Definition of_ratio (neg : bool) (n d : positive) : t :=
  let '(q, e, l) := SFdiv_core_binary prec emax (Zpos n) 0 (Zpos d) 0 in
  binary_round_aux prec emax neg q e l.

Definition add : t -> t -> t := SFadd prec emax.
Definition sub : t -> t -> t := SFsub prec emax.
Definition mul : t -> t -> t := SFmul prec emax.
Definition div : t -> t -> t := SFdiv prec emax.
Definition sqrt : t -> t := SFsqrt prec emax.
Definition abs : t -> t := SFabs.

Definition ltb : t -> t -> bool := SFltb.
Definition leb : t -> t -> bool := SFleb.
Definition gtb (a b : t) : bool := SFltb b a.
Definition geb (a b : t) : bool := SFleb b a.

(** Same datum (not the IEEE [==]: it tells the zeros apart and takes a
    NaN equal to itself). *)
Definition same (a b : t) : bool :=
  match a, b with
  | S754_zero s1, S754_zero s2 => Bool.eqb s1 s2
  | S754_infinity s1, S754_infinity s2 => Bool.eqb s1 s2
  | S754_nan, S754_nan => true
  | S754_finite s1 m1 e1, S754_finite s2 m2 e2 =>
      Bool.eqb s1 s2 && Pos.eqb m1 m2 && Z.eqb e1 e2
  | _, _ => false
  end.
End F32.

Declare Scope f32_scope.
Delimit Scope f32_scope with f32.
Infix "+" := F32.add : f32_scope.
Infix "-" := F32.sub : f32_scope.
Infix "*" := F32.mul : f32_scope.
Infix "/" := F32.div : f32_scope.
Infix ">?" := F32.gtb : f32_scope.
Infix ">=?" := F32.geb : f32_scope.
Infix "<?" := F32.ltb : f32_scope.

(** ** The SFML value types the source uses *)

Module sf.
Record Vector2f := mkVector2f { x : F32.t; y : F32.t }.

Definition Vector2f_add (a b : Vector2f) : Vector2f :=
  mkVector2f (x a + x b)%f32 (y a + y b)%f32.
Definition Vector2f_sub (a b : Vector2f) : Vector2f :=
  mkVector2f (x a - x b)%f32 (y a - y b)%f32.
Definition Vector2f_div (a : Vector2f) (k : F32.t) : Vector2f :=
  mkVector2f (x a / k)%f32 (y a / k)%f32.

(** [sf::Color]: four [Uint8] channels. *)
Record Color := mkColor { r : Z; g : Z; b : Z; a : Z }.

Definition Uint8 (n : Z) : Z := n mod 256.
(** [sf::Color(r, g, b, a)] called with [int] arguments. *)
Definition Color_rgba (r g b a : Z) : Color :=
  mkColor (Uint8 r) (Uint8 g) (Uint8 b) (Uint8 a).

Definition Green := mkColor 0 255 0 255.
Definition Blue := mkColor 0 0 255 255.
Definition Red := mkColor 255 0 0 255.
Definition Magenta := mkColor 255 0 255 255.
Definition Cyan := mkColor 0 255 255 255.
Definition Yellow := mkColor 255 255 0 255.
Definition White := mkColor 255 255 255 255.

(** The object behind [shapePtr]: which [sf::Shape] it is and the
    geometry the source gives it.  The transform and colours SFML keeps
    inside it mirror the logical attributes and feed only the renderer;
    they are left out. *)
Inductive Shape :=
| CircleShape (radius : F32.t) (pointCount : Z)
| RectangleShape (size : Vector2f)
| ConvexShape (points : list Vector2f).
End sf.

(** ** Shapes *)

Inductive ShapeType :=
| Circle | Rectangle | Triangle | Ellipse | Polygon | Line | Cube | Text.

(** [static_cast<int>(type)] *)
Definition ShapeType_to_int (t : ShapeType) : Z :=
  match t with
  | Circle => 0 | Rectangle => 1 | Triangle => 2 | Ellipse => 3
  | Polygon => 4 | Line => 5 | Cube => 6 | Text => 7
  end.

(** [static_cast<ShapeType>(tipoInt)] as the [switch] sees it: a value that
    names no enumerator reaches [default]. *)
Definition ShapeType_of_int (n : Z) : option ShapeType :=
  match n with
  | 0 => Some Circle | 1 => Some Rectangle | 2 => Some Triangle
  | 3 => Some Ellipse | 4 => Some Polygon | 5 => Some Line
  | 6 => Some Cube | 7 => Some Text
  | _ => None
  end.

(** The members each derived class adds; the constructor of [Derived] is the
    dynamic class of the object, what [dynamic_cast] tests. *)
Inductive Derived :=
| CircleShapeClass (radius rotationSpeed scaleSpeed scaleTime : F32.t)
| CubeShapeClass (size depth rotationAngle : F32.t)
| TextShapeClass (content : list ascii) (characterSize : Z)
                 (blinkTimer blinkInterval : F32.t) (visible : bool)
| RectangleShapeClass (size : sf.Vector2f)
                      (rotationSpeed scaleSpeed scaleTime : F32.t)
| TriangleShapeClass (size rotationSpeed : F32.t)
| EllipseShapeClass (radiusX radiusY rotationSpeed : F32.t)
| PolygonShapeClass (points : list sf.Vector2f) (rotationSpeed : F32.t)
| LineShapeClass (thickness rotationSpeed : F32.t).

(** An object of a class derived from [ShapeBase]: the members of the base
    and, in [derived], those of its own class. *)
Record ShapeBase := mkShape {
  type : ShapeType;
  shapePtr : option sf.Shape;
  position : sf.Vector2f;
  color : sf.Color;
  rotation : F32.t;
  scale : sf.Vector2f;
  isSelected : bool;
  isAnimated : bool;
  derived : Derived
}.

Definition with_position (v : sf.Vector2f) (s : ShapeBase) : ShapeBase :=
  mkShape (type s) (shapePtr s) v (color s) (rotation s) (scale s)
          (isSelected s) (isAnimated s) (derived s).
Definition with_rotation (v : F32.t) (s : ShapeBase) : ShapeBase :=
  mkShape (type s) (shapePtr s) (position s) (color s) v (scale s)
          (isSelected s) (isAnimated s) (derived s).
Definition with_scale (v : sf.Vector2f) (s : ShapeBase) : ShapeBase :=
  mkShape (type s) (shapePtr s) (position s) (color s) (rotation s) v
          (isSelected s) (isAnimated s) (derived s).
Definition with_color (v : sf.Color) (s : ShapeBase) : ShapeBase :=
  mkShape (type s) (shapePtr s) (position s) v (rotation s) (scale s)
          (isSelected s) (isAnimated s) (derived s).
Definition with_isAnimated (v : bool) (s : ShapeBase) : ShapeBase :=
  mkShape (type s) (shapePtr s) (position s) (color s) (rotation s) (scale s)
          (isSelected s) v (derived s).
Definition with_derived (v : Derived) (s : ShapeBase) : ShapeBase :=
  mkShape (type s) (shapePtr s) (position s) (color s) (rotation s) (scale s)
          (isSelected s) (isAnimated s) v.

(** [ShapeBase::ShapeBase(type, position, color)]: [shapePtr] starts null. *)
Definition new_ShapeBase (ty : ShapeType) (pos : sf.Vector2f) (col : sf.Color)
    (d : Derived) : ShapeBase :=
  mkShape ty None pos col (F32.of_Z 0)
          (sf.mkVector2f (F32.of_Z 1) (F32.of_Z 1)) false false d.

Definition with_shapePtr (p : sf.Shape) (s : ShapeBase) : ShapeBase :=
  mkShape (type s) (Some p) (position s) (color s) (rotation s) (scale s)
          (isSelected s) (isAnimated s) (derived s).

(** *** Base-class accessors *)

Definition getPosition (s : ShapeBase) := position s.
Definition getRotation (s : ShapeBase) := rotation s.
Definition getScale (s : ShapeBase) := scale s.
Definition getColor (s : ShapeBase) := color s.
Definition getType (s : ShapeBase) := type s.
Definition animated (s : ShapeBase) := isAnimated s.

(** [p->m(...)] through [shapePtr]: undefined when it is null. *)
Definition through_shapePtr (s : ShapeBase) : result ShapeBase :=
  match shapePtr s with
  | Some _ => Ok s
  | None => Fault NullDeref
  end.

Definition setPosition (pos : sf.Vector2f) (s : ShapeBase) : result ShapeBase :=
  through_shapePtr (with_position pos s).
Definition setRotation (rot : F32.t) (s : ShapeBase) : result ShapeBase :=
  through_shapePtr (with_rotation rot s).
Definition setScale (scl : sf.Vector2f) (s : ShapeBase) : result ShapeBase :=
  through_shapePtr (with_scale scl s).
Definition setColor (col : sf.Color) (s : ShapeBase) : result ShapeBase :=
  through_shapePtr (with_color col s).
Definition enableAnimation (enable : bool) (s : ShapeBase) : ShapeBase :=
  with_isAnimated enable s.

(** *** Constructors of the derived classes *)

Definition new_CircleShapeClass (pos : sf.Vector2f) (col : sf.Color)
    (radius : F32.t) : ShapeBase :=
  with_shapePtr (sf.CircleShape radius 30)
    (new_ShapeBase Circle pos col
       (CircleShapeClass radius (F32.of_Z 0) (F32.of_Z 0) (F32.of_Z 0))).

(** The cube hands [ShapeType::Polygon] to its base and never creates
    [shapePtr]; its twelve edges are render-only vertices and are left out. *)
Definition new_CubeShapeClass (pos : sf.Vector2f) (col : sf.Color)
    (size depth : F32.t) : ShapeBase :=
  new_ShapeBase Polygon pos col (CubeShapeClass size depth (F32.of_Z 0)).

(** [CubeShapeClass(const CubeShapeClass& other)] *)
Definition copy_CubeShapeClass (other : ShapeBase)
    (size depth rotationAngle : F32.t) : ShapeBase :=
  new_ShapeBase (type other) (position other) (color other)
    (CubeShapeClass size depth rotationAngle).

(** The text draws through its own [textPtr] and never creates [shapePtr];
    [characterSize] starts at 24, [blinkInterval] at 0.5. *)
Definition new_TextShapeClass (pos : sf.Vector2f) (col : sf.Color)
    (content : list ascii) : ShapeBase :=
  new_ShapeBase Text pos col
    (TextShapeClass content 24 (F32.of_Z 0) (F32.of_ratio false 1 2) true).

Definition new_RectangleShapeClass (pos : sf.Vector2f) (col : sf.Color)
    (size : sf.Vector2f) : ShapeBase :=
  with_shapePtr (sf.RectangleShape size)
    (new_ShapeBase Rectangle pos col
       (RectangleShapeClass size (F32.of_Z 0) (F32.of_Z 0) (F32.of_Z 0))).

Definition new_TriangleShapeClass (pos : sf.Vector2f) (col : sf.Color)
    (size : F32.t) : ShapeBase :=
  with_shapePtr
    (sf.ConvexShape [sf.mkVector2f (F32.of_Z 0) size;
                     sf.mkVector2f (size / F32.of_Z 2)%f32 (F32.of_Z 0);
                     sf.mkVector2f size size])
    (new_ShapeBase Triangle pos col (TriangleShapeClass size (F32.of_Z 0))).

Definition new_EllipseShapeClass (pos : sf.Vector2f) (col : sf.Color)
    (radiusX radiusY : F32.t) : ShapeBase :=
  with_shapePtr (sf.CircleShape (F32.of_Z 1) 100)
    (new_ShapeBase Ellipse pos col
       (EllipseShapeClass radiusX radiusY (F32.of_Z 0))).

Definition new_PolygonShapeClass (pos : sf.Vector2f) (col : sf.Color)
    (points : list sf.Vector2f) : ShapeBase :=
  with_shapePtr (sf.ConvexShape points)
    (new_ShapeBase Polygon pos col (PolygonShapeClass points (F32.of_Z 0))).

(** The line keeps the midpoint of its end points as position; the end
    points themselves survive only as the length of its rectangle. *)
Definition new_LineShapeClass (startPoint endPoint : sf.Vector2f)
    (col : sf.Color) (thickness : F32.t) : ShapeBase :=
  let direction := sf.Vector2f_sub endPoint startPoint in
  let length :=
    F32.sqrt (sf.x direction * sf.x direction
              + sf.y direction * sf.y direction)%f32 in
  with_shapePtr (sf.RectangleShape (sf.mkVector2f length thickness))
    (new_ShapeBase Line
       (sf.Vector2f_div (sf.Vector2f_add startPoint endPoint) (F32.of_Z 2))
       col (LineShapeClass thickness (F32.of_Z 0))).

(** *** Setters of the derived classes *)

(** [setRotationSpeed] of the six classes that have one. *)
Definition setRotationSpeed (speed : F32.t) (s : ShapeBase) : ShapeBase :=
  with_derived
    match derived s with
    | CircleShapeClass radius _ scaleSpeed scaleTime =>
        CircleShapeClass radius speed scaleSpeed scaleTime
    | RectangleShapeClass size _ scaleSpeed scaleTime =>
        RectangleShapeClass size speed scaleSpeed scaleTime
    | TriangleShapeClass size _ => TriangleShapeClass size speed
    | EllipseShapeClass radiusX radiusY _ =>
        EllipseShapeClass radiusX radiusY speed
    | PolygonShapeClass points _ => PolygonShapeClass points speed
    | LineShapeClass thickness _ => LineShapeClass thickness speed
    | d => d
    end s.

(** [setScaleSpeed] of the circle and the rectangle. *)
Definition setScaleSpeed (speed : F32.t) (s : ShapeBase) : ShapeBase :=
  with_derived
    match derived s with
    | CircleShapeClass radius rotationSpeed _ scaleTime =>
        CircleShapeClass radius rotationSpeed speed scaleTime
    | RectangleShapeClass size rotationSpeed _ scaleTime =>
        RectangleShapeClass size rotationSpeed speed scaleTime
    | d => d
    end s.

(** [TextShapeClass::setCharacterSize] *)
Definition setCharacterSize (size : Z) (s : ShapeBase) : ShapeBase :=
  with_derived
    match derived s with
    | TextShapeClass content _ blinkTimer blinkInterval visible =>
        TextShapeClass content size blinkTimer blinkInterval visible
    | d => d
    end s.

(** *** Animation *)

(** The block the six rotating classes share:
    [rotation += rotationSpeed * deltaTime;
     if (rotation > 360.0f) rotation -= 360.0f;
     shapePtr->setRotation(rotation);] *)
Definition spin (rotationSpeed deltaTime : F32.t) (s : ShapeBase)
    : result ShapeBase :=
  let rotation1 := (rotation s + rotationSpeed * deltaTime)%f32 in
  let rotation2 :=
    if (rotation1 >? F32.of_Z 360)%f32
    then (rotation1 - F32.of_Z 360)%f32 else rotation1 in
  through_shapePtr (with_rotation rotation2 s).

(** [updateShape(deltaTime)], by dynamic class, on the members of the
    object.  The code also writes to the SFML object: the new rotation
    ([shapePtr->setRotation(rotation)], in [spin]) and, for the circle and
    the rectangle, the pulsing scale
    ([shapePtr->setScale(scaleFactor * scale.x, scaleFactor * scale.y)]).
    [sf.Shape] holds no transform, so these writes are not followed: of
    them the model keeps the dereference of [shapePtr] and the accumulator
    [scaleTime], and nothing below is said of the [sf::Shape] after an
    update. *)
Definition updateShape (deltaTime : F32.t) (s : ShapeBase) : result ShapeBase :=
  match derived s with
  | CircleShapeClass radius rotationSpeed scaleSpeed scaleTime =>
      if isAnimated s then
        s1 <- spin rotationSpeed deltaTime s ;;
        Ok (with_derived
              (CircleShapeClass radius rotationSpeed scaleSpeed
                 (scaleTime + deltaTime)%f32) s1)
      else Ok s
  | RectangleShapeClass size rotationSpeed scaleSpeed scaleTime =>
      if isAnimated s then
        s1 <- spin rotationSpeed deltaTime s ;;
        Ok (with_derived
              (RectangleShapeClass size rotationSpeed scaleSpeed
                 (scaleTime + deltaTime)%f32) s1)
      else Ok s
  | TriangleShapeClass _ rotationSpeed
  | EllipseShapeClass _ _ rotationSpeed
  | PolygonShapeClass _ rotationSpeed
  | LineShapeClass _ rotationSpeed =>
      if isAnimated s then spin rotationSpeed deltaTime s else Ok s
  | CubeShapeClass _ _ _ => Ok s
  | TextShapeClass content characterSize blinkTimer blinkInterval visible =>
      if isAnimated s then
        let blinkTimer1 := (blinkTimer + deltaTime)%f32 in
        if (blinkTimer1 >=? blinkInterval)%f32 then
          Ok (with_derived
                (TextShapeClass content characterSize (F32.of_Z 0)
                   blinkInterval (negb visible)) s)
        else
          Ok (with_derived
                (TextShapeClass content characterSize blinkTimer1
                   blinkInterval visible) s)
      else Ok s
  end.

(** [CubeShapeClass::rotate(angle)]: the one place that wraps both ways and
    with [>=]. *)
Definition CubeShapeClass_rotate (angle : F32.t) (s : ShapeBase) : ShapeBase :=
  match derived s with
  | CubeShapeClass size depth rotationAngle =>
      let a1 := (rotationAngle + angle)%f32 in
      let a2 := if (a1 >=? F32.of_Z 360)%f32
                then (a1 - F32.of_Z 360)%f32 else a1 in
      let a3 := if (a2 <? F32.of_Z 0)%f32
                then (a2 + F32.of_Z 360)%f32 else a2 in
      with_derived (CubeShapeClass size depth a3) s
  | _ => s
  end.

(** *** clone *)

(** [clone()], by dynamic class: every class but the cube builds a new
    object from its constructor's arguments. *)
Definition clone (s : ShapeBase) : ShapeBase :=
  match derived s with
  | CircleShapeClass radius _ _ _ =>
      new_CircleShapeClass (position s) (color s) radius
  | CubeShapeClass size depth rotationAngle =>
      copy_CubeShapeClass s size depth rotationAngle
  | TextShapeClass content _ _ _ _ =>
      new_TextShapeClass (position s) (color s) content
  | RectangleShapeClass size _ _ _ =>
      new_RectangleShapeClass (position s) (color s) size
  | TriangleShapeClass size _ =>
      new_TriangleShapeClass (position s) (color s) size
  | EllipseShapeClass radiusX radiusY _ =>
      new_EllipseShapeClass (position s) (color s) radiusX radiusY
  | PolygonShapeClass points _ =>
      new_PolygonShapeClass (position s) (color s) points
  | LineShapeClass thickness _ =>
      new_LineShapeClass (position s)
        (sf.Vector2f_add (position s)
           (sf.mkVector2f (F32.of_Z 100) (F32.of_Z 0)))
        (color s) thickness
  end.

(** ** The scene: [std::vector<std::unique_ptr<ShapeBase>>] *)

Definition Scene := list (option ShapeBase).

(** Index of a vector element, [None] outside [0, size). *)
Definition vec_index {A} (i : Z) (v : list A) : option nat :=
  if (0 <=? i) && (i <? Z.of_nat (List.length v)) then Some (Z.to_nat i) else None.

(** [v[i]] *)
Definition vec_at {A} (i : Z) (v : list A) : result A :=
  match vec_index i v with
  | Some n => match nth_error v n with
              | Some a => Ok a
              | None => Fault OutOfRange
              end
  | None => Fault OutOfRange
  end.

(** [v.erase(v.begin() + i)] *)
Definition vec_erase {A} (i : Z) (v : list A) : result (list A) :=
  match vec_index i v with
  | Some n => Ok (firstn n v ++ skipn (S n) v)
  | None => Fault OutOfRange
  end.

(** [v.insert(v.begin() + i, a)]: [i = size] inserts at the end. *)
Definition vec_insert {A} (i : Z) (a : A) (v : list A) : result (list A) :=
  if (0 <=? i) && (i <=? Z.of_nat (List.length v))
  then Ok (firstn (Z.to_nat i) v ++ a :: skipn (Z.to_nat i) v)
  else Fault OutOfRange.

(** [v[i] = a] *)
Definition vec_assign {A} (i : Z) (a : A) (v : list A) : result (list A) :=
  match vec_index i v with
  | Some n => Ok (firstn n v ++ a :: skipn (S n) v)
  | None => Fault OutOfRange
  end.

(** [p->...] on an element of the scene. *)
Definition deref {A} (p : option A) : result A :=
  match p with
  | Some a => Ok a
  | None => Fault NullDeref
  end.

(** ** Actions and the undo/redo manager *)

Module Action.
Inductive Type_ := Add | Remove | Modify.

Record t := mk { type : Type_; shape : option ShapeBase; index : Z }.

(** [Action{}]: the first enumerator, a null shape, index 0. *)
Definition empty : t := mk Add None 0.

(** [std::move] of an action into a new one: the target gets the members,
    the source keeps [type] and [index] and is left with a null [shape]. *)
Definition move (a : t) : t * t := (a, mk (type a) None (index a)).
End Action.

(** The two [std::stack<Action>], top first. *)
Record UndoRedoManager := mkManager {
  undoStack : list Action.t;
  redoStack : list Action.t
}.

(** [while (!s.empty()) s.pop();] *)
Fixpoint pop_all (s : list Action.t) : list Action.t :=
  match s with
  | [] => []
  | _ :: s' => pop_all s'
  end.

Definition addAction (action : Action.t) (m : UndoRedoManager)
    : UndoRedoManager :=
  let '(pushed, _) := Action.move action in
  mkManager (pushed :: undoStack m) (pop_all (redoStack m)).

Definition canUndo (m : UndoRedoManager) : bool :=
  match undoStack m with [] => false | _ => true end.
Definition canRedo (m : UndoRedoManager) : bool :=
  match redoStack m with [] => false | _ => true end.

(** [undo()]: under [canUndo()], the action is moved out of the top of
    [undoStack], moved again into [redoStack], and then the moved-from local
    is returned; otherwise [Action{}]. *)
Definition undo (m : UndoRedoManager) : Action.t * UndoRedoManager :=
  if canUndo m then
    match undoStack m with
    | top :: rest =>
        let '(action, _) := Action.move top in
        let '(pushed, action) := Action.move action in
        (action, mkManager rest (pushed :: redoStack m))
    | [] => (Action.empty, m)
    end
  else (Action.empty, m).

Definition redo (m : UndoRedoManager) : Action.t * UndoRedoManager :=
  if canRedo m then
    match redoStack m with
    | top :: rest =>
        let '(action, _) := Action.move top in
        let '(pushed, action) := Action.move action in
        (action, mkManager (pushed :: undoStack m) rest)
    | [] => (Action.empty, m)
    end
  else (Action.empty, m).

(** ** The handlers of [main] *)

Record App := mkApp {
  formas : Scene;
  undoRedoManager : UndoRedoManager
}.

(** What every [Añadir ...] button does with the shape it has built:
    [emplace_back], then record [Add] with a clone of [formas.back()]. *)
Definition anadir (nueva : ShapeBase) (app : App) : result App :=
  let formas1 := formas app ++ [Some nueva] in
  back <- deref (last formas1 None) ;;
  let action :=
    Action.mk Action.Add (Some (clone back))
              (Z.of_nat (List.length formas1) - 1) in
  Ok (mkApp formas1 (addAction action (undoRedoManager app))).

Definition boton_Anadir_Circulo : App -> result App :=
  anadir (new_CircleShapeClass
            (sf.mkVector2f (F32.of_Z 400) (F32.of_Z 300)) sf.Green
            (F32.of_Z 50)).

(** [Eliminar Forma], under the guard
    [formaSeleccionada >= 0 && formaSeleccionada < formas.size()]. *)
Definition boton_Eliminar_Forma (formaSeleccionada : Z) (app : App)
    : result App :=
  match vec_index formaSeleccionada (formas app) with
  | None => Ok app
  | Some _ =>
      p <- vec_at formaSeleccionada (formas app) ;;
      sel <- deref p ;;
      let action :=
        Action.mk Action.Remove (Some (clone sel)) formaSeleccionada in
      let m := addAction action (undoRedoManager app) in
      formas1 <- vec_erase formaSeleccionada (formas app) ;;
      Ok (mkApp formas1 m)
  end.

(** Releasing the mouse after a drag of [formaArrastrada] records [Modify]
    with a clone of the shape as it is then. *)
Definition soltar_arrastre (formaArrastrada : Z) (app : App) : result App :=
  p <- vec_at formaArrastrada (formas app) ;;
  sel <- deref p ;;
  let action := Action.mk Action.Modify (Some (clone sel)) formaArrastrada in
  Ok (mkApp (formas app) (addAction action (undoRedoManager app))).

(** [Deshacer] (and Ctrl+Z, the same code). *)
Definition boton_Deshacer (app : App) : result App :=
  if canUndo (undoRedoManager app) then
    let '(action, m) := undo (undoRedoManager app) in
    formas1 <-
      match Action.type action with
      | Action.Add => vec_erase (Action.index action) (formas app)
      | Action.Remove =>
          vec_insert (Action.index action) (Action.shape action) (formas app)
      | Action.Modify =>
          vec_assign (Action.index action) (Action.shape action) (formas app)
      end ;;
    Ok (mkApp formas1 m)
  else Ok app.

(** [Rehacer] (and Ctrl+Y). *)
Definition boton_Rehacer (app : App) : result App :=
  if canRedo (undoRedoManager app) then
    let '(action, m) := redo (undoRedoManager app) in
    formas1 <-
      match Action.type action with
      | Action.Add =>
          vec_insert (Action.index action) (Action.shape action) (formas app)
      | Action.Remove => vec_erase (Action.index action) (formas app)
      | Action.Modify =>
          vec_assign (Action.index action) (Action.shape action) (formas app)
      end ;;
    Ok (mkApp formas1 m)
  else Ok app.

(** [for (auto& forma : formas) forma->updateShape(deltaTime);] *)
Fixpoint actualizar_animaciones (deltaTime : F32.t) (fs : Scene)
    : result Scene :=
  match fs with
  | [] => Ok []
  | p :: fs' =>
      forma <- deref p ;;
      forma1 <- updateShape deltaTime forma ;;
      fs1 <- actualizar_animaciones deltaTime fs' ;;
      Ok (Some forma1 :: fs1)
  end.

Definition app0 : App := mkApp [] (mkManager [] []).

(** ** Text streams

    The file is the text [guardarEscena] writes and [cargarEscena] reads,
    through the inserters and extractors of [<fstream>] in their default
    state: decimal integers, [bool] as 0 or 1, and [float] in the general
    format with six significant digits. *)

Definition text := list ascii.

Definition sp : text := [" "%char].
Definition nl : text := ["010"%char].

Definition isspace (c : ascii) : bool :=
  let n := N_of_ascii c in
  ((n =? 32) || ((9 <=? n) && (n <=? 13)))%N.

Definition digit_of (c : ascii) : option (Decimal.uint -> Decimal.uint) :=
  match c with
  | "0" => Some Decimal.D0 | "1" => Some Decimal.D1 | "2" => Some Decimal.D2
  | "3" => Some Decimal.D3 | "4" => Some Decimal.D4 | "5" => Some Decimal.D5
  | "6" => Some Decimal.D6 | "7" => Some Decimal.D7 | "8" => Some Decimal.D8
  | "9" => Some Decimal.D9
  | _ => None
  end%char.

(** *** Inserters *)

Fixpoint uint_chars (u : Decimal.uint) : text :=
  match u with
  | Decimal.Nil => []
  | Decimal.D0 u => "0"%char :: uint_chars u
  | Decimal.D1 u => "1"%char :: uint_chars u
  | Decimal.D2 u => "2"%char :: uint_chars u
  | Decimal.D3 u => "3"%char :: uint_chars u
  | Decimal.D4 u => "4"%char :: uint_chars u
  | Decimal.D5 u => "5"%char :: uint_chars u
  | Decimal.D6 u => "6"%char :: uint_chars u
  | Decimal.D7 u => "7"%char :: uint_chars u
  | Decimal.D8 u => "8"%char :: uint_chars u
  | Decimal.D9 u => "9"%char :: uint_chars u
  end.

Definition put_N (n : N) : text := uint_chars (N.to_uint n).

Definition put_Z (z : Z) : text :=
  if z <? 0 then "-"%char :: put_N (Z.to_N (- z)) else put_N (Z.to_N z).

Definition put_bool (b : bool) : text := if b then ["1"%char] else ["0"%char].

(** The value [m * 2^e] of a finite float as a fraction. *)
Definition ratio_of (m : positive) (e : Z) : Z * Z :=
  if 0 <=? e then (Zpos m * 2 ^ e, 1) else (Zpos m, 2 ^ (- e)).

(** [10^x <= num / den] *)
Definition pow10_le (x num den : Z) : bool :=
  if 0 <=? x then 10 ^ x * den <=? num else den <=? num * 10 ^ (- x).

(** The decimal exponent of [num / den]: the largest [x] with
    [10^x <= num / den], looked for downwards from [x]. *)
Fixpoint dec_exponent (fuel : nat) (x num den : Z) : Z :=
  match fuel with
  | O => x
  | S fuel' =>
      if pow10_le x num den then x else dec_exponent fuel' (x - 1) num den
  end.

(** [num / den * 10^(5 - x)] rounded to an integer, ties to even. *)
Definition round_sig6 (x num den : Z) : Z :=
  let '(n, d) :=
    if 0 <=? 5 - x then (num * 10 ^ (5 - x), den)
    else (num, den * 10 ^ (x - 5)) in
  let q := n / d in
  let r := n mod d in
  match 2 * r ?= d with
  | Lt => q
  | Gt => q + 1
  | Eq => if Z.even q then q else q + 1
  end.

(** Six significant digits [d] (100000 to 999999) and the decimal exponent
    [x] of the first of them. *)
Definition sig6 (m : positive) (e : Z) : Z * Z :=
  let '(num, den) := ratio_of m e in
  let x := dec_exponent 84 38 num den in
  let d := round_sig6 x num den in
  if d =? 1000000 then (100000, x + 1) else (d, x).

Fixpoint strip_leading_zeros (s : text) : text :=
  match s with
  | c :: s' => if Ascii.eqb c "0" then strip_leading_zeros s' else s
  | [] => []
  end.
Definition strip_trailing_zeros (s : text) : text :=
  rev (strip_leading_zeros (rev s)).

Definition with_point (int_part frac : text) : text :=
  match strip_trailing_zeros frac with
  | [] => int_part
  | f => int_part ++ "."%char :: f
  end.

(** [printf("%.6g")] of a positive finite float: with [x] the decimal
    exponent, fixed notation when [-4 <= x < 6] and scientific otherwise,
    trailing zeros of the fraction removed. *)
Definition put_g (m : positive) (e : Z) : text :=
  let '(d, x) := sig6 m e in
  let digits := put_N (Z.to_N d) in
  if (x <? -4) || (6 <=? x) then
    with_point (firstn 1 digits) (skipn 1 digits)
    ++ "e"%char :: (if x <? 0 then "-"%char else "+"%char)
    :: (if Z.abs x <? 10 then ["0"%char] else []) ++ put_N (Z.to_N (Z.abs x))
  else if 0 <=? x then
    with_point (firstn (Z.to_nat (x + 1)) digits)
               (skipn (Z.to_nat (x + 1)) digits)
  else
    with_point ["0"%char] (repeat "0"%char (Z.to_nat (- x - 1)) ++ digits).

(** [archivo << f].  [SpecFloat] has one NaN, written [nan]; the code
    writes [-nan] for a NaN with the sign bit set.  The extractor takes
    neither for a number. *)
Definition put_float (f : F32.t) : text :=
  let sign (s : bool) := if s then ["-"%char] else [] in
  match f with
  | S754_zero s => sign s ++ ["0"%char]
  | S754_infinity s => sign s ++ ["i"; "n"; "f"]%char
  | S754_nan => ["n"; "a"; "n"]%char
  | S754_finite s m e => sign s ++ put_g m e
  end.

(** [archivo << v], overloaded as in the source. *)
Class Insert (A : Type) := insert : text -> A -> text.
#[global] Instance Insert_size_t : Insert N := fun o n => o ++ put_N n.
#[global] Instance Insert_int : Insert Z := fun o z => o ++ put_Z z.
#[global] Instance Insert_bool : Insert bool := fun o b => o ++ put_bool b.
#[global] Instance Insert_float : Insert F32.t := fun o f => o ++ put_float f.
#[global] Instance Insert_string : Insert text := fun o s => o ++ s.
Notation "o << v" := (insert o v) (at level 50, left associativity).

(** *** Extractors

    The readers of this section follow the stream as long as every
    extraction succeeds, and stop with [Fault StreamFail] at the first one
    that does not.  The code does not stop there: it stores a value, sets
    [failbit] and goes on, and may well return.  What it does from there
    on is in [Failbit] below; the two agree wherever the readers here do
    not stop. *)

(** A reader consumes a prefix of the remaining text. *)
Definition reader (A : Type) := text -> result (A * text).

Definition ret {A} (a : A) : reader A := fun s => Ok (a, s).
Definition rbind {A B} (c : reader A) (k : A -> reader B) : reader B :=
  fun s => match c s with
           | Ok (a, s') => k a s'
           | Fault f => Fault f
           end.
Definition lift {A} (c : result A) : reader A :=
  fun s => match c with
           | Ok a => Ok (a, s)
           | Fault f => Fault f
           end.

Notation "x <~ c ;; k" := (rbind c (fun x => k))
  (at level 61, c at next level, right associativity).

Fixpoint skipws (s : text) : text :=
  match s with
  | c :: s' => if isspace c then skipws s' else s
  | [] => []
  end.

(** The next word: the characters up to the next white space.  No numeric
    format takes a white-space character, so an extractor never reads
    beyond the word. *)
Fixpoint take_word (s : text) : text * text :=
  match s with
  | c :: s' =>
      if isspace c then ([], s)
      else let '(w, r) := take_word s' in (c :: w, r)
  | [] => ([], [])
  end.

Fixpoint take_digits (s : text) : Decimal.uint * text :=
  match s with
  | c :: s' =>
      match digit_of c with
      | Some d => let '(u, r) := take_digits s' in (d u, r)
      | None => (Decimal.Nil, s)
      end
  | [] => (Decimal.Nil, [])
  end.

Definition take_sign (s : text) : bool * text :=
  match s with
  | "-"%char :: r => (true, r)
  | "+"%char :: r => (false, r)
  | _ => (false, s)
  end.

(** An integer in a word: optional sign, then digits, at least one. *)
Definition scan_int (w : text) : option (bool * N * text) :=
  let '(neg, w1) := take_sign w in
  let '(u, w2) := take_digits w1 in
  match u with
  | Decimal.Nil => None
  | _ => Some (neg, N.of_uint u, w2)
  end.

(** [archivo >> v] for a signed integer of [bits] bits, when it succeeds.
    On a field that is no number or is out of range the code stores 0 or
    the nearest bound and sets [failbit]; the reader stops. *)
Definition get_signed (bits : Z) : reader Z := fun s =>
  let '(w, rest) := take_word (skipws s) in
  match scan_int w with
  | Some (neg, n, w') =>
      let v := if neg then - Z.of_N n else Z.of_N n in
      if (- 2 ^ (bits - 1) <=? v) && (v <? 2 ^ (bits - 1))
      then Ok (v, w' ++ rest) else Fault StreamFail
  | None => Fault StreamFail
  end.

(** [archivo >> v] for an unsigned integer of [bits] bits, when it
    succeeds; a minus sign negates modulo [2^bits].  On a field that is no
    number or is too large the code stores 0 or [2^bits - 1] and sets
    [failbit]; the reader stops. *)
Definition get_unsigned (bits : Z) : reader Z := fun s =>
  let '(w, rest) := take_word (skipws s) in
  match scan_int w with
  | Some (neg, n, w') =>
      let v := Z.of_N n in
      if v <? 2 ^ bits
      then Ok ((if neg then (- v) mod 2 ^ bits else v), w' ++ rest)
      else Fault StreamFail
  | None => Fault StreamFail
  end.

Definition get_int : reader Z := get_signed 32.
Definition get_unsigned_int : reader Z := get_unsigned 32.
Definition get_size_t : reader Z := get_unsigned 64.

(** [archivo >> b] without [boolalpha], when it succeeds: 0 or 1.  On
    anything else the code stores [true] (a number) or [false] (no number)
    and sets [failbit]; the reader stops. *)
Definition get_bool : reader bool := fun s =>
  let '(w, rest) := take_word (skipws s) in
  match scan_int w with
  | Some (neg, n, w') =>
      match n with
      | 0%N => Ok (false, w' ++ rest)
      | 1%N => if neg then Fault StreamFail else Ok (true, w' ++ rest)
      | _ => Fault StreamFail
      end
  | None => Fault StreamFail
  end.

(** The float nearest to [d * 10^k], as [strtof] converts a decimal. *)
Definition of_decimal (neg : bool) (d : N) (k : Z) : F32.t :=
  match d with
  | 0%N => S754_zero neg
  | Npos p =>
      if 0 <=? k
      then binary_normalize F32.prec F32.emax
             ((if neg then Zneg p else Zpos p) * 10 ^ k) 0 false
      else F32.of_ratio neg p (Z.to_pos (10 ^ (- k)))
  end.

Definition uint_length (u : Decimal.uint) : Z :=
  Z.of_nat (List.length (uint_chars u)).

(** A floating-point number in a word: optional sign, digits with at most
    one point and at least one digit, and after [e] or [E] an optionally
    signed exponent with at least one digit. *)
Definition scan_float (w : text) : option (F32.t * text) :=
  let '(neg, w1) := take_sign w in
  let '(ip, w2) := take_digits w1 in
  let '(fp, w3) :=
    match w2 with
    | "."%char :: r => take_digits r
    | _ => (Decimal.Nil, w2)
    end in
  match Decimal.app ip fp with
  | Decimal.Nil => None
  | mant =>
      let frac_len := uint_length fp in
      match w3 with
      | ("e" | "E")%char :: r =>
          let '(eneg, r1) := take_sign r in
          let '(eu, r2) := take_digits r1 in
          match eu with
          | Decimal.Nil => None
          | _ =>
              let ex := Z.of_N (N.of_uint eu) in
              Some (of_decimal neg (N.of_uint mant)
                      ((if eneg then - ex else ex) - frac_len), r2)
          end
      | _ => Some (of_decimal neg (N.of_uint mant) (- frac_len), w3)
      end
  end.

(** [archivo >> f], when it succeeds.  On a field that is no number or is
    too large for [float] the code stores 0 or [FLT_MAX] and sets
    [failbit]; the reader stops. *)
Definition get_float : reader F32.t := fun s =>
  let '(w, rest) := take_word (skipws s) in
  match scan_float w with
  | Some (S754_infinity _, _) => Fault StreamFail
  | Some (v, w') => Ok (v, w' ++ rest)
  | None => Fault StreamFail
  end.

(** [archivo >> std::ws] *)
Definition ws : reader unit := fun s => Ok (tt, skipws s).

(** [std::getline(archivo, contenido, ' ')]: up to the next space, which is
    taken off the stream; fails on an exhausted stream. *)
Fixpoint upto_space (s : text) : text * text :=
  match s with
  | " "%char :: r => ([], r)
  | c :: r => let '(l, r') := upto_space r in (c :: l, r')
  | [] => ([], [])
  end.

Definition getline_space : reader text := fun s =>
  match s with
  | [] => Fault StreamFail
  | _ => Ok (upto_space s)
  end.

(** ** The scene file *)

(** The fields a class adds to its record; [dynamic_cast] to the class the
    type tag names, nothing written when the object is of another class.
    [ShapeType::Cube] has no case and falls to [default]. *)
Definition escribir_propiedades (archivo : text) (forma : ShapeBase) : text :=
  match getType forma, derived forma with
  | Circle, CircleShapeClass radius rotationSpeed scaleSpeed _ =>
      archivo << radius << sp << rotationSpeed << sp << scaleSpeed
  | Rectangle, RectangleShapeClass size rotationSpeed scaleSpeed _ =>
      archivo << sf.x size << sp << sf.y size << sp << rotationSpeed
              << sp << scaleSpeed
  | Triangle, TriangleShapeClass size rotationSpeed =>
      archivo << size << sp << rotationSpeed
  | Ellipse, EllipseShapeClass radiusX radiusY rotationSpeed =>
      archivo << radiusX << sp << radiusY << sp << rotationSpeed
  | Polygon, PolygonShapeClass puntos rotationSpeed =>
      fold_left (fun o punto => o << sp << sf.x punto << sp << sf.y punto)
                puntos (archivo << N.of_nat (List.length puntos))
      << sp << rotationSpeed
  | Line, LineShapeClass thickness rotationSpeed =>
      archivo << thickness << sp << rotationSpeed
  | Text, TextShapeClass content characterSize _ _ _ =>
      archivo << content << sp << characterSize << sp
  | _, _ => archivo
  end.

(** One pass of the loop of [guardarEscena] over a non-null [forma]. *)
Definition escribir_forma (archivo : text) (forma : ShapeBase) : text :=
  escribir_propiedades
    (archivo << ShapeType_to_int (getType forma) << sp
             << sf.x (getPosition forma) << sp
             << sf.y (getPosition forma) << sp
             << getRotation forma << sp
             << sf.x (getScale forma) << sp << sf.y (getScale forma) << sp
             << sf.r (getColor forma) << sp << sf.g (getColor forma) << sp
             << sf.b (getColor forma) << sp << sf.a (getColor forma) << sp
             << animated forma << sp)
    forma
  << nl.

Fixpoint escribir_formas (archivo : text) (fs : Scene) : result text :=
  match fs with
  | [] => Ok archivo
  | p :: fs' =>
      forma <- deref p ;;
      escribir_formas (escribir_forma archivo forma) fs'
  end.

(** [guardarEscena(nombreArchivo, formas)]: [is_open] tells whether the
    output file could be opened; the result is the text then written. *)
Definition guardarEscena (is_open : bool) (fs : Scene) : result (option text) :=
  if is_open then
    archivo <- escribir_formas ([] << N.of_nat (List.length fs) << nl) fs ;;
    Ok (Some archivo)
  else Ok None.

(** [for (p = 0; p < puntosCount; ++p) archivo >> puntos[p].x >> puntos[p].y;] *)
Fixpoint leer_puntos (puntosCount : nat) : reader (list sf.Vector2f) :=
  match puntosCount with
  | O => ret []
  | S n =>
      px <~ get_float ;;
      py <~ get_float ;;
      puntos <~ leer_puntos n ;;
      ret (sf.mkVector2f px py :: puntos)
  end.

(** The [switch] of [cargarEscena]: the shape built for a type tag, a null
    pointer for a tag with no case. *)
Definition leer_propiedades (tipo : option ShapeType) (posicion : sf.Vector2f)
    (col : sf.Color) : reader (option ShapeBase) :=
  match tipo with
  | Some Circle =>
      radio <~ get_float ;;
      rotSpeed <~ get_float ;;
      scaleSpeed <~ get_float ;;
      ret (Some (setScaleSpeed scaleSpeed
                   (setRotationSpeed rotSpeed
                      (new_CircleShapeClass posicion col radio))))
  | Some Rectangle =>
      sizeX <~ get_float ;;
      sizeY <~ get_float ;;
      rotSpeed <~ get_float ;;
      scaleSpeed <~ get_float ;;
      ret (Some (setScaleSpeed scaleSpeed
                   (setRotationSpeed rotSpeed
                      (new_RectangleShapeClass posicion col
                         (sf.mkVector2f sizeX sizeY)))))
  | Some Triangle =>
      size <~ get_float ;;
      rotSpeed <~ get_float ;;
      ret (Some (setRotationSpeed rotSpeed
                   (new_TriangleShapeClass posicion col size)))
  | Some Ellipse =>
      rX <~ get_float ;;
      rY <~ get_float ;;
      rotSpeed <~ get_float ;;
      ret (Some (setRotationSpeed rotSpeed
                   (new_EllipseShapeClass posicion col rX rY)))
  | Some Polygon =>
      puntosCount <~ get_size_t ;;
      puntos <~ leer_puntos (Z.to_nat puntosCount) ;;
      rotSpeed <~ get_float ;;
      ret (Some (setRotationSpeed rotSpeed
                   (new_PolygonShapeClass posicion col puntos)))
  | Some Line =>
      grosor <~ get_float ;;
      rotSpeed <~ get_float ;;
      ret (Some (setRotationSpeed rotSpeed
                   (new_LineShapeClass
                      (sf.mkVector2f (sf.x posicion - F32.of_Z 50)%f32
                                     (sf.y posicion))
                      (sf.mkVector2f (sf.x posicion + F32.of_Z 50)%f32
                                     (sf.y posicion))
                      col grosor)))
  | Some Text =>
      _ <~ ws ;;
      contenido <~ getline_space ;;
      tam <~ get_unsigned_int ;;
      ret (Some (setCharacterSize tam
                   (new_TextShapeClass posicion col contenido)))
  | Some Cube | None => ret None
  end.

(** One pass of the loop of [cargarEscena]: the shape to push, if any. *)
Definition leer_forma : reader (option ShapeBase) :=
  tipoInt <~ get_int ;;
  posX <~ get_float ;;
  posY <~ get_float ;;
  rot <~ get_float ;;
  escX <~ get_float ;;
  escY <~ get_float ;;
  r <~ get_int ;;
  g <~ get_int ;;
  b <~ get_int ;;
  a <~ get_int ;;
  animado <~ get_bool ;;
  nuevaForma <~ leer_propiedades (ShapeType_of_int tipoInt)
                  (sf.mkVector2f posX posY) (sf.Color_rgba r g b a) ;;
  match nuevaForma with
  | Some forma =>
      let forma := enableAnimation animado forma in
      forma <~ lift (setRotation rot forma) ;;
      forma <~ lift (setScale (sf.mkVector2f escX escY) forma) ;;
      ret (Some forma)
  | None => ret None
  end.

Fixpoint leer_formas (cantidad : nat) (fs : Scene) : reader Scene :=
  match cantidad with
  | O => ret fs
  | S n =>
      nuevaForma <~ leer_forma ;;
      leer_formas n match nuevaForma with
                    | Some forma => fs ++ [Some forma]
                    | None => fs
                    end
  end.

(** [cargarEscena(nombreArchivo, formas, font)]: [archivo] is the text of
    the file, [None] when it cannot be opened.  The font only reaches the
    renderer and is left out.  With the readers above, this is the loader
    as long as every extraction succeeds: [Fault StreamFail] where one
    fails, from where on the code is followed by [Failbit.cargarEscena]. *)
Definition cargarEscena (archivo : option text) (fs : Scene) : result Scene :=
  match archivo with
  | Some s =>
      '(fs', _) <-
        (cantidad <~ get_size_t ;;
         leer_formas (Z.to_nat cantidad) []) s ;;
      Ok fs'
  | None => Ok fs
  end.

(** Save, then load what was written. *)
Definition guardar_y_cargar (fs : Scene) : result Scene :=
  archivo <- guardarEscena true fs ;;
  cargarEscena archivo fs.

(** ** The loader on a failing stream

    The extractors above stop at the first extraction that fails.  The
    code does not: since C++11 a failed [operator>>] stores a value (0 for
    a field that is no number, the nearest bound for one out of range),
    sets [failbit] and returns, and every later extraction finds the stream
    failed and leaves its variable as it was.  [cargarEscena] never tests
    the stream, so it goes on with what is in its locals: the run is
    undefined only once it reads one that nothing was written to.

    [Failbit] is the loader with the stream state and the locals spelled
    out.  [eofbit] needs no field: an extraction from an exhausted stream
    fails in the same way whether or not it is set. *)

(** What an extraction that fails stores in its variable: 0 for a field
    that is no number, the bound on its side for a number out of range. *)
Definition stored_signed (bits : Z) (s : text) : Z :=
  match scan_int (fst (take_word s)) with
  | Some (neg, _, _) => if neg then - 2 ^ (bits - 1) else 2 ^ (bits - 1) - 1
  | None => 0
  end.

Definition stored_unsigned (bits : Z) (s : text) : Z :=
  match scan_int (fst (take_word s)) with
  | Some _ => 2 ^ bits - 1
  | None => 0
  end.

(** A number other than 0 and 1 is stored as [true], no number as
    [false]. *)
Definition stored_bool (s : text) : bool :=
  match scan_int (fst (take_word s)) with
  | Some _ => true
  | None => false
  end.

Definition FLT_MAX : F32.t := S754_finite false 16777215 104.

Definition stored_float (s : text) : F32.t :=
  match scan_float (fst (take_word s)) with
  | Some (S754_infinity neg, _) => if neg then SFopp FLT_MAX else FLT_MAX
  | _ => S754_zero false
  end.

Module Failbit.

(** The characters not yet read, and [failbit]. *)
Record ifstream := mkStream { buffer : text; failbit : bool }.

(** A step of the loader: it moves the stream, and stops where the code
    reads a variable nothing was written to. *)
Definition lector (A : Type) := ifstream -> result (A * ifstream).

Definition ret {A} (a : A) : lector A := fun st => Ok (a, st).
Definition lbind {A B} (c : lector A) (k : A -> lector B) : lector B :=
  fun st => match c st with
            | Ok (a, st') => k a st'
            | Fault f => Fault f
            end.
Definition lift {A} (c : result A) : lector A :=
  fun st => match c with
            | Ok a => Ok (a, st)
            | Fault f => Fault f
            end.

Notation "x <-- c ;; k" := (lbind c (fun x => k))
  (at level 61, c at next level, right associativity).

(** The outcome of a step of the extractors above, on a stream that has
    not failed. *)
Definition sin_fallo {A} (r : result (A * text)) : result (A * ifstream) :=
  match r with
  | Ok (a, s) => Ok (a, mkStream s false)
  | Fault f => Fault f
  end.

(** A local variable is [None] until something is written to it; reading
    it before is undefined. *)
Definition usar {A} (x : option A) : lector A :=
  fun st => match x with
            | Some v => Ok (v, st)
            | None => Fault StreamFail
            end.

(** [archivo >> x] for the variable [x]: nothing happens on a failed
    stream; an exhausted one fails and leaves [x] alone; otherwise [get]
    reads the next field, and where it cannot, [stored] is written to [x]
    and the stream fails.  What a failed extraction has consumed is of no
    consequence, nothing reads from the stream again. *)
Definition extraer {A} (get : reader A) (stored : text -> A) (x : option A)
    : lector (option A) :=
  fun st =>
    if failbit st then Ok (x, st)
    else match skipws (buffer st) with
         | [] => Ok (x, mkStream [] true)
         | s => match get s with
                | Ok (v, s') => Ok (Some v, mkStream s' false)
                | Fault _ => Ok (Some (stored s), mkStream s true)
                end
         end.

Definition get_int := extraer (get_signed 32) (stored_signed 32).
Definition get_unsigned_int := extraer (get_unsigned 32) (stored_unsigned 32).
Definition get_size_t := extraer (get_unsigned 64) (stored_unsigned 64).
Definition get_bool := extraer get_bool stored_bool.
Definition get_float := extraer get_float stored_float.

(** [archivo >> std::ws] *)
Definition ws : lector unit := fun st =>
  if failbit st then Ok (tt, st)
  else Ok (tt, mkStream (skipws (buffer st)) false).

(** [std::getline(archivo, contenido, ' ')]: [contenido] is emptied and
    filled up to the next space unless the stream has failed; taking no
    character at all, it fails. *)
Definition getline_space (contenido : text) : lector text := fun st =>
  if failbit st then Ok (contenido, st)
  else match buffer st with
       | [] => Ok ([], mkStream [] true)
       | s => let '(l, r) := upto_space s in Ok (l, mkStream r false)
       end.

(** [std::vector<sf::Vector2f> puntos(puntosCount)] starts every point at
    (0,0), so a point the stream does not give stays there.  (The memory
    for the points is taken to be there, however many.) *)
Fixpoint leer_puntos (puntosCount : nat) : lector (list sf.Vector2f) :=
  match puntosCount with
  | O => ret []
  | S n =>
      px <-- get_float (Some (F32.of_Z 0)) ;;
      py <-- get_float (Some (F32.of_Z 0)) ;;
      px <-- usar px ;;
      py <-- usar py ;;
      puntos <-- leer_puntos n ;;
      ret (sf.mkVector2f px py :: puntos)
  end.

(** The [switch] of [cargarEscena]; the locals of each case are read where
    the constructor and the setters take them. *)
Definition leer_propiedades (tipo : option ShapeType) (posicion : sf.Vector2f)
    (col : sf.Color) : lector (option ShapeBase) :=
  match tipo with
  | Some Circle =>
      radio <-- get_float None ;;
      rotSpeed <-- get_float None ;;
      scaleSpeed <-- get_float None ;;
      radio <-- usar radio ;;
      rotSpeed <-- usar rotSpeed ;;
      scaleSpeed <-- usar scaleSpeed ;;
      ret (Some (setScaleSpeed scaleSpeed
                   (setRotationSpeed rotSpeed
                      (new_CircleShapeClass posicion col radio))))
  | Some Rectangle =>
      sizeX <-- get_float None ;;
      sizeY <-- get_float None ;;
      rotSpeed <-- get_float None ;;
      scaleSpeed <-- get_float None ;;
      sizeX <-- usar sizeX ;;
      sizeY <-- usar sizeY ;;
      rotSpeed <-- usar rotSpeed ;;
      scaleSpeed <-- usar scaleSpeed ;;
      ret (Some (setScaleSpeed scaleSpeed
                   (setRotationSpeed rotSpeed
                      (new_RectangleShapeClass posicion col
                         (sf.mkVector2f sizeX sizeY)))))
  | Some Triangle =>
      size <-- get_float None ;;
      rotSpeed <-- get_float None ;;
      size <-- usar size ;;
      rotSpeed <-- usar rotSpeed ;;
      ret (Some (setRotationSpeed rotSpeed
                   (new_TriangleShapeClass posicion col size)))
  | Some Ellipse =>
      rX <-- get_float None ;;
      rY <-- get_float None ;;
      rotSpeed <-- get_float None ;;
      rX <-- usar rX ;;
      rY <-- usar rY ;;
      rotSpeed <-- usar rotSpeed ;;
      ret (Some (setRotationSpeed rotSpeed
                   (new_EllipseShapeClass posicion col rX rY)))
  | Some Polygon =>
      puntosCount <-- get_size_t None ;;
      puntosCount <-- usar puntosCount ;;
      puntos <-- leer_puntos (Z.to_nat puntosCount) ;;
      rotSpeed <-- get_float None ;;
      rotSpeed <-- usar rotSpeed ;;
      ret (Some (setRotationSpeed rotSpeed
                   (new_PolygonShapeClass posicion col puntos)))
  | Some Line =>
      grosor <-- get_float None ;;
      rotSpeed <-- get_float None ;;
      grosor <-- usar grosor ;;
      rotSpeed <-- usar rotSpeed ;;
      ret (Some (setRotationSpeed rotSpeed
                   (new_LineShapeClass
                      (sf.mkVector2f (sf.x posicion - F32.of_Z 50)%f32
                                     (sf.y posicion))
                      (sf.mkVector2f (sf.x posicion + F32.of_Z 50)%f32
                                     (sf.y posicion))
                      col grosor)))
  | Some Text =>
      _ <-- ws ;;
      contenido <-- getline_space [] ;;
      tam <-- get_unsigned_int None ;;
      tam <-- usar tam ;;
      ret (Some (setCharacterSize tam
                   (new_TextShapeClass posicion col contenido)))
  | Some Cube | None => ret None
  end.

(** One pass of the loop of [cargarEscena].  The eleven locals are
    declared without a value; the tag, the position and the colour are
    read right after the extractions, the flag, the rotation and the scale
    only when a shape was built. *)
Definition leer_forma : lector (option ShapeBase) :=
  tipoInt <-- get_int None ;;
  posX <-- get_float None ;;
  posY <-- get_float None ;;
  rot <-- get_float None ;;
  escX <-- get_float None ;;
  escY <-- get_float None ;;
  r <-- get_int None ;;
  g <-- get_int None ;;
  b <-- get_int None ;;
  a <-- get_int None ;;
  animado <-- get_bool None ;;
  tipoInt <-- usar tipoInt ;;
  posX <-- usar posX ;;
  posY <-- usar posY ;;
  r <-- usar r ;;
  g <-- usar g ;;
  b <-- usar b ;;
  a <-- usar a ;;
  nuevaForma <-- leer_propiedades (ShapeType_of_int tipoInt)
                   (sf.mkVector2f posX posY) (sf.Color_rgba r g b a) ;;
  match nuevaForma with
  | Some forma =>
      animado <-- usar animado ;;
      let forma := enableAnimation animado forma in
      rot <-- usar rot ;;
      forma <-- lift (setRotation rot forma) ;;
      escX <-- usar escX ;;
      escY <-- usar escY ;;
      forma <-- lift (setScale (sf.mkVector2f escX escY) forma) ;;
      ret (Some forma)
  | None => ret None
  end.

Fixpoint leer_formas (cantidad : nat) (fs : Scene) : lector Scene :=
  match cantidad with
  | O => ret fs
  | S n =>
      nuevaForma <-- leer_forma ;;
      leer_formas n match nuevaForma with
                    | Some forma => fs ++ [Some forma]
                    | None => fs
                    end
  end.

(** [cargarEscena(nombreArchivo, formas, font)]: [cantidad] is read by the
    loop, after [formas.clear()]. *)
Definition cargarEscena (archivo : option text) (fs : Scene) : result Scene :=
  match archivo with
  | Some s =>
      '(fs', _) <-
        (cantidad <-- get_size_t None ;;
         cantidad <-- usar cantidad ;;
         leer_formas (Z.to_nat cantidad) []) (mkStream s false) ;;
      Ok fs'
  | None => Ok fs
  end.

(** Save, then load what was written. *)
Definition guardar_y_cargar (fs : Scene) : result Scene :=
  archivo <- guardarEscena true fs ;;
  cargarEscena archivo fs.

(** [Cargar Escena] *)
Definition boton_Cargar_Escena (archivo : option text) (app : App)
    : result App :=
  formas1 <- cargarEscena archivo (formas app) ;;
  Ok (mkApp formas1 (undoRedoManager app)).

End Failbit.

(** ** Observable equality

    The fields the specification compares two shapes by: what the base
    getters return and, per class, the members that have a getter and a
    place in the scene file.  The selection flag, the animation
    accumulators and the SFML object are not among them. *)

Definition same_fields (d d' : Derived) : Prop :=
  match d, d' with
  | CircleShapeClass radius rotSpeed sclSpeed _,
    CircleShapeClass radius' rotSpeed' sclSpeed' _ =>
      radius = radius' /\ rotSpeed = rotSpeed' /\ sclSpeed = sclSpeed'
  | CubeShapeClass size depth angle, CubeShapeClass size' depth' angle' =>
      size = size' /\ depth = depth' /\ angle = angle'
  | TextShapeClass content chSize _ _ _, TextShapeClass content' chSize' _ _ _ =>
      content = content' /\ chSize = chSize'
  | RectangleShapeClass size rotSpeed sclSpeed _,
    RectangleShapeClass size' rotSpeed' sclSpeed' _ =>
      size = size' /\ rotSpeed = rotSpeed' /\ sclSpeed = sclSpeed'
  | TriangleShapeClass size rotSpeed, TriangleShapeClass size' rotSpeed' =>
      size = size' /\ rotSpeed = rotSpeed'
  | EllipseShapeClass rX rY rotSpeed, EllipseShapeClass rX' rY' rotSpeed' =>
      rX = rX' /\ rY = rY' /\ rotSpeed = rotSpeed'
  | PolygonShapeClass points rotSpeed, PolygonShapeClass points' rotSpeed' =>
      points = points' /\ rotSpeed = rotSpeed'
  | LineShapeClass thickness rotSpeed, LineShapeClass thickness' rotSpeed' =>
      thickness = thickness' /\ rotSpeed = rotSpeed'
  | _, _ => False
  end.

Definition observably_equal (s s' : ShapeBase) : Prop :=
  getType s = getType s' /\ getPosition s = getPosition s'
  /\ getRotation s = getRotation s' /\ getScale s = getScale s'
  /\ getColor s = getColor s' /\ animated s = animated s'
  /\ same_fields (derived s) (derived s').

Definition entries_equal (p p' : option ShapeBase) : Prop :=
  match p, p' with
  | Some s, Some s' => observably_equal s s'
  | None, None => True
  | _, _ => False
  end.

(** Same number of shapes, in the same order, entry by entry. *)
Definition scenes_equal (fs fs' : Scene) : Prop := Forall2 entries_equal fs fs'.

(** The length of a line's rectangle, all that is kept of its end points. *)
Definition line_length (s : ShapeBase) : option F32.t :=
  match derived s, shapePtr s with
  | LineShapeClass _ _, Some (sf.RectangleShape size) => Some (sf.x size)
  | _, _ => None
  end.

(** ** Scenes the file gives back

    A float survives the file when the six digits written for it read back
    as the same float. *)

Definition float_text_ok (f : F32.t) : bool :=
  match scan_float (put_float f) with
  | Some (v, []) => F32.same v f
  | _ => false
  end.

Definition vector_text_ok (v : sf.Vector2f) : bool :=
  float_text_ok (sf.x v) && float_text_ok (sf.y v).

Definition Uint8_ok (c : Z) : bool := (0 <=? c) && (c <? 256).

Definition color_ok (c : sf.Color) : bool :=
  Uint8_ok (sf.r c) && Uint8_ok (sf.g c) && Uint8_ok (sf.b c)
  && Uint8_ok (sf.a c).

(** The midpoint the loader recomputes for a line, taken as horizontal and
    100 long around the stored position. *)
Definition line_midpoint (pos : sf.Vector2f) : sf.Vector2f :=
  sf.Vector2f_div
    (sf.Vector2f_add
       (sf.mkVector2f (sf.x pos - F32.of_Z 50)%f32 (sf.y pos))
       (sf.mkVector2f (sf.x pos + F32.of_Z 50)%f32 (sf.y pos)))
    (F32.of_Z 2).

Definition line_position_ok (pos : sf.Vector2f) : bool :=
  F32.same (sf.x (line_midpoint pos)) (sf.x pos)
  && F32.same (sf.y (line_midpoint pos)) (sf.y pos).

(** The object is of the class its tag names, one of the six that own an
    [sf::Shape], and its own fields survive the file. *)
Definition fields_ok (s : ShapeBase) : bool :=
  match type s, derived s with
  | Circle, CircleShapeClass radius rotSpeed sclSpeed _ =>
      float_text_ok radius && float_text_ok rotSpeed && float_text_ok sclSpeed
  | Rectangle, RectangleShapeClass size rotSpeed sclSpeed _ =>
      vector_text_ok size && float_text_ok rotSpeed && float_text_ok sclSpeed
  | Triangle, TriangleShapeClass size rotSpeed =>
      float_text_ok size && float_text_ok rotSpeed
  | Ellipse, EllipseShapeClass rX rY rotSpeed =>
      float_text_ok rX && float_text_ok rY && float_text_ok rotSpeed
  | Polygon, PolygonShapeClass points rotSpeed =>
      (Z.of_nat (List.length points) <? 2 ^ 64)
      && forallb vector_text_ok points && float_text_ok rotSpeed
  | Line, LineShapeClass thickness rotSpeed =>
      float_text_ok thickness && float_text_ok rotSpeed
      && line_position_ok (position s)
  | _, _ => false
  end.

Definition serializable (s : ShapeBase) : bool :=
  vector_text_ok (position s) && float_text_ok (rotation s)
  && vector_text_ok (scale s) && color_ok (color s) && fields_ok s.

Definition entry_serializable (p : option ShapeBase) : bool :=
  match p with
  | Some s => serializable s
  | None => false
  end.

Definition scene_serializable (fs : Scene) : bool :=
  (Z.of_nat (List.length fs) <? 2 ^ 64) && forallb entry_serializable fs.

(** ** Tolerance

    The specification compares the numbers of a reloaded scene within
    1e-4.  The comparison here is on the exact values of the two floats;
    an infinity or a NaN is within tolerance of nothing. *)

(** The value of a finite float as a fraction with a positive denominator. *)
Definition valor (f : F32.t) : option (Z * Z) :=
  match f with
  | S754_zero _ => Some (0, 1)
  | S754_finite s m e =>
      let '(num, den) := ratio_of m e in Some (if s then - num else num, den)
  | _ => None
  end.

(** [|a - b| <= 1e-4] *)
Definition within_tolerance (a b : F32.t) : bool :=
  match valor a, valor b with
  | Some (n1, d1), Some (n2, d2) =>
      10000 * Z.abs (n1 * d2 - n2 * d1) <=? d1 * d2
  | _, _ => false
  end.

Definition vectors_close (v v' : sf.Vector2f) : Prop :=
  within_tolerance (sf.x v) (sf.x v') = true
  /\ within_tolerance (sf.y v) (sf.y v') = true.

(** [same_fields] with the numbers compared within tolerance: the same
    class, as many points, the same content and character size. *)
Definition close_fields (d d' : Derived) : Prop :=
  match d, d' with
  | CircleShapeClass radius rotSpeed sclSpeed _,
    CircleShapeClass radius' rotSpeed' sclSpeed' _ =>
      within_tolerance radius radius' = true
      /\ within_tolerance rotSpeed rotSpeed' = true
      /\ within_tolerance sclSpeed sclSpeed' = true
  | CubeShapeClass size depth angle, CubeShapeClass size' depth' angle' =>
      within_tolerance size size' = true
      /\ within_tolerance depth depth' = true
      /\ within_tolerance angle angle' = true
  | TextShapeClass content chSize _ _ _, TextShapeClass content' chSize' _ _ _ =>
      content = content' /\ chSize = chSize'
  | RectangleShapeClass size rotSpeed sclSpeed _,
    RectangleShapeClass size' rotSpeed' sclSpeed' _ =>
      vectors_close size size'
      /\ within_tolerance rotSpeed rotSpeed' = true
      /\ within_tolerance sclSpeed sclSpeed' = true
  | TriangleShapeClass size rotSpeed, TriangleShapeClass size' rotSpeed' =>
      within_tolerance size size' = true
      /\ within_tolerance rotSpeed rotSpeed' = true
  | EllipseShapeClass rX rY rotSpeed, EllipseShapeClass rX' rY' rotSpeed' =>
      within_tolerance rX rX' = true /\ within_tolerance rY rY' = true
      /\ within_tolerance rotSpeed rotSpeed' = true
  | PolygonShapeClass points rotSpeed, PolygonShapeClass points' rotSpeed' =>
      Forall2 vectors_close points points'
      /\ within_tolerance rotSpeed rotSpeed' = true
  | LineShapeClass thickness rotSpeed, LineShapeClass thickness' rotSpeed' =>
      within_tolerance thickness thickness' = true
      /\ within_tolerance rotSpeed rotSpeed' = true
  | _, _ => False
  end.

(** [observably_equal] within tolerance: type, colour and animated flag the
    same, every number within 1e-4. *)
Definition observably_close (s s' : ShapeBase) : Prop :=
  getType s = getType s' /\ vectors_close (getPosition s) (getPosition s')
  /\ within_tolerance (getRotation s) (getRotation s') = true
  /\ vectors_close (getScale s) (getScale s')
  /\ getColor s = getColor s' /\ animated s = animated s'
  /\ close_fields (derived s) (derived s').

Definition entries_close (p p' : option ShapeBase) : Prop :=
  match p, p' with
  | Some s, Some s' => observably_close s s'
  | None, None => True
  | _, _ => False
  end.

(** Same number of shapes, in the same order, entry by entry. *)
Definition scenes_close (fs fs' : Scene) : Prop := Forall2 entries_close fs fs'.

(** The float the extractor makes of the digits written for [f]. *)
Definition releido (f : F32.t) : F32.t :=
  match scan_float (put_float f) with
  | Some (v, _) => v
  | None => f
  end.

Definition releido_vec (v : sf.Vector2f) : sf.Vector2f :=
  sf.mkVector2f (releido (sf.x v)) (releido (sf.y v)).

(** The six digits written for [f] read back, all of them, as a float
    within tolerance of [f]. *)
Definition float_text_tol (f : F32.t) : bool :=
  match scan_float (put_float f) with
  | Some (v, []) => within_tolerance f v
  | _ => false
  end.

Definition vector_text_tol (v : sf.Vector2f) : bool :=
  float_text_tol (sf.x v) && float_text_tol (sf.y v).

(** The midpoint the loader recomputes from the position read back is
    within tolerance of the position. *)
Definition line_position_tol (pos : sf.Vector2f) : bool :=
  within_tolerance (sf.x pos) (sf.x (line_midpoint (releido_vec pos)))
  && within_tolerance (sf.y pos) (sf.y (line_midpoint (releido_vec pos))).

(** [fields_ok] with the numbers read back within tolerance. *)
Definition fields_tol (s : ShapeBase) : bool :=
  match type s, derived s with
  | Circle, CircleShapeClass radius rotSpeed sclSpeed _ =>
      float_text_tol radius && float_text_tol rotSpeed
      && float_text_tol sclSpeed
  | Rectangle, RectangleShapeClass size rotSpeed sclSpeed _ =>
      vector_text_tol size && float_text_tol rotSpeed
      && float_text_tol sclSpeed
  | Triangle, TriangleShapeClass size rotSpeed =>
      float_text_tol size && float_text_tol rotSpeed
  | Ellipse, EllipseShapeClass rX rY rotSpeed =>
      float_text_tol rX && float_text_tol rY && float_text_tol rotSpeed
  | Polygon, PolygonShapeClass points rotSpeed =>
      (Z.of_nat (List.length points) <? 2 ^ 64)
      && forallb vector_text_tol points && float_text_tol rotSpeed
  | Line, LineShapeClass thickness rotSpeed =>
      float_text_tol thickness && float_text_tol rotSpeed
      && line_position_tol (position s)
  | _, _ => false
  end.

Definition tolerable (s : ShapeBase) : bool :=
  vector_text_tol (position s) && float_text_tol (rotation s)
  && vector_text_tol (scale s) && color_ok (color s) && fields_tol s.

Definition entry_tolerable (p : option ShapeBase) : bool :=
  match p with
  | Some s => tolerable s
  | None => false
  end.

Definition scene_tolerable (fs : Scene) : bool :=
  (Z.of_nat (List.length fs) <? 2 ^ 64) && forallb entry_tolerable fs.

(** [forma] with every number replaced by what its digits read back as:
    the values [cargarEscena] takes from the record of [forma]. *)
Definition releida (forma : ShapeBase) : ShapeBase :=
  mkShape (type forma) (shapePtr forma) (releido_vec (position forma))
    (color forma) (releido (rotation forma)) (releido_vec (scale forma))
    (isSelected forma) (isAnimated forma)
    match derived forma with
    | CircleShapeClass radius rotSpeed sclSpeed scaleTime =>
        CircleShapeClass (releido radius) (releido rotSpeed)
          (releido sclSpeed) scaleTime
    | RectangleShapeClass size rotSpeed sclSpeed scaleTime =>
        RectangleShapeClass (releido_vec size) (releido rotSpeed)
          (releido sclSpeed) scaleTime
    | TriangleShapeClass size rotSpeed =>
        TriangleShapeClass (releido size) (releido rotSpeed)
    | EllipseShapeClass rX rY rotSpeed =>
        EllipseShapeClass (releido rX) (releido rY) (releido rotSpeed)
    | PolygonShapeClass points rotSpeed =>
        PolygonShapeClass (map releido_vec points) (releido rotSpeed)
    | LineShapeClass thickness rotSpeed =>
        LineShapeClass (releido thickness) (releido rotSpeed)
    | d => d
    end.

(** ** The shapes of the scenarios *)

Definition vec (px py : Z) : sf.Vector2f :=
  sf.mkVector2f (F32.of_Z px) (F32.of_Z py).

(** The shapes the [Añadir ...] buttons build. *)
Definition circulo : ShapeBase :=
  new_CircleShapeClass (vec 400 300) sf.Green (F32.of_Z 50).
Definition rectangulo : ShapeBase :=
  new_RectangleShapeClass (vec 600 300) sf.Blue (vec 100 60).
Definition triangulo : ShapeBase :=
  new_TriangleShapeClass (vec 800 300) sf.Red (F32.of_Z 100).
Definition elipse : ShapeBase :=
  new_EllipseShapeClass (vec 500 400) sf.Magenta (F32.of_Z 80) (F32.of_Z 40).
Definition poligono : ShapeBase :=
  new_PolygonShapeClass (vec 700 400) sf.Cyan
    [vec 0 60; vec 50 0; vec 100 60; vec 75 120; vec 25 120].
Definition linea : ShapeBase :=
  new_LineShapeClass (vec 800 500) (vec 900 600) sf.Yellow (F32.of_Z 4).
Definition cubo : ShapeBase :=
  new_CubeShapeClass (vec 500 400) sf.Yellow (F32.of_Z 100) (F32.of_Z 50).
(** A text as a scene file makes it (no button builds one). *)
Definition texto : ShapeBase :=
  new_TextShapeClass (vec 100 100) sf.White (list_ascii_of_string "Texto").

(** One shape of each of the eight kinds. *)
Definition escena_ocho : Scene :=
  map Some [circulo; rectangulo; triangulo; elipse; poligono; linea;
            cubo; texto].

(** One shape of each of the six kinds that own an [sf::Shape], turned,
    scaled and animated. *)
Definition ajustada (s : ShapeBase) : ShapeBase :=
  enableAnimation true
    (with_scale (sf.mkVector2f (F32.of_ratio false 3 2) (F32.of_Z 2))
       (with_rotation (F32.of_Z 45)
          (setScaleSpeed (F32.of_ratio false 1 2)
             (setRotationSpeed (F32.of_Z 90) s)))).

Definition escena_seis : Scene :=
  map (fun s => Some (ajustada s))
      [circulo; rectangulo; triangulo; elipse; poligono;
       new_LineShapeClass (vec 800 500) (vec 900 500) sf.Yellow (F32.of_Z 4)].

(** A circle spinning at 90 degrees a second (Scenario B). *)
Definition circulo_90 : ShapeBase :=
  enableAnimation true (setRotationSpeed (F32.of_Z 90) circulo).

Fixpoint repetir (n : nat) (f : ShapeBase -> result ShapeBase) (s : ShapeBase)
    : result ShapeBase :=
  match n with
  | O => Ok s
  | S n' => s1 <- f s ;; repetir n' f s1
  end.

(** The six kinds that own an [sf::Shape], each advanced by one frame of a
    sixtieth of a second from [escena_seis]; a triangle of side 33.3333
    scaled by (1.2345678, 1/3); a line dragged to (0.1, 99.99). *)
Definition escena_en_marcha : Scene :=
  match actualizar_animaciones (F32.of_ratio false 1 60) escena_seis with
  | Ok fs => fs
  | Fault _ => []
  end
  ++ [Some (with_scale (sf.mkVector2f (F32.of_ratio false 12345678 10000000)
                                      (F32.of_ratio false 1 3))
              (new_TriangleShapeClass (vec 800 300)
                 sf.Red (F32.of_ratio false 333333 10000)));
      Some (with_position (sf.mkVector2f (F32.of_ratio false 1 10)
                                          (F32.of_ratio false 9999 100))
              linea)].

(** A thousand floats in a row from 64 on. *)
Definition desde_64 : list F32.t :=
  map (fun k => S754_finite false (8388608 + Pos.of_succ_nat k - 1) (-17))
      (seq 0 1000).

(** ** The text of a record and the shape read from it

    [registro forma k] is what one pass of [guardarEscena] writes for
    [forma], followed by [k]; [recargada forma] is the object
    [cargarEscena] builds from the fields written. *)

Definition no_space (w : text) : Prop := Forall (fun c => isspace c = false) w.

Definition no_digit_head (s : text) : Prop :=
  match s with
  | c :: _ => digit_of c = None
  | [] => True
  end.

Definition space_head (s : text) : Prop :=
  match s with
  | c :: _ => isspace c = true
  | [] => False
  end.

Fixpoint puntos_text (puntos : list sf.Vector2f) (k : text) : text :=
  match puntos with
  | [] => k
  | p :: ps =>
      " "%char :: put_float (sf.x p)
      ++ " "%char :: put_float (sf.y p) ++ puntos_text ps k
  end.

Definition propiedades_text (forma : ShapeBase) (k : text) : text :=
  match type forma, derived forma with
  | Circle, CircleShapeClass radius rotSpeed sclSpeed _ =>
      put_float radius ++ " "%char :: put_float rotSpeed
      ++ " "%char :: put_float sclSpeed ++ k
  | Rectangle, RectangleShapeClass size rotSpeed sclSpeed _ =>
      put_float (sf.x size) ++ " "%char :: put_float (sf.y size)
      ++ " "%char :: put_float rotSpeed ++ " "%char :: put_float sclSpeed ++ k
  | Triangle, TriangleShapeClass size rotSpeed =>
      put_float size ++ " "%char :: put_float rotSpeed ++ k
  | Ellipse, EllipseShapeClass rX rY rotSpeed =>
      put_float rX ++ " "%char :: put_float rY
      ++ " "%char :: put_float rotSpeed ++ k
  | Polygon, PolygonShapeClass puntos rotSpeed =>
      put_N (N.of_nat (List.length puntos))
      ++ puntos_text puntos (" "%char :: put_float rotSpeed ++ k)
  | Line, LineShapeClass thickness rotSpeed =>
      put_float thickness ++ " "%char :: put_float rotSpeed ++ k
  | Text, TextShapeClass content characterSize _ _ _ =>
      content ++ " "%char :: put_Z characterSize ++ " "%char :: k
  | _, _ => k
  end.

Definition registro (forma : ShapeBase) (k : text) : text :=
  put_Z (ShapeType_to_int (type forma))
  ++ " "%char :: put_float (sf.x (position forma))
  ++ " "%char :: put_float (sf.y (position forma))
  ++ " "%char :: put_float (rotation forma)
  ++ " "%char :: put_float (sf.x (scale forma))
  ++ " "%char :: put_float (sf.y (scale forma))
  ++ " "%char :: put_Z (sf.r (color forma))
  ++ " "%char :: put_Z (sf.g (color forma))
  ++ " "%char :: put_Z (sf.b (color forma))
  ++ " "%char :: put_Z (sf.a (color forma))
  ++ " "%char :: put_bool (isAnimated forma)
  ++ " "%char :: propiedades_text forma k.

Fixpoint registros (fs : list ShapeBase) : text :=
  match fs with
  | [] => []
  | forma :: fs' => registro forma ("010"%char :: registros fs')
  end.

(** The object the [switch] of the loader builds from the fields written
    for [forma]. *)
Definition construida (forma : ShapeBase) : ShapeBase :=
  match derived forma with
  | CircleShapeClass radius rotSpeed sclSpeed _ =>
      setScaleSpeed sclSpeed
        (setRotationSpeed rotSpeed
           (new_CircleShapeClass (position forma) (color forma) radius))
  | RectangleShapeClass size rotSpeed sclSpeed _ =>
      setScaleSpeed sclSpeed
        (setRotationSpeed rotSpeed
           (new_RectangleShapeClass (position forma) (color forma) size))
  | TriangleShapeClass size rotSpeed =>
      setRotationSpeed rotSpeed
        (new_TriangleShapeClass (position forma) (color forma) size)
  | EllipseShapeClass rX rY rotSpeed =>
      setRotationSpeed rotSpeed
        (new_EllipseShapeClass (position forma) (color forma) rX rY)
  | PolygonShapeClass puntos rotSpeed =>
      setRotationSpeed rotSpeed
        (new_PolygonShapeClass (position forma) (color forma) puntos)
  | LineShapeClass thickness rotSpeed =>
      setRotationSpeed rotSpeed
        (new_LineShapeClass
           (sf.mkVector2f (sf.x (position forma) - F32.of_Z 50)%f32
                          (sf.y (position forma)))
           (sf.mkVector2f (sf.x (position forma) + F32.of_Z 50)%f32
                          (sf.y (position forma)))
           (color forma) thickness)
  | _ => forma
  end.

(** After the loader's last three steps: animation flag, rotation, scale. *)
Definition recargada (forma : ShapeBase) : ShapeBase :=
  with_scale (scale forma)
    (with_rotation (rotation forma)
       (enableAnimation (isAnimated forma) (construida forma))).

(** The shapes behind the entries of a scene with no null entry. *)
Fixpoint sin_nulos (fs : Scene) : option (list ShapeBase) :=
  match fs with
  | [] => Some []
  | Some forma :: fs' =>
      match sin_nulos fs' with
      | Some l => Some (forma :: l)
      | None => None
      end
  | None :: _ => None
  end.

(** ** Scene files of the scenarios *)

(** A file with one text record. *)
Definition archivo_texto : text :=
  list_ascii_of_string "1" ++ nl
  ++ list_ascii_of_string "7 100 100 30 1 1 255 255 255 255 0 Hola 24 " ++ nl.

(** A file with one circle stored at a rotation of 720 degrees, and one
    stored at -45. *)
Definition archivo_circulo_720 : text :=
  list_ascii_of_string "1" ++ nl
  ++ list_ascii_of_string "0 400 300 720 1 1 0 255 0 255 0 50 0 0" ++ nl.
Definition archivo_circulo_menos_45 : text :=
  list_ascii_of_string "1" ++ nl
  ++ list_ascii_of_string "0 400 300 -45 1 1 0 255 0 255 0 50 0 0" ++ nl.

(** A file announcing no shape. *)
Definition archivo_vacio : text := list_ascii_of_string "0" ++ nl.

(** A circle whose abscissa needs seven digits: 1000.123. *)
Definition circulo_fino : ShapeBase :=
  new_CircleShapeClass
    (sf.mkVector2f (F32.of_ratio false 1000123 1000) (F32.of_Z 300))
    sf.Green (F32.of_Z 50).

(** ** Files that make an extraction fail *)

(** A file that is no scene file. *)
Definition archivo_abc : text := list_ascii_of_string "abc".

(** A circle record whose last field is too large for a [float]. *)
Definition archivo_circulo_1e39 : text :=
  list_ascii_of_string "1" ++ nl
  ++ list_ascii_of_string "0 400 300 0 1 1 0 255 0 255 0 50 0 1e39" ++ nl.

(** A cube before a circle spinning at 90. *)
Definition escena_cubo_circulo : Scene := [Some cubo; Some circulo_90].

(** The file [guardarEscena] writes for it. *)
Definition archivo_cubo_circulo : text :=
  match guardarEscena true escena_cubo_circulo with
  | Ok (Some archivo) => archivo
  | _ => []
  end.

(** ** Selection *)

Definition with_isSelected (v : bool) (s : ShapeBase) : ShapeBase :=
  mkShape (type s) (shapePtr s) (position s) (color s) (rotation s) (scale s)
          v (isAnimated s) (derived s).

(** [select()] and [deselect()]: the flag, then [updateSelectionVisual()],
    which sets the outline through [shapePtr]. *)
Definition select (s : ShapeBase) : result ShapeBase :=
  through_shapePtr (with_isSelected true s).
Definition deselect (s : ShapeBase) : result ShapeBase :=
  through_shapePtr (with_isSelected false s).
Definition selected (s : ShapeBase) : bool := isSelected s.

(** [for (size_t j = 0; j < formas.size(); ++j)
       if (j != i) formas[j]->deselect();] seen from position [j] on. *)
Fixpoint deseleccionar_otras (i j : nat) (fs : Scene) : result Scene :=
  match fs with
  | [] => Ok []
  | p :: fs' =>
      p1 <- (if Nat.eqb j i then Ok p
             else (forma <- deref p ;;
                   forma1 <- deselect forma ;;
                   Ok (Some forma1))) ;;
      fs1 <- deseleccionar_otras i (S j) fs' ;;
      Ok (p1 :: fs1)
  end.

(** What [main] does when entry [i] is chosen, in the list of shapes or by a
    mouse hit: [formas[i]->select()], then deselect the others. *)
Definition seleccionar (i : nat) (fs : Scene) : result Scene :=
  p <- vec_at (Z.of_nat i) fs ;;
  forma <- deref p ;;
  forma1 <- select forma ;;
  fs1 <- vec_assign (Z.of_nat i) (Some forma1) fs ;;
  deseleccionar_otras i 0 fs1.

(** An entry the base class can act on: not null, and owning an
    [sf::Shape]. *)
Definition dibujable (p : option ShapeBase) : Prop :=
  match p with
  | Some s => shapePtr s <> None
  | None => False
  end.

(** ** Connections *)

Record Connection := mkConnection { shapeAIndex : Z; shapeBIndex : Z }.

(** An [int] compared with, or used as, a [size_t]. *)
Definition to_size_t (z : Z) : Z := z mod 2 ^ 64.

(** The vertices [drawConnections] hands to the window: two for each
    connection, the positions of its shapes when both indices are below
    [formas.size()], and the default vertex at (0,0) otherwise. *)
Fixpoint drawConnections (fs : Scene) (connections : list Connection)
    : result (list sf.Vector2f) :=
  match connections with
  | [] => Ok []
  | c :: cs =>
      ends <-
        (if (to_size_t (shapeAIndex c) <? Z.of_nat (List.length fs))
            && (to_size_t (shapeBIndex c) <? Z.of_nat (List.length fs))
         then
           pa <- vec_at (to_size_t (shapeAIndex c)) fs ;;
           formaA <- deref pa ;;
           pb <- vec_at (to_size_t (shapeBIndex c)) fs ;;
           formaB <- deref pb ;;
           Ok [getPosition formaA; getPosition formaB]
         else Ok [vec 0 0; vec 0 0]) ;;
      rest <- drawConnections fs cs ;;
      Ok (ends ++ rest)
  end.

(** ** Runs of undo and redo *)

Fixpoint deshacer_n (n : nat) (m : UndoRedoManager) : UndoRedoManager :=
  match n with
  | O => m
  | S n' => deshacer_n n' (snd (undo m))
  end.

Fixpoint rehacer_n (n : nat) (m : UndoRedoManager) : UndoRedoManager :=
  match n with
  | O => m
  | S n' => rehacer_n n' (snd (redo m))
  end.

(** ** What the loader can produce *)

(** The object is of one of the six classes that own an [sf::Shape], under
    the tag of its class, unselected and with its pulse accumulator at 0. *)
Definition bien_cargada (s : ShapeBase) : Prop :=
  isSelected s = false /\ shapePtr s <> None
  /\ match type s, derived s with
     | Circle, CircleShapeClass _ _ _ scaleTime => scaleTime = F32.of_Z 0
     | Rectangle, RectangleShapeClass _ _ _ scaleTime => scaleTime = F32.of_Z 0
     | Triangle, TriangleShapeClass _ _ => True
     | Ellipse, EllipseShapeClass _ _ _ => True
     | Polygon, PolygonShapeClass _ _ => True
     | Line, LineShapeClass _ _ => True
     | _, _ => False
     end.

(** The fields every record starts with survive the file. *)
Definition comunes_ok (s : ShapeBase) : bool :=
  vector_text_ok (position s) && float_text_ok (rotation s)
  && vector_text_ok (scale s) && color_ok (color s).

(** What the getters report and the fields of the class, but for the
    rotation.  The [sf::Shape] is not compared: the animation re-rotates
    and re-scales it. *)
Definition same_but_rotation (s s' : ShapeBase) : Prop :=
  getType s = getType s' /\ getPosition s = getPosition s'
  /\ getScale s = getScale s' /\ getColor s = getColor s'
  /\ animated s = animated s' /\ selected s = selected s'
  /\ same_fields (derived s) (derived s').

(** * Properties *)

(** ** Undo/redo manager *)

Lemma pop_all_empty (s : list Action.t) : pop_all s = [].
Proof. induction s as [|a s IH]; simpl; auto. Qed.

(** C6: after [addAction(action)] the action is on top of the undo history,
    [canUndo()] holds, the redo history is empty and [canRedo()] is false,
    whatever the histories were before. *)
Theorem addAction_invalidates_redo (action : Action.t) (m : UndoRedoManager) :
  let m' := addAction action m in
  undoStack m' = action :: undoStack m
  /\ canUndo m' = true
  /\ redoStack m' = []
  /\ canRedo m' = false.
Proof.
  unfold addAction; simpl.
  rewrite pop_all_empty; simpl; auto.
Qed.

(** C7: [undo()] on an empty undo history and [redo()] on an empty redo
    history return the empty action [Action{}] and leave both histories as
    they were; the buttons of [main], which test [canUndo()]/[canRedo()]
    first, then leave scene and histories untouched. *)
Theorem undo_redo_on_empty_history (us rs : list Action.t) (fs : Scene) :
  undo (mkManager [] rs) = (Action.empty, mkManager [] rs)
  /\ redo (mkManager us []) = (Action.empty, mkManager us [])
  /\ boton_Deshacer (mkApp fs (mkManager [] rs)) = Ok (mkApp fs (mkManager [] rs))
  /\ boton_Rehacer (mkApp fs (mkManager us [])) = Ok (mkApp fs (mkManager us [])).
Proof. repeat split. Qed.

(** What [undo()] and [redo()] hand back has been moved from: its shape is
    always null. *)
Lemma undo_returns_null_shape (m : UndoRedoManager) :
  Action.shape (fst (undo m)) = None /\ Action.shape (fst (redo m)) = None.
Proof.
  unfold undo, redo; destruct m as [[|u us] [|r rs]]; simpl; auto.
Qed.

(** The action itself, shape included, is what moves to the other stack. *)
Lemma undo_moves_action (a : Action.t) (us rs : list Action.t) :
  snd (undo (mkManager (a :: us) rs)) = mkManager us (a :: rs)
  /\ snd (redo (mkManager us (a :: rs))) = mkManager (a :: us) rs.
Proof. destruct a; split; reflexivity. Qed.

(** C1, Scenario A on the code: adding the circle records [Add] at index 0
    and [Deshacer] empties the scene, but [Rehacer] inserts the null shape of
    the moved-from action, and the next pass over the scene dereferences it. *)
Theorem scenario_A_redo_inserts_null (deltaTime : F32.t) :
  exists a1 a2 a3,
    boton_Anadir_Circulo app0 = Ok a1 /\ formas a1 = [Some circulo]
    /\ boton_Deshacer a1 = Ok a2 /\ formas a2 = []
    /\ boton_Rehacer a2 = Ok a3 /\ formas a3 = [None]
    /\ formas a3 <> formas a1
    /\ actualizar_animaciones deltaTime (formas a3) = Fault NullDeref.
Proof.
  do 3 eexists.
  repeat match goal with |- _ /\ _ => split end;
    try (vm_compute; reflexivity); try discriminate.
Qed.

Lemma vec_erase_last {A} (v : list A) (a : A) :
  vec_erase (Z.of_nat (List.length (v ++ [a])) - 1) (v ++ [a]) = Ok v.
Proof.
  unfold vec_erase, vec_index. rewrite length_app; simpl List.length.
  replace (Z.of_nat (List.length v + 1) - 1) with (Z.of_nat (List.length v))
    by lia.
  destruct (Z.leb_spec 0 (Z.of_nat (List.length v))); [|lia].
  destruct (Z.ltb_spec (Z.of_nat (List.length v))
              (Z.of_nat (List.length v + 1))); [|lia].
  cbn [andb]. rewrite Nat2Z.id.
  rewrite firstn_app, firstn_all, Nat.sub_diag. cbn [firstn].
  rewrite skipn_all2 by (rewrite length_app; simpl; lia).
  rewrite !app_nil_r. reflexivity.
Qed.

(** What does work: undoing an [Add] erases the shape just pushed and the
    scene is as before. *)
Lemma deshacer_anadir_restores (nueva : ShapeBase) (app : App) :
  exists a1 a2,
    anadir nueva app = Ok a1 /\ boton_Deshacer a1 = Ok a2
    /\ formas a2 = formas app.
Proof.
  destruct app as [fs m]. unfold anadir. cbn [formas undoRedoManager].
  rewrite last_last. cbn [deref bind].
  eexists; eexists; split; [reflexivity|].
  unfold boton_Deshacer, addAction, undo.
  cbn [undoRedoManager formas Action.move canUndo undoStack redoStack
       Action.type Action.index Action.shape].
  rewrite vec_erase_last. cbn [bind]. split; reflexivity.
Qed.

(** Scenario C on the code: removing the middle one of three shapes and
    undoing puts a null pointer, not the shape, back at index 1. *)
Lemma scenario_C_undo_inserts_null (m : UndoRedoManager) :
  exists a1 a2,
    boton_Eliminar_Forma 1
      (mkApp [Some circulo; Some rectangulo; Some triangulo] m) = Ok a1
    /\ formas a1 = [Some circulo; Some triangulo]
    /\ boton_Deshacer a1 = Ok a2
    /\ formas a2 = [Some circulo; None; Some triangulo].
Proof. do 2 eexists; repeat split. Qed.

(** Releasing a drag records [Modify]; undoing it replaces the shape by a
    null pointer. *)
Lemma deshacer_modify_inserts_null (m : UndoRedoManager) :
  exists a1 a2,
    soltar_arrastre 0 (mkApp [Some circulo] m) = Ok a1
    /\ boton_Deshacer a1 = Ok a2
    /\ formas a2 = [None].
Proof. do 2 eexists; repeat split. Qed.

(** ** Shapes *)

(** C8: a cube reports [Polygon], not [Cube], from [getType()], and 4 is the
    tag its record starts with in the scene file. *)
Theorem cube_reports_polygon (pos : sf.Vector2f) (col : sf.Color)
    (size depth : F32.t) :
  getType (new_CubeShapeClass pos col size depth) = Polygon
  /\ getType (new_CubeShapeClass pos col size depth) <> Cube
  /\ firstn 2 (escribir_forma [] (new_CubeShapeClass pos col size depth))
     = list_ascii_of_string "4 ".
Proof. repeat split; discriminate. Qed.

(** The other seven classes report their own kind. *)
Lemma other_kinds_report_their_type (pos q : sf.Vector2f) (col : sf.Color)
    (k k' : F32.t) (pts : list sf.Vector2f) (content : list ascii) :
  getType (new_CircleShapeClass pos col k) = Circle
  /\ getType (new_RectangleShapeClass pos col q) = Rectangle
  /\ getType (new_TriangleShapeClass pos col k) = Triangle
  /\ getType (new_EllipseShapeClass pos col k k') = Ellipse
  /\ getType (new_PolygonShapeClass pos col pts) = Polygon
  /\ getType (new_LineShapeClass pos q col k) = Line
  /\ getType (new_TextShapeClass pos col content) = Text.
Proof. repeat split. Qed.

(** C3: the clone of a turned, scaled, animated circle is back at rotation 0,
    scale (1,1), not animated and with zero speeds, so it is not observably
    equal to its source; the clone of a line sits 50 to the right of it. *)
Theorem clone_loses_state :
  ~ observably_equal (ajustada circulo) (clone (ajustada circulo))
  /\ getRotation (ajustada circulo) = F32.of_Z 45
  /\ getRotation (clone (ajustada circulo)) = F32.of_Z 0
  /\ animated (clone (ajustada circulo)) = false
  /\ getPosition linea = vec 850 550
  /\ getPosition (clone linea) = vec 900 550.
Proof.
  repeat split; try reflexivity.
  intros (_ & _ & Hrot & _). vm_compute in Hrot. discriminate.
Qed.

(** What every clone does keep: colour and, for all but the line, position,
    and the geometry the class is constructed from. *)
Lemma clone_keeps_constructor_arguments (s : ShapeBase) :
  getColor (clone s) = getColor s
  /\ (match derived s with
      | LineShapeClass _ _ => True
      | _ => getPosition (clone s) = getPosition s
      end).
Proof. destruct s as [ty p pos col rot scl sel an d]; destruct d; split; reflexivity. Qed.

(** C5, Scenario B on the code: four calls of [updateShape(1.0)] at 90
    degrees a second leave the rotation at exactly 360, not 0; the test
    [rotation > 360] lets 360 itself through. *)
Theorem scenario_B_rotation_is_360 :
  exists s,
    repetir 4 (updateShape (F32.of_Z 1)) circulo_90 = Ok s
    /\ getRotation s = F32.of_Z 360
    /\ getRotation s <> F32.of_Z 0.
Proof.
  eexists; split; [vm_compute; reflexivity|].
  split; [reflexivity | discriminate].
Qed.

(** C4: [updateShape] leaves [0, 360): at 90 degrees a second the fourth
    call ends at 360, which is not below 360, and at -90 degrees a second
    the first call ends at -90, which is below 0. *)
Theorem updateShape_leaves_range :
  (exists s,
     repetir 4 (updateShape (F32.of_Z 1)) circulo_90 = Ok s
     /\ F32.ltb (getRotation s) (F32.of_Z 360) = false)
  /\ (exists s,
        updateShape (F32.of_Z 1)
          (enableAnimation true (setRotationSpeed (F32.of_Z (-90)) circulo))
        = Ok s
        /\ getRotation s = F32.of_Z (-90)
        /\ F32.leb (F32.of_Z 0) (getRotation s) = false).
Proof.
  split; eexists; (split; [vm_compute; reflexivity|]); repeat split.
Qed.

(** The cube's [rotate], which compares with [>=] and also wraps from
    below, does bring both cases back into range. *)
Lemma cube_rotate_wraps :
  derived (CubeShapeClass_rotate (F32.of_Z 90)
             (CubeShapeClass_rotate (F32.of_Z 270) cubo))
  = CubeShapeClass (F32.of_Z 100) (F32.of_Z 50) (F32.of_Z 0)
  /\ derived (CubeShapeClass_rotate (F32.of_Z (-90)) cubo)
     = CubeShapeClass (F32.of_Z 100) (F32.of_Z 50) (F32.of_Z 270).
Proof. split; reflexivity. Qed.

(** Where the shape owns an [sf::Shape], [setRotation(r)] stores [r] as it
    is: no wrapping, no clamping, whatever [r]. *)
Lemma setRotation_stores (r : F32.t) (s : ShapeBase) :
  shapePtr s <> None ->
  exists s', setRotation r s = Ok s' /\ getRotation s' = r.
Proof.
  intros H. unfold setRotation, through_shapePtr; simpl.
  destruct (shapePtr s); [eexists; split; reflexivity | contradiction].
Qed.

(** ** Text streams: what is written reads back *)

Lemma same_eq (a b : F32.t) : F32.same a b = true -> a = b.
Proof.
  destruct a as [s1|s1| |s1 m1 e1], b as [s2|s2| |s2 m2 e2];
    simpl; try discriminate; auto.
  - intros H; apply Bool.eqb_prop in H; congruence.
  - intros H; apply Bool.eqb_prop in H; congruence.
  - intros H. apply andb_true_iff in H as [H He].
    apply andb_true_iff in H as [Hs Hm].
    apply Bool.eqb_prop in Hs. apply Pos.eqb_eq in Hm. apply Z.eqb_eq in He.
    congruence.
Qed.

Lemma digit_no_space (c : ascii) (d : Decimal.uint -> Decimal.uint) :
  digit_of c = Some d -> isspace c = false.
Proof.
  destruct c as [[] [] [] [] [] [] [] []]; simpl; intros H;
    try discriminate H; reflexivity.
Qed.

Lemma skipws_space (c : ascii) (s : text) :
  isspace c = true -> skipws (c :: s) = skipws s.
Proof. intros H; simpl; rewrite H; reflexivity. Qed.

Lemma skipws_word (w s : text) :
  no_space w -> w <> [] -> skipws (w ++ s) = w ++ s.
Proof.
  intros Hw Hne. destruct w as [|c w]; [contradiction|].
  inversion Hw as [|? ? Hc _]; subst. simpl. rewrite Hc. reflexivity.
Qed.

Lemma take_word_app (w s : text) :
  no_space w -> space_head s -> take_word (w ++ s) = (w, s).
Proof.
  intros Hw Hs. induction Hw as [|c w Hc _ IH]; simpl.
  - destruct s as [|c s]; [contradiction|]. simpl in *. rewrite Hs. reflexivity.
  - rewrite Hc, IH. reflexivity.
Qed.

Lemma uint_chars_no_space (u : Decimal.uint) : no_space (uint_chars u).
Proof.
  unfold no_space; induction u; simpl; constructor; auto.
Qed.

Lemma take_digits_uint_chars (u : Decimal.uint) (s : text) :
  no_digit_head s -> take_digits (uint_chars u ++ s) = (u, s).
Proof.
  intros Hs. induction u; simpl; try (rewrite IHu; reflexivity).
  destruct s as [|c s]; simpl in *; [reflexivity|]. rewrite Hs. reflexivity.
Qed.

Lemma to_uint_nonnil (n : N) : N.to_uint n <> Decimal.Nil.
Proof.
  destruct n; simpl; [discriminate|].
  apply DecimalPos.Unsigned.to_uint_nonnil.
Qed.

Lemma put_N_nonempty (n : N) : put_N n <> [].
Proof.
  unfold put_N. pose proof (to_uint_nonnil n) as H.
  destruct (N.to_uint n); simpl; try discriminate. contradiction.
Qed.

Lemma put_N_no_space (n : N) : no_space (put_N n).
Proof. apply uint_chars_no_space. Qed.

Lemma scan_int_put_N (n : N) : scan_int (put_N n) = Some (false, n, []).
Proof.
  unfold scan_int, put_N.
  pose proof (to_uint_nonnil n) as Hnil.
  pose proof (DecimalN.Unsigned.of_to n) as Hof.
  assert (Hsign : take_sign (uint_chars (N.to_uint n))
                  = (false, uint_chars (N.to_uint n))).
  { destruct (N.to_uint n); simpl; try reflexivity. }
  rewrite Hsign.
  rewrite <- (app_nil_r (uint_chars (N.to_uint n))).
  rewrite take_digits_uint_chars by exact I.
  destruct (N.to_uint n); try contradiction; rewrite Hof; reflexivity.
Qed.

Lemma put_Z_nonneg (z : Z) : 0 <= z -> put_Z z = put_N (Z.to_N z).
Proof.
  intros H. unfold put_Z. destruct (Z.ltb_spec z 0); [lia | reflexivity].
Qed.

(** A non-negative [int] followed by white space reads back. *)
Lemma get_int_put (z : Z) (s : text) :
  0 <= z < 2 ^ 31 -> space_head s -> get_int (put_Z z ++ s) = Ok (z, s).
Proof.
  intros Hz Hs. unfold get_int, get_signed.
  rewrite put_Z_nonneg by lia.
  rewrite skipws_word by (apply put_N_no_space || apply put_N_nonempty).
  rewrite take_word_app by (apply put_N_no_space || exact Hs).
  rewrite scan_int_put_N. rewrite Z2N.id by lia.
  replace ((- 2 ^ (32 - 1) <=? z) && (z <? 2 ^ (32 - 1))) with true; [reflexivity|].
  symmetry; apply andb_true_iff; split; [apply Z.leb_le | apply Z.ltb_lt]; simpl; lia.
Qed.

(** An [unsigned int] followed by white space reads back. *)
Lemma get_unsigned_int_put (z : Z) (s : text) :
  0 <= z < 2 ^ 32 -> space_head s ->
  get_unsigned_int (put_Z z ++ s) = Ok (z, s).
Proof.
  intros Hz Hs. unfold get_unsigned_int, get_unsigned.
  rewrite put_Z_nonneg by lia.
  rewrite skipws_word by (apply put_N_no_space || apply put_N_nonempty).
  rewrite take_word_app by (apply put_N_no_space || exact Hs).
  rewrite scan_int_put_N. rewrite Z2N.id by lia.
  destruct (Z.ltb_spec z (2 ^ 32)); [reflexivity | lia].
Qed.

(** A [size_t] followed by white space reads back. *)
Lemma get_size_t_put (n : N) (s : text) :
  Z.of_N n < 2 ^ 64 -> space_head s ->
  get_size_t (put_N n ++ s) = Ok (Z.of_N n, s).
Proof.
  intros Hn Hs. unfold get_size_t, get_unsigned.
  rewrite skipws_word by (apply put_N_no_space || apply put_N_nonempty).
  rewrite take_word_app by (apply put_N_no_space || exact Hs).
  rewrite scan_int_put_N.
  destruct (Z.ltb_spec (Z.of_N n) (2 ^ 64)); [reflexivity | lia].
Qed.

(** A [bool] followed by white space reads back. *)
Lemma get_bool_put (b : bool) (s : text) :
  space_head s -> get_bool (put_bool b ++ s) = Ok (b, s).
Proof.
  intros Hs. destruct s as [|c s]; [contradiction|]. simpl in Hs.
  destruct b; unfold get_bool; simpl; rewrite Hs; reflexivity.
Qed.

Lemma no_space_app (a b : text) : no_space a -> no_space b -> no_space (a ++ b).
Proof. intros Ha Hb; apply Forall_app; split; assumption. Qed.

Lemma no_space_firstn (n : nat) (l : text) : no_space l -> no_space (firstn n l).
Proof.
  unfold no_space. intros H; revert n.
  induction H as [|c l Hc Hl IH]; intros [|n]; simpl; try constructor.
  - exact Hc.
  - apply IH.
Qed.

Lemma no_space_skipn (n : nat) (l : text) : no_space l -> no_space (skipn n l).
Proof.
  unfold no_space. intros H; revert n.
  induction H as [|c l Hc Hl IH]; intros [|n]; simpl.
  - constructor.
  - constructor.
  - constructor; assumption.
  - apply IH.
Qed.

Lemma no_space_repeat_zero (n : nat) : no_space (repeat "0"%char n).
Proof. induction n; simpl; constructor; auto. Qed.

Lemma no_space_strip_leading (l : text) :
  no_space l -> no_space (strip_leading_zeros l).
Proof.
  intros H; induction H as [|c l Hc Hl IH]; simpl; [constructor|].
  destruct (Ascii.eqb c "0"); [exact IH | constructor; auto].
Qed.

Lemma no_space_with_point (a b : text) :
  no_space a -> no_space b -> no_space (with_point a b).
Proof.
  intros Ha Hb. unfold with_point, strip_trailing_zeros.
  assert (Hs : no_space (rev (strip_leading_zeros (rev b)))).
  { apply Forall_rev, no_space_strip_leading, Forall_rev, Hb. }
  destruct (rev (strip_leading_zeros (rev b))); [exact Ha|].
  apply no_space_app; [exact Ha | constructor; [reflexivity | exact Hs]].
Qed.

Lemma put_g_no_space (m : positive) (e : Z) : no_space (put_g m e).
Proof.
  unfold put_g. destruct (sig6 m e) as [d x].
  pose proof (put_N_no_space (Z.to_N d)) as Hd.
  destruct ((x <? -4) || (6 <=? x)).
  - apply no_space_app.
    + apply no_space_with_point;
        [apply no_space_firstn | apply no_space_skipn]; exact Hd.
    + constructor; [reflexivity|].
      constructor; [destruct (x <? 0); reflexivity|].
      apply no_space_app; [|apply put_N_no_space].
      destruct (Z.abs x <? 10); repeat constructor.
  - destruct (0 <=? x).
    + apply no_space_with_point;
        [apply no_space_firstn | apply no_space_skipn]; exact Hd.
    + apply no_space_with_point; [repeat constructor|].
      apply no_space_app; [apply no_space_repeat_zero | exact Hd].
Qed.

Lemma put_float_no_space (f : F32.t) : no_space (put_float f).
Proof.
  destruct f as [s|s| |s m e]; simpl.
  - destruct s; repeat constructor.
  - destruct s; repeat constructor.
  - repeat constructor.
  - apply no_space_app; [destruct s; repeat constructor | apply put_g_no_space].
Qed.

(** A float that survives the file, followed by white space, reads back. *)
Lemma get_float_put (f : F32.t) (s : text) :
  float_text_ok f = true -> space_head s ->
  get_float (put_float f ++ s) = Ok (f, s).
Proof.
  intros Hok Hs. unfold float_text_ok in Hok. unfold get_float.
  assert (Hne : put_float f <> []).
  { intros E; rewrite E in Hok; discriminate. }
  rewrite skipws_word by (apply put_float_no_space || exact Hne).
  rewrite take_word_app by (apply put_float_no_space || exact Hs).
  destruct (scan_float (put_float f)) as [[v w']|] eqn:E; [|discriminate].
  destruct w'; [|discriminate].
  apply same_eq in Hok; subst v.
  destruct f as [s0|s0| |s0 m e]; try reflexivity.
  destruct s0; discriminate E.
Qed.

(** The same after one white-space character, as every field but the first
    of the file is met. *)
Lemma get_int_next (c : ascii) (z : Z) (s : text) :
  isspace c = true -> 0 <= z < 2 ^ 31 -> space_head s ->
  get_int (c :: put_Z z ++ s) = Ok (z, s).
Proof.
  intros Hc Hz Hs. rewrite <- (get_int_put z s Hz Hs).
  unfold get_int, get_signed. rewrite (skipws_space c) by exact Hc. reflexivity.
Qed.

Lemma get_size_t_next (c : ascii) (n : N) (s : text) :
  isspace c = true -> Z.of_N n < 2 ^ 64 -> space_head s ->
  get_size_t (c :: put_N n ++ s) = Ok (Z.of_N n, s).
Proof.
  intros Hc Hn Hs. rewrite <- (get_size_t_put n s Hn Hs).
  unfold get_size_t, get_unsigned. rewrite (skipws_space c) by exact Hc.
  reflexivity.
Qed.

Lemma get_bool_next (c : ascii) (b : bool) (s : text) :
  isspace c = true -> space_head s ->
  get_bool (c :: put_bool b ++ s) = Ok (b, s).
Proof.
  intros Hc Hs. rewrite <- (get_bool_put b s Hs).
  unfold get_bool. rewrite (skipws_space c) by exact Hc. reflexivity.
Qed.

Lemma get_float_next (c : ascii) (f : F32.t) (s : text) :
  isspace c = true -> float_text_ok f = true -> space_head s ->
  get_float (c :: put_float f ++ s) = Ok (f, s).
Proof.
  intros Hc Hf Hs. rewrite <- (get_float_put f s Hf Hs).
  unfold get_float. rewrite (skipws_space c) by exact Hc. reflexivity.
Qed.

Lemma rbind_ok {A B} (c : reader A) (k : A -> reader B) (s s' : text) (a : A) :
  c s = Ok (a, s') -> rbind c k s = k a s'.
Proof. intros H; unfold rbind; rewrite H; reflexivity. Qed.

Lemma puntos_text_space_head (puntos : list sf.Vector2f) (k : text) :
  space_head k -> space_head (puntos_text puntos k).
Proof. intros H; destruct puntos; simpl; auto. Qed.

(** The points of a polygon read back. *)
Lemma leer_puntos_text (puntos : list sf.Vector2f) (k : text) :
  forallb vector_text_ok puntos = true -> space_head k ->
  leer_puntos (List.length puntos) (puntos_text puntos k) = Ok (puntos, k).
Proof.
  intros Hok Hk. induction puntos as [|p ps IH]; simpl; [reflexivity|].
  simpl in Hok. apply andb_true_iff in Hok as [Hp Hps].
  apply andb_true_iff in Hp as [Hx Hy].
  erewrite rbind_ok
    by (apply get_float_next; [reflexivity | exact Hx | reflexivity]).
  erewrite rbind_ok
    by (apply get_float_next;
        [reflexivity | exact Hy | apply puntos_text_space_head, Hk]).
  erewrite rbind_ok by (apply IH; exact Hps).
  destruct p; reflexivity.
Qed.

(** The whole numbers of the editor's range, 0 to 1280, survive the file. *)
Lemma whole_numbers_survive :
  forallb (fun n => float_text_ok (F32.of_Z (Z.of_nat n))) (seq 0 1281) = true.
Proof. vm_compute; reflexivity. Qed.

(** ** The scene file: what [guardarEscena] writes *)

Lemma puntos_text_app (puntos : list sf.Vector2f) (k k' : text) :
  puntos_text puntos k ++ k' = puntos_text puntos (k ++ k').
Proof.
  induction puntos as [|p ps IH]; simpl; [reflexivity|].
  rewrite <- !app_assoc; simpl. rewrite <- !app_assoc, IH. reflexivity.
Qed.

Lemma escribir_puntos (puntos : list sf.Vector2f) (o : text) :
  fold_left (fun o punto => o << sp << sf.x punto << sp << sf.y punto) puntos o
  = o ++ puntos_text puntos [].
Proof.
  revert o; induction puntos as [|p ps IH]; intros o; simpl.
  - rewrite app_nil_r; reflexivity.
  - rewrite IH. unfold insert, Insert_string, Insert_float, sp.
    rewrite <- !app_assoc. reflexivity.
Qed.

Lemma escribir_propiedades_text (o : text) (forma : ShapeBase) :
  escribir_propiedades o forma = o ++ propiedades_text forma [].
Proof.
  unfold escribir_propiedades, propiedades_text, getType.
  destruct (type forma), (derived forma);
    rewrite ?escribir_puntos;
    unfold insert, Insert_string, Insert_float, Insert_int, Insert_size_t, sp;
    rewrite <- ?app_assoc; simpl; rewrite ?app_nil_r; try reflexivity.
  rewrite puntos_text_app. reflexivity.
Qed.

Lemma propiedades_text_app (forma : ShapeBase) (k k' : text) :
  propiedades_text forma k ++ k' = propiedades_text forma (k ++ k').
Proof.
  unfold propiedades_text.
  destruct (type forma), (derived forma);
    rewrite <- ?app_assoc; simpl; rewrite <- ?app_assoc; simpl;
    rewrite <- ?app_assoc; simpl; rewrite <- ?app_assoc; simpl;
    rewrite ?puntos_text_app; simpl; rewrite <- ?app_assoc; try reflexivity.
Qed.

Lemma registro_app (forma : ShapeBase) (k k' : text) :
  registro forma k ++ k' = registro forma (k ++ k').
Proof.
  unfold registro.
  repeat (rewrite <- app_assoc; cbn [app]).
  rewrite propiedades_text_app. reflexivity.
Qed.

(** One pass of the loop of [guardarEscena] appends the record of the shape
    and a new line. *)
Lemma escribir_forma_registro (o : text) (forma : ShapeBase) :
  escribir_forma o forma = o ++ registro forma nl.
Proof.
  unfold escribir_forma. rewrite escribir_propiedades_text.
  unfold registro, getType, getPosition, getRotation, getScale, getColor,
    animated.
  unfold insert, Insert_string, Insert_float, Insert_int, Insert_bool, sp.
  repeat (rewrite <- app_assoc; cbn [app]).
  rewrite propiedades_text_app. reflexivity.
Qed.

Lemma escribir_formas_registros (fs : Scene) (l : list ShapeBase) (o : text) :
  sin_nulos fs = Some l -> escribir_formas o fs = Ok (o ++ registros l).
Proof.
  revert l o; induction fs as [|p fs IH]; intros l o H; simpl in *.
  - injection H as <-. simpl. rewrite app_nil_r. reflexivity.
  - destruct p as [forma|]; [|discriminate].
    destruct (sin_nulos fs) as [l'|]; [|discriminate].
    injection H as <-. simpl.
    rewrite (IH l' _ eq_refl), escribir_forma_registro.
    rewrite <- app_assoc, registro_app. reflexivity.
Qed.

(** ** The scene file: what [cargarEscena] reads back *)

Ltac read_float H :=
  erewrite rbind_ok
    by (apply get_float_next;
        [reflexivity | exact H | first [reflexivity | assumption]]).

Ltac read_int :=
  erewrite rbind_ok
    by (apply get_int_next; [reflexivity | lia | reflexivity]).

Ltac to_props H := unfold vector_text_ok, color_ok in H; rewrite ?andb_true_iff in H.

Lemma Uint8_ok_range (c : Z) : Uint8_ok c = true -> 0 <= c < 256.
Proof. unfold Uint8_ok; lia. Qed.

Lemma Color_rgba_id (col : sf.Color) :
  color_ok col = true ->
  sf.Color_rgba (sf.r col) (sf.g col) (sf.b col) (sf.a col) = col.
Proof.
  destruct col as [r g b a]; intros H. to_props H.
  cbn [sf.r sf.g sf.b sf.a] in *. destruct H as [[[Hr Hg] Hb] Ha].
  apply Uint8_ok_range in Hr, Hg, Hb, Ha.
  unfold sf.Color_rgba, sf.Uint8. rewrite !Z.mod_small by lia. reflexivity.
Qed.

Lemma ShapeType_int_range (t : ShapeType) : 0 <= ShapeType_to_int t < 2 ^ 31.
Proof. destruct t; simpl; lia. Qed.

Lemma ShapeType_of_to_int (t : ShapeType) :
  ShapeType_of_int (ShapeType_to_int t) = Some t.
Proof. destruct t; reflexivity. Qed.

(** The fields of the class read back into the object the loader builds. *)
Lemma leer_propiedades_text (forma : ShapeBase) (k : text) :
  fields_ok forma = true -> space_head k ->
  leer_propiedades (Some (type forma)) (position forma) (color forma)
    (" "%char :: propiedades_text forma k)
  = Ok (Some (construida forma), k).
Proof.
  intros Hok Hk. unfold fields_ok in Hok.
  unfold propiedades_text, construida, leer_propiedades.
  destruct (type forma), (derived forma); try discriminate Hok; to_props Hok.
  - destruct Hok as [[H1 H2] H3].
    read_float H1. read_float H2. read_float H3. reflexivity.
  - destruct Hok as [[[H1 H2] H3] H4].
    read_float H1. read_float H2. read_float H3. read_float H4.
    destruct size; reflexivity.
  - destruct Hok as [H1 H2].
    read_float H1. read_float H2. reflexivity.
  - destruct Hok as [[H1 H2] H3].
    read_float H1. read_float H2. read_float H3. reflexivity.
  - destruct Hok as [[Hlen Hpts] Hrot].
    erewrite rbind_ok
      by (apply get_size_t_next;
          [reflexivity | lia | apply puntos_text_space_head; reflexivity]).
    replace (Z.to_nat (Z.of_N (N.of_nat (List.length points))))
      with (List.length points) by lia.
    erewrite rbind_ok by (apply leer_puntos_text; [exact Hpts | reflexivity]).
    read_float Hrot. reflexivity.
  - destruct Hok as [[H1 H2] _].
    read_float H1. read_float H2. reflexivity.
Qed.

(** A record of a serializable shape reads back as the reloaded shape. *)
Lemma leer_forma_registro (forma : ShapeBase) (c : ascii) (k : text) :
  serializable forma = true -> isspace c = true -> space_head k ->
  leer_forma (c :: registro forma k) = Ok (Some (recargada forma), k).
Proof.
  intros Hok Hc Hk. unfold serializable in Hok.
  rewrite !andb_true_iff in Hok.
  destruct Hok as [[[[Hpos Hrot] Hscl] Hcol] Hfld].
  to_props Hpos. to_props Hscl.
  destruct Hpos as [Hpx Hpy]. destruct Hscl as [Hsx Hsy].
  pose proof (Color_rgba_id _ Hcol) as Hrgba.
  to_props Hcol. destruct Hcol as [[[Hr Hg] Hb] Ha].
  apply Uint8_ok_range in Hr, Hg, Hb, Ha.
  pose proof (ShapeType_int_range (type forma)) as Hty.
  unfold leer_forma, registro.
  erewrite rbind_ok by (apply get_int_next; [exact Hc | lia | reflexivity]).
  read_float Hpx. read_float Hpy. read_float Hrot.
  read_float Hsx. read_float Hsy.
  read_int. read_int. read_int. read_int.
  erewrite rbind_ok by (apply get_bool_next; reflexivity).
  rewrite Hrgba, ShapeType_of_to_int.
  replace (sf.mkVector2f (sf.x (position forma)) (sf.y (position forma)))
    with (position forma) by (destruct (position forma); reflexivity).
  erewrite rbind_ok by (apply leer_propiedades_text; [exact Hfld | exact Hk]).
  unfold recargada.
  replace (sf.mkVector2f (sf.x (scale forma)) (sf.y (scale forma)))
    with (scale forma) by (destruct (scale forma); reflexivity).
  unfold fields_ok in Hfld. unfold construida.
  destruct (type forma), (derived forma); try discriminate Hfld; reflexivity.
Qed.

(** The records of serializable shapes read back in order. *)
Lemma leer_formas_registros (l : list ShapeBase) (acc : Scene) (c : ascii) :
  forallb serializable l = true -> isspace c = true ->
  exists rest,
    leer_formas (List.length l) acc (c :: registros l)
    = Ok (acc ++ map (fun forma => Some (recargada forma)) l, rest).
Proof.
  revert acc c; induction l as [|forma l IH]; intros acc c Hok Hc; simpl.
  - exists [c]. rewrite app_nil_r. reflexivity.
  - simpl in Hok. apply andb_true_iff in Hok as [Hf Hl].
    erewrite rbind_ok
      by (apply leer_forma_registro; [exact Hf | exact Hc | reflexivity]).
    destruct (IH (acc ++ [Some (recargada forma)]) "010"%char Hl eq_refl)
      as [rest Hrest].
    exists rest. rewrite Hrest, <- app_assoc. reflexivity.
Qed.

Lemma scene_serializable_sin_nulos (fs : Scene) :
  forallb entry_serializable fs = true ->
  exists l, sin_nulos fs = Some l /\ fs = map Some l
            /\ forallb serializable l = true.
Proof.
  induction fs as [|p fs IH]; simpl; intros H.
  - exists []; auto.
  - apply andb_true_iff in H as [Hp Hfs].
    destruct p as [forma|]; [|discriminate].
    destruct (IH Hfs) as (l & Hl & Hmap & Hok).
    exists (forma :: l). rewrite Hl. simpl in *. rewrite Hp, Hok.
    repeat split. congruence.
Qed.

(** A serializable shape and what the loader makes of its record agree on
    every observable field. *)
Lemma recargada_observably_equal (forma : ShapeBase) :
  serializable forma = true -> observably_equal forma (recargada forma).
Proof.
  intros Hok. unfold serializable in Hok.
  apply andb_true_iff in Hok as [_ Hfld].
  unfold fields_ok in Hfld.
  destruct forma as [ty p pos col rot scl sel an d]; simpl in *.
  destruct ty, d; try discriminate Hfld;
    try (repeat split; reflexivity).
  rewrite !andb_true_iff in Hfld. destruct Hfld as [_ Hpos].
  unfold line_position_ok in Hpos. rewrite andb_true_iff in Hpos.
  destruct Hpos as [Hx Hy]. apply same_eq in Hx, Hy.
  repeat split. unfold getPosition; simpl.
  destruct pos as [px py]; simpl in *.
  unfold line_midpoint, sf.Vector2f_div, sf.Vector2f_add in Hx, Hy.
  simpl in Hx, Hy.
  unfold sf.Vector2f_div, sf.Vector2f_add; simpl.
  rewrite Hx, Hy. reflexivity.
Qed.

Lemma scenes_equal_recargada (l : list ShapeBase) :
  forallb serializable l = true ->
  scenes_equal (map Some l) (map (fun forma => Some (recargada forma)) l).
Proof.
  induction l as [|forma l IH]; simpl; intros H; [constructor|].
  apply andb_true_iff in H as [Hf Hl].
  constructor; [apply recargada_observably_equal, Hf | apply IH, Hl].
Qed.

(** Where the six digits give every number back as it was, so does the
    file: a scene of circles, rectangles, triangles, ellipses, polygons and
    lines whose numbers survive the six digits (and whose lines sit where
    the loader's midpoint puts them) is read back equal to its original in
    type, position, rotation, scale, colour, animated flag and the fields
    of its class. *)
Lemma guardar_cargar_exacto (fs old : Scene) :
  scene_serializable fs = true ->
  exists archivo fs',
    guardarEscena true fs = Ok (Some archivo)
    /\ cargarEscena (Some archivo) old = Ok fs'
    /\ scenes_equal fs fs'.
Proof.
  intros H. unfold scene_serializable in H.
  apply andb_true_iff in H as [Hlen Hfs].
  destruct (scene_serializable_sin_nulos fs Hfs) as (l & Hl & Hmap & Hok).
  destruct (leer_formas_registros l [] "010"%char Hok eq_refl) as [rest Hrest].
  exists (put_N (N.of_nat (List.length fs)) ++ "010"%char :: registros l).
  exists (map (fun forma => Some (recargada forma)) l).
  repeat split.
  - unfold guardarEscena.
    rewrite (escribir_formas_registros fs l _ Hl).
    unfold insert, Insert_string, Insert_size_t, nl; simpl.
    rewrite <- app_assoc. reflexivity.
  - unfold cargarEscena.
    erewrite rbind_ok by (apply get_size_t_put; [lia | reflexivity]).
    replace (Z.to_nat (Z.of_N (N.of_nat (List.length fs))))
      with (List.length l)
      by (rewrite Hmap, length_map; lia).
    rewrite Hrest. reflexivity.
  - rewrite Hmap at 1. apply scenes_equal_recargada, Hok.
Qed.

(** So for one shape of each of the six kinds, turned by 45 degrees,
    scaled by (1.5, 2) and animated. *)
Lemma guardar_cargar_exacto_escena_seis :
  exists archivo fs',
    guardarEscena true escena_seis = Ok (Some archivo)
    /\ cargarEscena (Some archivo) [] = Ok fs'
    /\ scenes_equal escena_seis fs'.
Proof. apply (guardar_cargar_exacto escena_seis []). vm_compute; reflexivity. Qed.

(** ** Where no extraction fails, the two loaders agree *)

Lemma skipws_idem (s : text) : skipws (skipws s) = skipws s.
Proof.
  induction s as [|c s IH]; [reflexivity|]. simpl.
  destruct (isspace c) eqn:E; [exact IH|]. simpl. rewrite E. reflexivity.
Qed.

Lemma rbind_fault {A B} (c : reader A) (k : A -> reader B) (s : text)
    (f : fault) :
  c s = Fault f -> rbind c k s = Fault f.
Proof. intros H; unfold rbind; rewrite H; reflexivity. Qed.

Lemma lbind_ok {A B} (c : Failbit.lector A) (k : A -> Failbit.lector B)
    (st st' : Failbit.ifstream) (a : A) :
  c st = Ok (a, st') -> Failbit.lbind c k st = k a st'.
Proof. intros H; unfold Failbit.lbind; rewrite H; reflexivity. Qed.

Lemma lbind_usar {A B} (v : A) (k : A -> Failbit.lector B)
    (st : Failbit.ifstream) :
  Failbit.lbind (Failbit.usar (Some v)) k st = k v st.
Proof. reflexivity. Qed.

(** The extractors fail in one way only. *)
Lemma get_signed_fault (bits : Z) (s : text) (f : fault) :
  get_signed bits s = Fault f -> f = StreamFail.
Proof.
  unfold get_signed. destruct (take_word (skipws s)) as [w r].
  destruct (scan_int w) as [[[neg n] w']|]; [|congruence].
  destruct (_ && _); congruence.
Qed.

Lemma get_unsigned_fault (bits : Z) (s : text) (f : fault) :
  get_unsigned bits s = Fault f -> f = StreamFail.
Proof.
  unfold get_unsigned. destruct (take_word (skipws s)) as [w r].
  destruct (scan_int w) as [[[neg n] w']|]; [|congruence].
  destruct (_ <? _); congruence.
Qed.

Lemma get_bool_fault (s : text) (f : fault) :
  get_bool s = Fault f -> f = StreamFail.
Proof.
  unfold get_bool. destruct (take_word (skipws s)) as [w r].
  destruct (scan_int w) as [[[neg n] w']|]; [|congruence].
  destruct n as [|[p|p|]]; try congruence. destruct neg; congruence.
Qed.

Lemma get_float_fault (s : text) (f : fault) :
  get_float s = Fault f -> f = StreamFail.
Proof.
  unfold get_float. destruct (take_word (skipws s)) as [w r].
  destruct (scan_float w) as [[v w']|]; [|congruence].
  destruct v; congruence.
Qed.

(** An extraction that succeeds on the text succeeds on the stream, with
    the same value and the same rest. *)
Lemma extraer_ok {A} (get : reader A) (stored : text -> A) (x : option A)
    (s s' : text) (v : A) :
  (forall s, get (skipws s) = get s) -> get [] = Fault StreamFail ->
  get s = Ok (v, s') ->
  Failbit.extraer get stored x (Failbit.mkStream s false)
  = Ok (Some v, Failbit.mkStream s' false).
Proof.
  intros Hws Hnil E. unfold Failbit.extraer.
  cbn [Failbit.failbit Failbit.buffer].
  rewrite <- Hws in E.
  destruct (skipws s) as [|c r]; [rewrite Hnil in E; discriminate|].
  rewrite E. reflexivity.
Qed.

Lemma get_int_failbit (x : option Z) (s s' : text) (v : Z) :
  get_int s = Ok (v, s') ->
  Failbit.get_int x (Failbit.mkStream s false)
  = Ok (Some v, Failbit.mkStream s' false).
Proof.
  apply extraer_ok; [|reflexivity].
  intros s0; unfold get_signed; rewrite skipws_idem; reflexivity.
Qed.

Lemma get_size_t_failbit (x : option Z) (s s' : text) (v : Z) :
  get_size_t s = Ok (v, s') ->
  Failbit.get_size_t x (Failbit.mkStream s false)
  = Ok (Some v, Failbit.mkStream s' false).
Proof.
  apply extraer_ok; [|reflexivity].
  intros s0; unfold get_unsigned; rewrite skipws_idem; reflexivity.
Qed.

Lemma get_unsigned_int_failbit (x : option Z) (s s' : text) (v : Z) :
  get_unsigned_int s = Ok (v, s') ->
  Failbit.get_unsigned_int x (Failbit.mkStream s false)
  = Ok (Some v, Failbit.mkStream s' false).
Proof.
  apply extraer_ok; [|reflexivity].
  intros s0; unfold get_unsigned; rewrite skipws_idem; reflexivity.
Qed.

Lemma get_bool_failbit (x : option bool) (s s' : text) (v : bool) :
  get_bool s = Ok (v, s') ->
  Failbit.get_bool x (Failbit.mkStream s false)
  = Ok (Some v, Failbit.mkStream s' false).
Proof.
  apply extraer_ok; [|reflexivity].
  intros s0; unfold get_bool; rewrite skipws_idem; reflexivity.
Qed.

Lemma get_float_failbit (x : option F32.t) (s s' : text) (v : F32.t) :
  get_float s = Ok (v, s') ->
  Failbit.get_float x (Failbit.mkStream s false)
  = Ok (Some v, Failbit.mkStream s' false).
Proof.
  apply extraer_ok; [|reflexivity].
  intros s0; unfold get_float; rewrite skipws_idem; reflexivity.
Qed.

(** One extraction of the record: it succeeds on both sides, or the
    extractors above stop. *)
Ltac puente fault_lemma ok_lemma :=
  match goal with
  | |- rbind ?c ?k ?s <> Fault StreamFail -> _ =>
      let v := fresh "v" in
      let s1 := fresh "s" in
      let f := fresh "f" in
      let E := fresh "E" in
      destruct (c s) as [[v s1]|f] eqn:E;
      [ rewrite (rbind_ok _ _ _ _ _ E);
        erewrite lbind_ok by (apply ok_lemma; exact E);
        rewrite ?lbind_usar
      | rewrite (rbind_fault _ _ _ _ E); apply fault_lemma in E; subst f;
        let H := fresh in intros H; contradiction H; reflexivity ]
  end.

Ltac puente_float := puente get_float_fault get_float_failbit.
Ltac puente_int := puente get_signed_fault get_int_failbit.

(** A step that is the same on both sides. *)
Lemma puente_mismo {A B} (c : reader A) (c' : Failbit.lector A)
    (k : A -> reader B) (k' : A -> Failbit.lector B) (s : text) :
  (c s <> Fault StreamFail ->
   c' (Failbit.mkStream s false) = Failbit.sin_fallo (c s)) ->
  (forall a s1, k a s1 <> Fault StreamFail ->
                k' a (Failbit.mkStream s1 false) = Failbit.sin_fallo (k a s1)) ->
  rbind c k s <> Fault StreamFail ->
  Failbit.lbind c' k' (Failbit.mkStream s false)
  = Failbit.sin_fallo (rbind c k s).
Proof.
  intros Hc Hk. unfold rbind, Failbit.lbind.
  destruct (c s) as [[a s1]|f]; intros H.
  - rewrite Hc by discriminate. cbn [Failbit.sin_fallo]. apply Hk, H.
  - rewrite Hc by (intros E; apply H; injection E as ->; reflexivity).
    reflexivity.
Qed.

Lemma leer_puntos_sin_fallo (n : nat) (s : text) :
  leer_puntos n s <> Fault StreamFail ->
  Failbit.leer_puntos n (Failbit.mkStream s false)
  = Failbit.sin_fallo (leer_puntos n s).
Proof.
  revert s; induction n as [|n IH]; intros s; [reflexivity|].
  cbn [leer_puntos Failbit.leer_puntos].
  puente_float. puente_float.
  apply puente_mismo; [apply IH | reflexivity].
Qed.

Lemma leer_propiedades_sin_fallo (tipo : option ShapeType)
    (pos : sf.Vector2f) (col : sf.Color) (s : text) :
  leer_propiedades tipo pos col s <> Fault StreamFail ->
  Failbit.leer_propiedades tipo pos col (Failbit.mkStream s false)
  = Failbit.sin_fallo (leer_propiedades tipo pos col s).
Proof.
  unfold leer_propiedades, Failbit.leer_propiedades.
  destruct tipo as [[]|]; try reflexivity.
  - do 3 puente_float. reflexivity.
  - do 4 puente_float. reflexivity.
  - do 2 puente_float. reflexivity.
  - do 3 puente_float. reflexivity.
  - puente get_unsigned_fault get_size_t_failbit.
    apply puente_mismo; [apply leer_puntos_sin_fallo|].
    intros ps s2. puente_float. reflexivity.
  - do 2 puente_float. reflexivity.
  - apply puente_mismo; [reflexivity|]. intros _ s1.
    apply puente_mismo.
    + unfold getline_space, Failbit.getline_space.
      cbn [Failbit.failbit Failbit.buffer].
      destruct s1 as [|c r]; [intros H; contradiction H; reflexivity|].
      destruct (upto_space (c :: r)) as [l r']. reflexivity.
    + intros contenido s2.
      puente get_unsigned_fault get_unsigned_int_failbit. reflexivity.
Qed.

(** A pass of the loop that stops at no failed extraction does the same on
    the stream: the same shape or the same null dereference. *)
Lemma leer_forma_sin_fallo (s : text) :
  leer_forma s <> Fault StreamFail ->
  Failbit.leer_forma (Failbit.mkStream s false)
  = Failbit.sin_fallo (leer_forma s).
Proof.
  unfold leer_forma, Failbit.leer_forma.
  puente_int. do 5 puente_float. do 4 puente_int.
  puente get_bool_fault get_bool_failbit.
  apply puente_mismo; [apply leer_propiedades_sin_fallo|].
  intros [forma|] s11 _; [|reflexivity].
  rewrite lbind_usar. cbv zeta. rewrite lbind_usar.
  unfold rbind, lift, Failbit.lbind, Failbit.lift, Failbit.usar.
  destruct (setRotation v2 (enableAnimation v9 forma)) as [f1|e1];
    [|reflexivity].
  destruct (setScale (sf.mkVector2f v3 v4) f1) as [f2|e2]; reflexivity.
Qed.

Lemma leer_formas_sin_fallo (cantidad : nat) (acc : Scene) (s : text) :
  leer_formas cantidad acc s <> Fault StreamFail ->
  Failbit.leer_formas cantidad acc (Failbit.mkStream s false)
  = Failbit.sin_fallo (leer_formas cantidad acc s).
Proof.
  revert acc s; induction cantidad as [|n IH]; intros acc s; [reflexivity|].
  cbn [leer_formas Failbit.leer_formas].
  apply puente_mismo; [apply leer_forma_sin_fallo|].
  intros nueva s1. apply IH.
Qed.

(** Wherever [cargarEscena] as modelled above does not stop at a failed
    extraction, the loader on the stream gives the same outcome: the same
    scene, or the same null dereference. *)
Lemma cargarEscena_sin_fallo (archivo : option text) (old : Scene) :
  cargarEscena archivo old <> Fault StreamFail ->
  Failbit.cargarEscena archivo old = cargarEscena archivo old.
Proof.
  destruct archivo as [s|]; [|reflexivity].
  unfold cargarEscena, Failbit.cargarEscena.
  destruct (get_size_t s) as [[cantidad s1]|f] eqn:E.
  - rewrite (rbind_ok _ _ _ _ _ E).
    erewrite lbind_ok by (apply get_size_t_failbit; exact E).
    rewrite lbind_usar.
    pose proof (leer_formas_sin_fallo (Z.to_nat cantidad) [] s1) as Hf.
    destruct (leer_formas (Z.to_nat cantidad) [] s1) as [[fs' s2]|f];
      intros H.
    + rewrite Hf by discriminate. reflexivity.
    + rewrite Hf by (intros E'; apply H; rewrite E'; reflexivity).
      reflexivity.
  - rewrite (rbind_fault _ _ _ _ E). apply get_unsigned_fault in E. subst f.
    intros H; contradiction H; reflexivity.
Qed.

(** ** The round trip within tolerance *)

Lemma within_tolerance_finite (a v : F32.t) :
  within_tolerance a v = true ->
  match v with S754_infinity _ => False | _ => True end.
Proof.
  unfold within_tolerance. destruct (valor a) as [[n1 d1]|]; [|discriminate].
  destruct v; try exact (fun _ => I). simpl. discriminate.
Qed.

Lemma float_text_tol_releido (f : F32.t) :
  float_text_tol f = true ->
  scan_float (put_float f) = Some (releido f, [])
  /\ within_tolerance f (releido f) = true.
Proof.
  unfold float_text_tol, releido.
  destruct (scan_float (put_float f)) as [[v w]|]; [|discriminate].
  destruct w; [|discriminate]. intros H; split; [reflexivity | exact H].
Qed.

(** A float whose digits read back within tolerance, followed by white
    space, is extracted as the float its digits read back as. *)
Lemma get_float_put_tol (f : F32.t) (s : text) :
  float_text_tol f = true -> space_head s ->
  get_float (put_float f ++ s) = Ok (releido f, s).
Proof.
  intros Hok Hs. apply float_text_tol_releido in Hok as [E Hc].
  apply within_tolerance_finite in Hc.
  unfold get_float.
  assert (Hne : put_float f <> []).
  { intros E0; rewrite E0 in E; discriminate. }
  rewrite skipws_word by (apply put_float_no_space || exact Hne).
  rewrite take_word_app by (apply put_float_no_space || exact Hs).
  rewrite E. destruct (releido f); try reflexivity. contradiction.
Qed.

Lemma get_float_next_tol (c : ascii) (f : F32.t) (s : text) :
  isspace c = true -> float_text_tol f = true -> space_head s ->
  get_float (c :: put_float f ++ s) = Ok (releido f, s).
Proof.
  intros Hc Hf Hs. rewrite <- (get_float_put_tol f s Hf Hs).
  unfold get_float. rewrite (skipws_space c) by exact Hc. reflexivity.
Qed.

Ltac read_float_tol H :=
  erewrite rbind_ok
    by (apply get_float_next_tol;
        [reflexivity | exact H | first [reflexivity | assumption]]).

Ltac to_props_tol H :=
  unfold vector_text_tol, color_ok in H; rewrite ?andb_true_iff in H.

Lemma leer_puntos_text_tol (puntos : list sf.Vector2f) (k : text) :
  forallb vector_text_tol puntos = true -> space_head k ->
  leer_puntos (List.length puntos) (puntos_text puntos k)
  = Ok (map releido_vec puntos, k).
Proof.
  intros Hok Hk. induction puntos as [|p ps IH]; simpl; [reflexivity|].
  simpl in Hok. apply andb_true_iff in Hok as [Hp Hps].
  apply andb_true_iff in Hp as [Hx Hy].
  erewrite rbind_ok
    by (apply get_float_next_tol; [reflexivity | exact Hx | reflexivity]).
  erewrite rbind_ok
    by (apply get_float_next_tol;
        [reflexivity | exact Hy | apply puntos_text_space_head, Hk]).
  erewrite rbind_ok by (apply IH; exact Hps).
  reflexivity.
Qed.

Lemma leer_propiedades_text_tol (forma : ShapeBase) (k : text) :
  fields_tol forma = true -> space_head k ->
  leer_propiedades (Some (type forma)) (releido_vec (position forma))
    (color forma) (" "%char :: propiedades_text forma k)
  = Ok (Some (construida (releida forma)), k).
Proof.
  intros Hok Hk. unfold fields_tol in Hok.
  unfold propiedades_text, construida, releida, leer_propiedades.
  cbn [derived position color].
  destruct (type forma), (derived forma); try discriminate Hok;
    to_props_tol Hok.
  - destruct Hok as [[H1 H2] H3].
    read_float_tol H1. read_float_tol H2. read_float_tol H3. reflexivity.
  - destruct Hok as [[[H1 H2] H3] H4].
    read_float_tol H1. read_float_tol H2. read_float_tol H3.
    read_float_tol H4. reflexivity.
  - destruct Hok as [H1 H2].
    read_float_tol H1. read_float_tol H2. reflexivity.
  - destruct Hok as [[H1 H2] H3].
    read_float_tol H1. read_float_tol H2. read_float_tol H3. reflexivity.
  - destruct Hok as [[Hlen Hpts] Hrot].
    erewrite rbind_ok
      by (apply get_size_t_next;
          [reflexivity | lia | apply puntos_text_space_head; reflexivity]).
    replace (Z.to_nat (Z.of_N (N.of_nat (List.length points))))
      with (List.length points) by lia.
    erewrite rbind_ok
      by (apply leer_puntos_text_tol; [exact Hpts | reflexivity]).
    read_float_tol Hrot. reflexivity.
  - destruct Hok as [[H1 H2] _].
    read_float_tol H1. read_float_tol H2. reflexivity.
Qed.

(** The record of a tolerable shape is read as the shape rebuilt from the
    numbers its digits read back as. *)
Lemma leer_forma_registro_tol (forma : ShapeBase) (c : ascii) (k : text) :
  tolerable forma = true -> isspace c = true -> space_head k ->
  leer_forma (c :: registro forma k) = Ok (Some (recargada (releida forma)), k).
Proof.
  intros Hok Hc Hk. unfold tolerable in Hok.
  rewrite !andb_true_iff in Hok.
  destruct Hok as [[[[Hpos Hrot] Hscl] Hcol] Hfld].
  to_props_tol Hpos. to_props_tol Hscl.
  destruct Hpos as [Hpx Hpy]. destruct Hscl as [Hsx Hsy].
  pose proof (Color_rgba_id _ Hcol) as Hrgba.
  to_props_tol Hcol. destruct Hcol as [[[Hr Hg] Hb] Ha].
  apply Uint8_ok_range in Hr, Hg, Hb, Ha.
  pose proof (ShapeType_int_range (type forma)) as Hty.
  unfold leer_forma, registro.
  erewrite rbind_ok by (apply get_int_next; [exact Hc | lia | reflexivity]).
  read_float_tol Hpx. read_float_tol Hpy. read_float_tol Hrot.
  read_float_tol Hsx. read_float_tol Hsy.
  read_int. read_int. read_int. read_int.
  erewrite rbind_ok by (apply get_bool_next; reflexivity).
  rewrite Hrgba, ShapeType_of_to_int.
  change (sf.mkVector2f (releido (sf.x (position forma)))
            (releido (sf.y (position forma))))
    with (releido_vec (position forma)).
  erewrite rbind_ok
    by (apply leer_propiedades_text_tol; [exact Hfld | exact Hk]).
  unfold recargada.
  unfold fields_tol in Hfld. unfold construida, releida.
  cbn [derived position color rotation scale isAnimated type].
  destruct (type forma), (derived forma); try discriminate Hfld; reflexivity.
Qed.

Lemma leer_formas_registros_tol (l : list ShapeBase) (acc : Scene) (c : ascii) :
  forallb tolerable l = true -> isspace c = true ->
  exists rest,
    leer_formas (List.length l) acc (c :: registros l)
    = Ok (acc ++ map (fun forma => Some (recargada (releida forma))) l, rest).
Proof.
  revert acc c; induction l as [|forma l IH]; intros acc c Hok Hc; simpl.
  - exists [c]. rewrite app_nil_r. reflexivity.
  - simpl in Hok. apply andb_true_iff in Hok as [Hf Hl].
    erewrite rbind_ok
      by (apply leer_forma_registro_tol; [exact Hf | exact Hc | reflexivity]).
    destruct (IH (acc ++ [Some (recargada (releida forma))]) "010"%char
                Hl eq_refl) as [rest Hrest].
    exists rest. rewrite Hrest, <- app_assoc. reflexivity.
Qed.

Lemma scene_tolerable_sin_nulos (fs : Scene) :
  forallb entry_tolerable fs = true ->
  exists l, sin_nulos fs = Some l /\ fs = map Some l
            /\ forallb tolerable l = true.
Proof.
  induction fs as [|p fs IH]; simpl; intros H.
  - exists []; auto.
  - apply andb_true_iff in H as [Hp Hfs].
    destruct p as [forma|]; [|discriminate].
    destruct (IH Hfs) as (l & Hl & Hmap & Hok).
    exists (forma :: l). rewrite Hl. simpl in *. rewrite Hp, Hok.
    repeat split. congruence.
Qed.

Lemma vector_text_tol_close (v : sf.Vector2f) :
  vector_text_tol v = true -> vectors_close v (releido_vec v).
Proof.
  unfold vector_text_tol. rewrite andb_true_iff. intros [Hx Hy].
  split; cbn [releido_vec sf.x sf.y]; apply float_text_tol_releido;
    assumption.
Qed.

Lemma puntos_tol_close (puntos : list sf.Vector2f) :
  forallb vector_text_tol puntos = true ->
  Forall2 vectors_close puntos (map releido_vec puntos).
Proof.
  induction puntos as [|p ps IH]; simpl; intros H; [constructor|].
  apply andb_true_iff in H as [Hp Hps].
  constructor; [apply vector_text_tol_close, Hp | apply IH, Hps].
Qed.

(** A tolerable shape and what the loader makes of its record agree within
    tolerance on every observable field. *)
Lemma recargada_observably_close (forma : ShapeBase) :
  tolerable forma = true -> observably_close forma (recargada (releida forma)).
Proof.
  intros Hok. unfold tolerable in Hok.
  rewrite !andb_true_iff in Hok.
  destruct Hok as [[[[Hpos Hrot] Hscl] _] Hfld].
  apply vector_text_tol_close in Hpos, Hscl.
  apply float_text_tol_releido in Hrot as [_ Hrot].
  unfold fields_tol in Hfld.
  destruct forma as [ty p pos col rot scl sel an d].
  cbn [type derived position rotation scale] in *.
  unfold observably_close, recargada, releida, construida, getType,
    getPosition, getRotation, getScale, getColor, animated.
  cbn [type derived position rotation scale color isAnimated].
  destruct ty, d; try discriminate Hfld;
    rewrite ?andb_true_iff in Hfld;
    repeat match goal with
           | H : _ /\ _ |- _ => destruct H
           end;
    repeat match goal with
           | H : float_text_tol _ = true |- _ =>
               apply float_text_tol_releido in H as [_ H]
           | H : vector_text_tol _ = true |- _ =>
               apply vector_text_tol_close in H
           | H : forallb vector_text_tol _ = true |- _ =>
               apply puntos_tol_close in H
           end;
    cbn; repeat split; try assumption;
    try (apply Hpos); try (apply Hscl);
    try match goal with
        | H : vectors_close ?v _ |- within_tolerance (_ ?v) _ = true =>
            apply H
        | H : line_position_tol _ = true |- _ =>
            unfold line_position_tol in H; apply andb_true_iff in H as [Hx Hy];
            first [exact Hx | exact Hy]
        end.
Qed.

Lemma scenes_close_recargada (l : list ShapeBase) :
  forallb tolerable l = true ->
  scenes_close (map Some l)
    (map (fun forma => Some (recargada (releida forma))) l).
Proof.
  induction l as [|forma l IH]; simpl; intros H; [constructor|].
  apply andb_true_iff in H as [Hf Hl].
  constructor; [apply recargada_observably_close, Hf | apply IH, Hl].
Qed.

(** Of a thousand floats in a row from 64 on, every one reads back within
    tolerance, and 77 read back as they were. *)
Lemma sixty_four_onwards :
  forallb float_text_tol desde_64 = true
  /\ List.length (filter float_text_ok desde_64) = 77%nat.
Proof. split; vm_compute; reflexivity. Qed.

(** C2, as the code has it: a scene of circles, rectangles, triangles,
    ellipses, polygons and lines, every number of which lies within 1e-4 of
    what the six digits written for it read back as (a line's position
    also of the midpoint the loader recomputes from it), is written by
    [guardarEscena] and read back by [cargarEscena], with no extraction
    failing and over whatever the scene held, as a scene with the same
    number of shapes in the same order, each of the type, class, colour,
    animated flag and number of points of its original, and with position,
    rotation, scale and the numbers of its class within 1e-4 of the
    original's. *)
Theorem guardar_cargar_roundtrip (fs old : Scene) :
  scene_tolerable fs = true ->
  exists archivo fs',
    guardarEscena true fs = Ok (Some archivo)
    /\ cargarEscena (Some archivo) old = Ok fs'
    /\ Failbit.cargarEscena (Some archivo) old = Ok fs'
    /\ scenes_close fs fs'.
Proof.
  intros H. unfold scene_tolerable in H.
  apply andb_true_iff in H as [Hlen Hfs].
  destruct (scene_tolerable_sin_nulos fs Hfs) as (l & Hl & Hmap & Hok).
  destruct (leer_formas_registros_tol l [] "010"%char Hok eq_refl)
    as [rest Hrest].
  exists (put_N (N.of_nat (List.length fs)) ++ "010"%char :: registros l).
  exists (map (fun forma => Some (recargada (releida forma))) l).
  assert (Hload : cargarEscena
                    (Some (put_N (N.of_nat (List.length fs))
                           ++ "010"%char :: registros l)) old
                  = Ok (map (fun forma => Some (recargada (releida forma))) l)).
  { unfold cargarEscena.
    erewrite rbind_ok by (apply get_size_t_put; [lia | reflexivity]).
    replace (Z.to_nat (Z.of_N (N.of_nat (List.length fs))))
      with (List.length l)
      by (rewrite Hmap, length_map; lia).
    rewrite Hrest. reflexivity. }
  split; [|split; [exact Hload|split]].
  - unfold guardarEscena.
    rewrite (escribir_formas_registros fs l _ Hl).
    unfold insert, Insert_string, Insert_size_t, nl; simpl.
    rewrite <- app_assoc. reflexivity.
  - rewrite cargarEscena_sin_fallo; [exact Hload|].
    intros E. discriminate (eq_trans (eq_sym E) Hload).
  - rewrite Hmap at 1. apply scenes_close_recargada, Hok.
Qed.

(** The round trip of the six kinds one frame into their animation, of a
    triangle with fractional size and scale and of a dragged line: every
    number comes back within 1e-4, though not all come back as they
    were. *)
Lemma guardar_cargar_roundtrip_witness :
  scene_tolerable escena_en_marcha = true
  /\ scene_serializable escena_en_marcha = false
  /\ exists archivo fs',
       guardarEscena true escena_en_marcha = Ok (Some archivo)
       /\ cargarEscena (Some archivo) [] = Ok fs'
       /\ Failbit.cargarEscena (Some archivo) [] = Ok fs'
       /\ scenes_close escena_en_marcha fs'.
Proof.
  split; [vm_compute; reflexivity|].
  split; [vm_compute; reflexivity|].
  apply (guardar_cargar_roundtrip escena_en_marcha []). vm_compute; reflexivity.
Defined.

(** C2 as stated fails.  The scene with one shape of each of the eight
    kinds does not come back: the cube's record carries the polygon tag and
    no field, so the text record after it is read as the cube's points and
    the extraction stops at its content.  A circle at abscissa 1000.123 is
    written as 1000.12 and comes back more than 1e-4 away.  The line from
    (800,500) to (900,600) comes back 100 long instead of 141.42. *)
Lemma roundtrip_fails_as_stated :
  guardar_y_cargar escena_ocho = Fault StreamFail
  /\ ~ (exists fs', guardar_y_cargar escena_ocho = Ok fs'
                    /\ scenes_equal escena_ocho fs')
  /\ (exists c,
        guardar_y_cargar [Some circulo_fino] = Ok [Some c]
        /\ F32.gtb (F32.abs (sf.x (getPosition c)
                             - sf.x (getPosition circulo_fino))%f32)
                   (F32.of_ratio false 1 10000) = true)
  /\ (exists l,
        guardar_y_cargar [Some linea] = Ok [Some l]
        /\ line_length l = Some (F32.of_Z 100)
        /\ line_length linea <> line_length l).
Proof.
  assert (H8 : guardar_y_cargar escena_ocho = Fault StreamFail)
    by (vm_compute; reflexivity).
  split; [exact H8|]. split.
  - intros (fs' & H & _). rewrite H8 in H. discriminate.
  - split; eexists; (split; [vm_compute; reflexivity|]).
    + vm_compute; reflexivity.
    + split; [reflexivity | vm_compute; discriminate].
Qed.

(** A line dragged to abscissa 0.1 comes back at 0.09999847: the loader
    rebuilds it from end points 50 to either side and their midpoint is
    another float. *)
Lemma line_midpoint_may_move :
  exists l,
    setPosition (sf.mkVector2f (F32.of_ratio false 1 10) (F32.of_Z 0)) linea
    = Ok l
    /\ vector_text_ok (getPosition l) = true
    /\ exists l',
         guardar_y_cargar [Some l] = Ok [Some l']
         /\ getPosition l' <> getPosition l.
Proof.
  eexists; split; [reflexivity|]. split; [vm_compute; reflexivity|].
  eexists; split; [vm_compute; reflexivity | vm_compute; discriminate].
Qed.

(** A text record stops the loader at [setRotation]: the text has no
    [shapePtr]. *)
Lemma text_record_faults :
  guardar_y_cargar [Some texto] = Fault NullDeref.
Proof. vm_compute; reflexivity. Qed.

(** A cube's record is read as a polygon whose point count is the tag of
    the record after it: before a circle, a polygon of no point spinning at
    400, and nothing for the circle. *)
Lemma cube_record_read_as_polygon :
  exists p,
    guardar_y_cargar [Some cubo; Some circulo] = Ok [Some p]
    /\ getType p = Polygon
    /\ derived p = PolygonShapeClass [] (F32.of_Z 400).
Proof. eexists; split; [vm_compute; reflexivity | split; reflexivity]. Qed.

(** C9 on the code: on a text or a cube, which never create [shapePtr],
    [setRotation] dereferences a null pointer, and so does [cargarEscena]
    on a file with a text record. *)
Theorem setRotation_faults_without_shapePtr (r : F32.t) :
  setRotation r texto = Fault NullDeref
  /\ setRotation r cubo = Fault NullDeref
  /\ cargarEscena (Some archivo_texto) [] = Fault NullDeref.
Proof. repeat split. Qed.

(** [cargarEscena] hands the stored rotation to [setRotation] as it is:
    720 and -45 stay 720 and -45. *)
Lemma cargarEscena_applies_stored_rotation :
  (exists c, cargarEscena (Some archivo_circulo_720) [] = Ok [Some c]
             /\ getRotation c = F32.of_Z 720)
  /\ (exists c, cargarEscena (Some archivo_circulo_menos_45) [] = Ok [Some c]
                /\ getRotation c = F32.of_Z (-45)).
Proof. split; eexists; (split; [vm_compute; reflexivity | reflexivity]). Qed.

(** C10: when the file cannot be opened [cargarEscena] leaves the scene as
    it was; once it is open the scene it held no longer counts, and a file
    announcing no shape leaves it empty. *)
Theorem cargarEscena_unopened_file :
  (forall fs, cargarEscena None fs = Ok fs)
  /\ (forall archivo fs,
        cargarEscena (Some archivo) fs = cargarEscena (Some archivo) [])
  /\ cargarEscena (Some archivo_vacio) [Some circulo] = Ok [].
Proof. repeat split. Qed.

(** * Further properties *)

(** ** The manager as a pair of stacks *)

(** X1: when the undo stack holds an action, [redo()] right after
    [undo()] puts both stacks back as they were; when the redo stack holds
    one, so does [undo()] right after [redo()]: the action that travels
    keeps its shape, only the value handed to the caller loses it.  On an
    empty stack the first call changes nothing, so the pair of calls does
    what the second alone does. *)
Theorem undo_then_redo_restores (a : Action.t) (us rs : list Action.t) :
  snd (redo (snd (undo (mkManager (a :: us) rs)))) = mkManager (a :: us) rs
  /\ snd (undo (snd (redo (mkManager us (a :: rs))))) = mkManager us (a :: rs)
  /\ snd (redo (snd (undo (mkManager [] rs)))) = snd (redo (mkManager [] rs))
  /\ snd (undo (snd (redo (mkManager us [])))) = snd (undo (mkManager us [])).
Proof. destruct a; repeat split; reflexivity. Qed.

Lemma undo_step (a : Action.t) (us rs : list Action.t) :
  snd (undo (mkManager (a :: us) rs)) = mkManager us (a :: rs).
Proof. destruct a; reflexivity. Qed.

Lemma redo_step (a : Action.t) (us rs : list Action.t) :
  snd (redo (mkManager us (a :: rs))) = mkManager (a :: us) rs.
Proof. destruct a; reflexivity. Qed.

(** X2: [undo()] and [redo()] never create or lose an action: the two
    stacks together hold as many as before; [addAction] keeps the undo
    stack, adds one to it and drops every redoable action. *)
Theorem history_size (m : UndoRedoManager) (a : Action.t) :
  let size m := (List.length (undoStack m) + List.length (redoStack m))%nat in
  size (snd (undo m)) = size m
  /\ size (snd (redo m)) = size m
  /\ size (addAction a m) = S (List.length (undoStack m)).
Proof.
  destruct m as [[|u us] [|r rs]]; cbn -[Nat.add];
    rewrite ?pop_all_empty; cbn; repeat split; lia.
Qed.

Lemma deshacer_n_spec (n : nat) (us rs : list Action.t) :
  deshacer_n n (mkManager us rs)
  = mkManager (skipn n us) (rev (firstn n us) ++ rs).
Proof.
  revert us rs; induction n as [|n IH]; intros us rs; [reflexivity|].
  destruct us as [|a us]; cbn [deshacer_n].
  - change (snd (undo (mkManager [] rs))) with (mkManager [] rs).
    rewrite IH. destruct n; reflexivity.
  - rewrite undo_step, IH. cbn [skipn firstn rev].
    rewrite <- app_assoc. reflexivity.
Qed.

Lemma rehacer_n_spec (n : nat) (us rs : list Action.t) :
  rehacer_n n (mkManager us rs)
  = mkManager (rev (firstn n rs) ++ us) (skipn n rs).
Proof.
  revert us rs; induction n as [|n IH]; intros us rs; [reflexivity|].
  destruct rs as [|a rs]; cbn [rehacer_n].
  - change (snd (redo (mkManager us []))) with (mkManager us []).
    rewrite IH. destruct n; reflexivity.
  - rewrite redo_step, IH. cbn [skipn firstn rev].
    rewrite <- app_assoc. reflexivity.
Qed.

(** X3: undoing as often as the undo stack has actions, or more often,
    empties it into the redo stack, newest action deepest, above whatever
    was redoable before; the calls beyond the last action change nothing.
    Redoing then exactly as often as there were actions to undo gives back
    both stacks as they were at the start. *)
Theorem deshacer_n_rehacer_n (k : nat) (us rs : list Action.t) :
  deshacer_n (List.length us + k) (mkManager us rs)
  = mkManager [] (rev us ++ rs)
  /\ rehacer_n (List.length us)
       (deshacer_n (List.length us + k) (mkManager us rs))
     = mkManager us rs.
Proof.
  assert (H : deshacer_n (List.length us + k) (mkManager us rs)
              = mkManager [] (rev us ++ rs)).
  { rewrite deshacer_n_spec.
    rewrite skipn_all2, firstn_all2 by lia. reflexivity. }
  split; [exact H|].
  rewrite H, rehacer_n_spec, <- (length_rev us).
  rewrite firstn_app, firstn_all, Nat.sub_diag.
  rewrite skipn_app, skipn_all, Nat.sub_diag.
  cbn [firstn skipn app]. rewrite !app_nil_r, rev_involutive. reflexivity.
Qed.

(** ** Vectors by index *)

Lemma vec_index_nat {A} (i : nat) (v : list A) :
  (i < List.length v)%nat -> vec_index (Z.of_nat i) v = Some i.
Proof.
  intros H. unfold vec_index.
  destruct (Z.leb_spec 0 (Z.of_nat i)); [|lia].
  destruct (Z.ltb_spec (Z.of_nat i) (Z.of_nat (List.length v))); [|lia].
  cbn [andb]. rewrite Nat2Z.id. reflexivity.
Qed.

Lemma firstn_middle {A} (l1 l2 : list A) (a : A) :
  firstn (List.length l1) (l1 ++ a :: l2) = l1.
Proof.
  rewrite firstn_app, firstn_all, Nat.sub_diag. cbn [firstn].
  apply app_nil_r.
Qed.

Lemma skipn_middle {A} (l1 l2 : list A) (a : A) :
  skipn (S (List.length l1)) (l1 ++ a :: l2) = l2.
Proof.
  rewrite skipn_app, skipn_all2 by lia.
  replace (S (List.length l1) - List.length l1)%nat with 1%nat by lia.
  reflexivity.
Qed.

Lemma skipn_middle_0 {A} (l1 l2 : list A) :
  skipn (List.length l1) (l1 ++ l2) = l2.
Proof.
  rewrite skipn_app, skipn_all, Nat.sub_diag. reflexivity.
Qed.

Lemma firstn_middle_0 {A} (l1 l2 : list A) :
  firstn (List.length l1) (l1 ++ l2) = l1.
Proof.
  rewrite firstn_app, firstn_all, Nat.sub_diag. cbn [firstn].
  apply app_nil_r.
Qed.

Lemma vec_at_middle {A} (l1 l2 : list A) (a : A) :
  vec_at (Z.of_nat (List.length l1)) (l1 ++ a :: l2) = Ok a.
Proof.
  unfold vec_at.
  rewrite vec_index_nat by (rewrite length_app; simpl; lia).
  rewrite nth_error_app2, Nat.sub_diag by lia. reflexivity.
Qed.

Lemma vec_erase_middle {A} (l1 l2 : list A) (a : A) :
  vec_erase (Z.of_nat (List.length l1)) (l1 ++ a :: l2) = Ok (l1 ++ l2).
Proof.
  unfold vec_erase.
  rewrite vec_index_nat by (rewrite length_app; simpl; lia).
  rewrite firstn_middle, skipn_middle. reflexivity.
Qed.

Lemma vec_assign_middle {A} (l1 l2 : list A) (a b : A) :
  vec_assign (Z.of_nat (List.length l1)) b (l1 ++ a :: l2)
  = Ok (l1 ++ b :: l2).
Proof.
  unfold vec_assign.
  rewrite vec_index_nat by (rewrite length_app; simpl; lia).
  rewrite firstn_middle, skipn_middle. reflexivity.
Qed.

Lemma vec_insert_middle {A} (l1 l2 : list A) (a : A) :
  vec_insert (Z.of_nat (List.length l1)) a (l1 ++ l2) = Ok (l1 ++ a :: l2).
Proof.
  unfold vec_insert.
  destruct (Z.leb_spec 0 (Z.of_nat (List.length l1))); [|lia].
  destruct (Z.leb_spec (Z.of_nat (List.length l1))
              (Z.of_nat (List.length (l1 ++ l2))));
    [|rewrite length_app in *; lia].
  cbn [andb]. rewrite Nat2Z.id, firstn_middle_0, skipn_middle_0. reflexivity.
Qed.

(** ** Null entries *)

Lemma updateShape_fault (deltaTime : F32.t) (s : ShapeBase) (f : fault) :
  updateShape deltaTime s = Fault f -> f = NullDeref.
Proof.
  unfold updateShape, spin, through_shapePtr.
  destruct (derived s); destruct (isAnimated s); cbn;
    try discriminate;
    destruct (shapePtr s); cbn; try discriminate;
    try (intros H; injection H as <-; reflexivity).
  all: try (destruct (_ >=? _)%f32; discriminate).
Qed.

Lemma actualizar_animaciones_null (deltaTime : F32.t) (fs : Scene) :
  In None fs -> actualizar_animaciones deltaTime fs = Fault NullDeref.
Proof.
  induction fs as [|p fs IH]; intros H; [contradiction|].
  cbn [actualizar_animaciones].
  destruct p as [forma|]; [|reflexivity].
  destruct H as [H|H]; [discriminate|].
  cbn [deref bind].
  destruct (updateShape deltaTime forma) as [forma1|f] eqn:E; cbn [bind].
  - rewrite (IH H). reflexivity.
  - apply updateShape_fault in E. subst f. reflexivity.
Qed.

Lemma escribir_formas_null (o : text) (fs : Scene) :
  In None fs -> escribir_formas o fs = Fault NullDeref.
Proof.
  revert o; induction fs as [|p fs IH]; intros o H; [contradiction|].
  cbn [escribir_formas].
  destruct p as [forma|]; [|reflexivity].
  destruct H as [H|H]; [discriminate|].
  cbn [deref bind]. apply IH, H.
Qed.

Lemma escribir_formas_ok (o : text) (fs : Scene) :
  ~ In None fs -> exists archivo, escribir_formas o fs = Ok archivo.
Proof.
  revert o; induction fs as [|p fs IH]; intros o H.
  - exists o; reflexivity.
  - cbn [escribir_formas]. destruct p as [forma|].
    + cbn [deref bind]. apply IH. intros Hin; apply H; right; exact Hin.
    + exfalso; apply H; left; reflexivity.
Qed.

(** X4: when the output file opens, [guardarEscena] goes through every
    entry: with a null entry in the scene, as [Rehacer] leaves one, it
    dereferences it; with none it always writes a file, whatever the
    shapes.  When the file does not open it looks at no entry and writes
    nothing. *)
Theorem guardarEscena_null_entries (fs : Scene) :
  (In None fs -> guardarEscena true fs = Fault NullDeref)
  /\ (~ In None fs -> exists archivo, guardarEscena true fs = Ok (Some archivo))
  /\ guardarEscena false fs = Ok None.
Proof.
  unfold guardarEscena; split; [|split]; [intros H | intros H | reflexivity].
  - rewrite escribir_formas_null by exact H. reflexivity.
  - destruct (escribir_formas_ok
                ([] << N.of_nat (List.length fs) << nl) fs H) as [a Ha].
    exists a. rewrite Ha. reflexivity.
Qed.

(** ** Undo and redo on any scene *)

(** X5: on every scene and for every shape, [Deshacer] after an [Añadir]
    gives the scene back, and [Rehacer] after that appends a null pointer,
    not the shape; the next animation pass and the next save then
    dereference it. *)
Theorem rehacer_anadir_inserts_null (nueva : ShapeBase) (app : App)
    (deltaTime : F32.t) :
  exists a1 a2 a3,
    anadir nueva app = Ok a1 /\ boton_Deshacer a1 = Ok a2
    /\ boton_Rehacer a2 = Ok a3
    /\ formas a2 = formas app
    /\ formas a3 = formas app ++ [None]
    /\ actualizar_animaciones deltaTime (formas a3) = Fault NullDeref
    /\ guardarEscena true (formas a3) = Fault NullDeref.
Proof.
  destruct app as [fs m]. unfold anadir. cbn [formas undoRedoManager].
  rewrite last_last. cbn [deref bind].
  eexists; eexists; eexists. split; [reflexivity|].
  unfold boton_Deshacer, addAction, undo.
  cbn [undoRedoManager formas Action.move canUndo undoStack redoStack
       Action.type Action.index Action.shape].
  rewrite vec_erase_last. cbn [bind]. split; [reflexivity|].
  unfold boton_Rehacer, redo.
  cbn [undoRedoManager formas Action.move canRedo undoStack redoStack
       Action.type Action.index Action.shape].
  rewrite length_app. cbn [List.length].
  replace (Z.of_nat (List.length fs + 1) - 1) with (Z.of_nat (List.length fs))
    by lia.
  rewrite <- (app_nil_r fs) at 2. rewrite vec_insert_middle. cbn [bind].
  split; [reflexivity|]. cbn [formas]. split; [reflexivity|].
  split; [reflexivity|].
  assert (Hin : In None (fs ++ [None]))
    by (apply in_or_app; right; left; reflexivity).
  split.
  - apply actualizar_animaciones_null, Hin.
  - unfold guardarEscena. rewrite escribir_formas_null by exact Hin.
    reflexivity.
Qed.

(** X6: [Eliminar Forma] on a non-null entry takes exactly that entry out
    and leaves the others in order; [Deshacer] after it brings the scene
    back to its length with a null pointer where the shape was. *)
Theorem eliminar_y_deshacer (l1 l2 : Scene) (s : ShapeBase)
    (m : UndoRedoManager) :
  exists a1 a2,
    boton_Eliminar_Forma (Z.of_nat (List.length l1))
      (mkApp (l1 ++ Some s :: l2) m) = Ok a1
    /\ formas a1 = l1 ++ l2
    /\ boton_Deshacer a1 = Ok a2
    /\ formas a2 = l1 ++ None :: l2.
Proof.
  unfold boton_Eliminar_Forma. cbn [formas undoRedoManager].
  rewrite vec_index_nat by (rewrite length_app; simpl; lia).
  rewrite vec_at_middle. cbn [bind deref].
  rewrite vec_erase_middle. cbn [bind].
  eexists; eexists. split; [reflexivity|]. split; [reflexivity|].
  unfold boton_Deshacer, addAction, undo.
  cbn [undoRedoManager formas Action.move canUndo undoStack redoStack
       Action.type Action.index Action.shape].
  rewrite vec_insert_middle. cbn [bind]. split; reflexivity.
Qed.

(** ** Animation passes *)

Lemma updateShape_same_but_rotation (deltaTime : F32.t) (s s' : ShapeBase) :
  updateShape deltaTime s = Ok s' -> same_but_rotation s s'.
Proof.
  destruct s as [ty p pos col rot scl sel an d].
  unfold updateShape, spin, through_shapePtr, same_but_rotation.
  destruct d; destruct an; cbn;
    try (intros H; injection H as <-; cbn; repeat split; reflexivity);
    try (destruct p; cbn; try discriminate;
         intros H; injection H as <-; cbn; repeat split; reflexivity).
  destruct (_ >=? _)%f32;
    intros H; injection H as <-; cbn; repeat split; reflexivity.
Qed.

(** X7: when the animation pass over the scene returns, the scene has as
    many entries as before, none of them null, and every shape reports the
    type, position, scale, colour, animated and selected flags and class
    fields it reported before: of what the getters show, only the rotation
    moves.  (The pass also turns and pulses the [sf::Shape] that is drawn;
    that object's transform is not followed here.) *)
Theorem actualizar_animaciones_keeps (deltaTime : F32.t) (fs fs' : Scene) :
  actualizar_animaciones deltaTime fs = Ok fs' ->
  Forall2 (fun p p' =>
             match p, p' with
             | Some s, Some s' => same_but_rotation s s'
             | _, _ => False
             end) fs fs'.
Proof.
  revert fs'; induction fs as [|p fs IH]; intros fs' H.
  - injection H as <-. constructor.
  - cbn [actualizar_animaciones] in H.
    destruct p as [forma|]; [|discriminate].
    cbn [deref bind] in H.
    destruct (updateShape deltaTime forma) as [forma1|f] eqn:E;
      [|discriminate].
    cbn [bind] in H.
    destruct (actualizar_animaciones deltaTime fs) as [fs1|f] eqn:E1;
      [|discriminate].
    injection H as <-.
    constructor; [apply (updateShape_same_but_rotation _ _ _ E)|].
    apply IH; reflexivity.
Qed.

(** The pass over one shape of each kind, the circle spinning. *)
Lemma actualizar_animaciones_keeps_witness :
  exists fs',
    actualizar_animaciones (F32.of_Z 1) (Some circulo_90 :: escena_ocho)
    = Ok fs'
    /\ Forall2 (fun p p' =>
                  match p, p' with
                  | Some s, Some s' => same_but_rotation s s'
                  | _, _ => False
                  end) (Some circulo_90 :: escena_ocho) fs'.
Proof.
  eexists. split; [vm_compute; reflexivity|].
  apply (actualizar_animaciones_keeps (F32.of_Z 1)). vm_compute; reflexivity.
Defined.

(** ** Clones *)

(** X8: a clone of any shape, cube included, is at rest: rotation 0, scale
    (1,1), not selected, not animated, whatever the source was doing. *)
Theorem clone_at_rest (s : ShapeBase) :
  getRotation (clone s) = F32.of_Z 0
  /\ getScale (clone s) = vec 1 1
  /\ selected (clone s) = false
  /\ animated (clone s) = false.
Proof.
  destruct s as [ty p pos col rot scl sel an d]; destruct d;
    repeat split.
Qed.

(** X9: but for lines, cloning a clone gives the same object again: a clone
    is made of the constructor's arguments only, and it keeps them. *)
Theorem clone_idempotent (s : ShapeBase) :
  (forall thickness rotSpeed, derived s <> LineShapeClass thickness rotSpeed) ->
  clone (clone s) = clone s.
Proof.
  intros H. destruct s as [ty p pos col rot scl sel an d]; destruct d;
    try reflexivity.
  exfalso; apply (H thickness rotationSpeed); reflexivity.
Qed.

Lemma clone_idempotent_witness :
  clone (clone (ajustada circulo)) = clone (ajustada circulo).
Proof. apply clone_idempotent. intros thickness rotSpeed; discriminate. Defined.

(** A line drifts: each clone is 50 further to the right. *)
Lemma clone_line_drifts :
  getPosition (clone (clone linea)) = vec 950 550
  /\ clone (clone linea) <> clone linea.
Proof. split; [reflexivity | vm_compute; discriminate]. Qed.

(** ** Selection *)

Lemma deseleccionar_otras_ok (i : nat) (fs : Scene) (j : nat) :
  Forall dibujable fs ->
  exists fs',
    deseleccionar_otras i j fs = Ok fs'
    /\ forall k s, nth_error fs k = Some (Some s) ->
         nth_error fs' k
         = Some (Some (if Nat.eqb (j + k) i then s
                       else with_isSelected false s)).
Proof.
  intros H; revert j; induction H as [|p fs Hp Hfs IH]; intros j.
  - exists []. split; [reflexivity|]. intros [|k] s Hk; discriminate.
  - destruct (IH (S j)) as (fs1 & E1 & Hnth).
    destruct p as [forma|]; [|contradiction]. cbn [dibujable] in Hp.
    cbn [deseleccionar_otras].
    destruct (Nat.eqb j i) eqn:Eji.
    + cbn [bind]. rewrite E1. cbn [bind]. eexists; split; [reflexivity|].
      intros [|k] s Hk.
      * cbn in Hk. injection Hk as <-. rewrite Nat.add_0_r, Eji. reflexivity.
      * cbn [nth_error] in *. rewrite (Hnth k s Hk).
        replace (S j + k)%nat with (j + S k)%nat by lia. reflexivity.
    + cbn [deref bind]. unfold deselect, through_shapePtr. cbn [shapePtr with_isSelected].
      destruct (shapePtr forma) as [d|] eqn:Ep; [|contradiction].
      cbn [bind]. rewrite E1. cbn [bind]. eexists; split; [reflexivity|].
      intros [|k] s Hk.
      * cbn in Hk. injection Hk as <-. rewrite Nat.add_0_r, Eji. reflexivity.
      * cbn [nth_error] in *. rewrite (Hnth k s Hk).
        replace (S j + k)%nat with (j + S k)%nat by lia. reflexivity.
Qed.

Lemma deseleccionar_otras_inv (i : nat) (fs : Scene) (j : nat) :
  (forall f, deseleccionar_otras i j fs = Fault f -> f = NullDeref)
  /\ (forall fs', deseleccionar_otras i j fs = Ok fs' ->
      forall k p, nth_error fs k = Some p -> (j + k)%nat <> i -> dibujable p).
Proof.
  revert j; induction fs as [|p fs IH]; intros j.
  - split; [discriminate|]. intros fs' _ [|k] p Hk; discriminate.
  - destruct (IH (S j)) as [IHf IHo].
    cbn [deseleccionar_otras].
    destruct (Nat.eqb_spec j i) as [Eji|Eji].
    + cbn [bind].
      destruct (deseleccionar_otras i (S j) fs) as [fs1|f1] eqn:E1; cbn [bind].
      * split; [discriminate|]. intros fs' _ [|k] q Hk Hne.
        -- exfalso; apply Hne; lia.
        -- apply (IHo fs1 eq_refl k q Hk). lia.
      * split; [|discriminate].
        intros f H; injection H as <-. apply IHf; reflexivity.
    + destruct p as [forma|]; cbn [deref bind].
      2:{ split; [|discriminate]. intros f H; injection H as <-; reflexivity. }
      unfold deselect, through_shapePtr. cbn [shapePtr with_isSelected].
      destruct (shapePtr forma) as [d|] eqn:Ep; cbn [bind].
      2:{ split; [|discriminate]. intros f H; injection H as <-; reflexivity. }
      destruct (deseleccionar_otras i (S j) fs) as [fs1|f1] eqn:E1; cbn [bind].
      * split; [discriminate|]. intros fs' _ [|k] q Hk Hne.
        -- cbn in Hk. injection Hk as <-. cbn. rewrite Ep. discriminate.
        -- apply (IHo fs1 eq_refl k q Hk). lia.
      * split; [|discriminate].
        intros f H; injection H as <-. apply IHf; reflexivity.
Qed.

(** X10: in a scene whose entries all own an [sf::Shape], choosing entry
    [i] returns the scene with that entry selected, every other entry
    deselected, and nothing else changed. *)
Theorem seleccionar_exclusive (l1 l2 : Scene) (s : ShapeBase) :
  Forall dibujable (l1 ++ Some s :: l2) ->
  exists fs',
    seleccionar (List.length l1) (l1 ++ Some s :: l2) = Ok fs'
    /\ forall k s', nth_error (l1 ++ Some s :: l2) k = Some (Some s') ->
         nth_error fs' k
         = Some (Some (with_isSelected (Nat.eqb k (List.length l1)) s')).
Proof.
  intros H. unfold seleccionar.
  rewrite vec_at_middle. cbn [bind deref].
  assert (Hs : shapePtr s <> None).
  { apply Forall_app in H as [_ H]. inversion H; subst. assumption. }
  unfold select, through_shapePtr. cbn [shapePtr with_isSelected].
  destruct (shapePtr s) as [d|] eqn:Ep; [|contradiction]. cbn [bind].
  rewrite vec_assign_middle. cbn [bind].
  set (s1 := with_isSelected true s).
  assert (H1 : Forall dibujable (l1 ++ Some s1 :: l2)).
  { apply Forall_app in H as [Ha Hb]. apply Forall_app; split; [exact Ha|].
    inversion Hb; subst. constructor; [cbn; rewrite Ep; discriminate | assumption]. }
  destruct (deseleccionar_otras_ok (List.length l1) _ 0 H1) as (fs' & E & Hnth).
  exists fs'. split; [exact E|].
  intros k s' Hk. cbn [Nat.add] in Hnth.
  destruct (Nat.lt_trichotomy k (List.length l1)) as [Hlt|[Heq|Hgt]].
  - rewrite nth_error_app1 in Hk by exact Hlt.
    rewrite (Hnth k s') by (rewrite nth_error_app1 by exact Hlt; exact Hk).
    destruct (Nat.eqb_spec k (List.length l1)); [lia | reflexivity].
  - subst k. rewrite nth_error_app2, Nat.sub_diag in Hk by lia.
    cbn in Hk. injection Hk as <-.
    rewrite (Hnth (List.length l1) s1)
      by (rewrite nth_error_app2, Nat.sub_diag by lia; reflexivity).
    rewrite Nat.eqb_refl. reflexivity.
  - rewrite nth_error_app2 in Hk by lia.
    rewrite (Hnth k s').
    + destruct (Nat.eqb_spec k (List.length l1)); [lia | reflexivity].
    + rewrite nth_error_app2 by lia.
      destruct (k - List.length l1)%nat eqn:Ed; [lia | exact Hk].
Qed.

Lemma seleccionar_exclusive_witness :
  Forall dibujable [Some circulo; Some rectangulo; Some triangulo]
  /\ exists fs',
       seleccionar 1 [Some circulo; Some rectangulo; Some triangulo] = Ok fs'
       /\ forall k s',
            nth_error [Some circulo; Some rectangulo; Some triangulo] k
            = Some (Some s') ->
            nth_error fs' k = Some (Some (with_isSelected (Nat.eqb k 1) s')).
Proof.
  assert (H : Forall dibujable [Some circulo; Some rectangulo; Some triangulo])
    by (repeat constructor; discriminate).
  split; [exact H|].
  exact (seleccionar_exclusive [Some circulo] [Some triangulo] rectangulo H).
Defined.

(** X11: with a null entry, a text or a cube anywhere in the scene,
    choosing any entry dereferences a null pointer. *)
Theorem seleccionar_faults (i : nat) (fs : Scene) :
  (i < List.length fs)%nat ->
  Exists (fun p => ~ dibujable p) fs ->
  seleccionar i fs = Fault NullDeref.
Proof.
  intros Hi Hbad.
  apply Exists_exists in Hbad as (q & Hin & Hq).
  apply In_nth_error in Hin as [k Hk].
  destruct (nth_error fs i) as [p|] eqn:Ei;
    [|apply nth_error_None in Ei; lia].
  apply nth_error_split in Ei as (l1 & l2 & -> & <-).
  unfold seleccionar. rewrite vec_at_middle. cbn [bind].
  destruct p as [s|]; [|reflexivity]. cbn [deref bind].
  unfold select, through_shapePtr. cbn [shapePtr with_isSelected].
  destruct (shapePtr s) as [d|] eqn:Ep; [|reflexivity]. cbn [bind].
  rewrite vec_assign_middle. cbn [bind].
  set (s1 := with_isSelected true s).
  destruct (deseleccionar_otras_inv (List.length l1) (l1 ++ Some s1 :: l2) 0)
    as [Hf Ho].
  destruct (deseleccionar_otras (List.length l1) 0 (l1 ++ Some s1 :: l2))
    as [fs'|f] eqn:E.
  - exfalso. apply Hq.
    destruct (Nat.eq_dec k (List.length l1)) as [->|Hne].
    + rewrite nth_error_app2, Nat.sub_diag in Hk by lia.
      cbn in Hk. injection Hk as <-. cbn. rewrite Ep. discriminate.
    + apply (Ho fs' eq_refl k q); [|cbn; lia].
      destruct (Nat.lt_ge_cases k (List.length l1)) as [Hlt|Hge].
      * rewrite nth_error_app1 in * by exact Hlt. exact Hk.
      * rewrite nth_error_app2 in * by exact Hge.
        destruct (k - List.length l1)%nat eqn:Ed; [lia | exact Hk].
  - rewrite (Hf f eq_refl). reflexivity.
Qed.

Lemma seleccionar_faults_witness :
  seleccionar 0 [Some circulo; Some cubo] = Fault NullDeref.
Proof.
  apply seleccionar_faults; [simpl; lia|].
  apply Exists_cons_tl, Exists_cons_hd. cbn. intros H; apply H; reflexivity.
Defined.

(** ** Connections *)

Lemma vec_at_in_range {A} (z : Z) (v : list A) :
  (to_size_t z <? Z.of_nat (List.length v)) = true ->
  exists a, vec_at (to_size_t z) v = Ok a /\ In a v.
Proof.
  intros H. apply Z.ltb_lt in H.
  assert (H0 : 0 <= to_size_t z)
    by (unfold to_size_t; apply Z.mod_pos_bound; lia).
  unfold vec_at, vec_index.
  destruct (Z.leb_spec 0 (to_size_t z)); [|lia].
  destruct (Z.ltb_spec (to_size_t z) (Z.of_nat (List.length v))); [|lia].
  cbn [andb].
  destruct (nth_error v (Z.to_nat (to_size_t z))) as [a|] eqn:E.
  - exists a; split; [reflexivity | eapply nth_error_In; exact E].
  - apply nth_error_None in E. lia.
Qed.

(** X12: [drawConnections] never indexes the scene out of range, whatever
    the indices of a connection, negative ones included: in a scene with no
    null entry it returns two vertices for each connection. *)
Theorem drawConnections_in_range (fs : Scene) (connections : list Connection) :
  ~ In None fs ->
  exists lines,
    drawConnections fs connections = Ok lines
    /\ List.length lines = (2 * List.length connections)%nat.
Proof.
  intros Hnn. induction connections as [|c cs IH].
  - exists []; split; reflexivity.
  - destruct IH as (rest & Erest & Hlen).
    cbn [drawConnections]. rewrite Erest.
    destruct (to_size_t (shapeAIndex c) <? Z.of_nat (List.length fs)) eqn:Ea;
      cbn [andb].
    2:{ cbn [bind]. eexists; split; [reflexivity|].
        cbn [app List.length]. lia. }
    destruct (to_size_t (shapeBIndex c) <? Z.of_nat (List.length fs)) eqn:Eb.
    2:{ cbn [bind]. eexists; split; [reflexivity|].
        cbn [app List.length]. lia. }
    destruct (vec_at_in_range _ fs Ea) as (pa & Epa & Hina).
    destruct (vec_at_in_range _ fs Eb) as (pb & Epb & Hinb).
    rewrite Epa. cbn [bind].
    destruct pa as [formaA|]; [|contradiction]. cbn [deref bind].
    rewrite Epb. cbn [bind].
    destruct pb as [formaB|]; [|contradiction]. cbn [deref bind].
    eexists; split; [reflexivity|]. cbn [app List.length]. lia.
Qed.

Lemma drawConnections_in_range_witness :
  exists lines,
    drawConnections [Some circulo; Some cubo]
      [mkConnection 0 1; mkConnection (-1) 0; mkConnection 1 7] = Ok lines
    /\ List.length lines = (2 * 3)%nat.
Proof.
  apply (drawConnections_in_range [Some circulo; Some cubo]).
  intros [H|[H|[]]]; discriminate.
Defined.

(** ** The loader on a failing stream *)

Lemma through_shapePtr_inv (s s' : ShapeBase) :
  through_shapePtr s = Ok s' -> s' = s /\ shapePtr s <> None.
Proof.
  unfold through_shapePtr. destruct (shapePtr s); [|discriminate].
  intros H; injection H as <-. split; [reflexivity | discriminate].
Qed.

Lemma lbind_inv {A B} (c : Failbit.lector A) (k : A -> Failbit.lector B)
    (st : Failbit.ifstream) (r : B * Failbit.ifstream) :
  Failbit.lbind c k st = Ok r ->
  exists a st', c st = Ok (a, st') /\ k a st' = Ok r.
Proof.
  unfold Failbit.lbind. destruct (c st) as [[a st']|f]; [|discriminate].
  intros H; exists a, st'; split; [reflexivity | exact H].
Qed.

Lemma usar_inv {A} (x : option A) (st st' : Failbit.ifstream) (v : A) :
  Failbit.usar x st = Ok (v, st') -> x = Some v /\ st' = st.
Proof.
  unfold Failbit.usar. destruct x; [|discriminate].
  intros H; injection H as <- <-. split; reflexivity.
Qed.

Lemma lift_lector_inv {A} (c : result A) (st st' : Failbit.ifstream) (a : A) :
  Failbit.lift c st = Ok (a, st') -> c = Ok a.
Proof.
  unfold Failbit.lift. destruct c; [|discriminate].
  intros H; injection H as <- _. reflexivity.
Qed.

Ltac next_lbind H :=
  let a := fresh "a" in
  let st := fresh "st" in
  let E := fresh "E" in
  apply lbind_inv in H as (a & st & E & H).

Ltac next_usar H :=
  let a := fresh "a" in
  let st := fresh "st" in
  let E := fresh "E" in
  apply lbind_inv in H as (a & st & E & H);
  apply usar_inv in E as [-> ->].

(** Whatever the stream gives, the [switch] builds an object of the class
    its tag names, unselected, with its accumulator at 0; only a text
    comes without [shapePtr]. *)
Lemma leer_propiedades_failbit_inv (tipo : option ShapeType)
    (pos : sf.Vector2f) (col : sf.Color) (st st' : Failbit.ifstream)
    (forma : ShapeBase) :
  Failbit.leer_propiedades tipo pos col st = Ok (Some forma, st') ->
  isSelected forma = false
  /\ match type forma, derived forma with
     | Circle, CircleShapeClass _ _ _ scaleTime => scaleTime = F32.of_Z 0
     | Rectangle, RectangleShapeClass _ _ _ scaleTime => scaleTime = F32.of_Z 0
     | Triangle, TriangleShapeClass _ _ => True
     | Ellipse, EllipseShapeClass _ _ _ => True
     | Polygon, PolygonShapeClass _ _ => True
     | Line, LineShapeClass _ _ => True
     | Text, TextShapeClass _ _ _ _ _ => shapePtr forma = None
     | _, _ => False
     end.
Proof.
  intros H. unfold Failbit.leer_propiedades in H.
  destruct tipo as [[]|]; try discriminate H;
    repeat next_lbind H;
    injection H as <- _; split; reflexivity.
Qed.

Lemma leer_forma_failbit_inv (st st' : Failbit.ifstream) (forma : ShapeBase) :
  Failbit.leer_forma st = Ok (Some forma, st') -> bien_cargada forma.
Proof.
  intros H. unfold Failbit.leer_forma in H.
  do 11 next_lbind H. clear E E0 E1 E2 E3 E4 E5 E6 E7 E8 E9.
  do 7 next_usar H.
  next_lbind H.
  match type of H with
  | match ?n with _ => _ end _ = _ => destruct n as [nueva|]; [|discriminate]
  end.
  apply leer_propiedades_failbit_inv in E as [Hsel Hcls].
  next_usar H. cbv zeta in H. next_usar H.
  next_lbind H. apply lift_lector_inv, through_shapePtr_inv in E as [-> Hptr].
  do 2 next_usar H.
  next_lbind H. apply lift_lector_inv, through_shapePtr_inv in E as [-> _].
  injection H as <- _.
  destruct nueva as [ty p pos col rot scl sel an d]; cbn in *.
  unfold bien_cargada; cbn. split; [exact Hsel|]. split; [exact Hptr|].
  destruct ty, d; try contradiction; try exact Hcls; try exact I.
Qed.

Lemma leer_formas_failbit_inv (cantidad : nat) (acc fs' : Scene)
    (st st' : Failbit.ifstream) :
  Failbit.leer_formas cantidad acc st = Ok (fs', st') ->
  Forall (fun p => exists forma, p = Some forma /\ bien_cargada forma) acc ->
  Forall (fun p => exists forma, p = Some forma /\ bien_cargada forma) fs'
  /\ (List.length fs' <= List.length acc + cantidad)%nat.
Proof.
  revert acc st; induction cantidad as [|n IH]; intros acc st H Hacc.
  - injection H as <- _. split; [exact Hacc | lia].
  - cbn [Failbit.leer_formas] in H. next_lbind H.
    destruct a as [forma|].
    + apply leer_forma_failbit_inv in E.
      apply IH in H.
      * destruct H as [Hall Hlen]. split; [exact Hall|].
        rewrite length_app in Hlen. simpl in Hlen. lia.
      * apply Forall_app; split; [exact Hacc|].
        constructor; [exists forma; split; [reflexivity | exact E] | constructor].
    + apply IH in H; [|exact Hacc].
      destruct H as [Hall Hlen]. split; [exact Hall | lia].
Qed.

Lemma cargarEscena_failbit_inv (archivo : text) (old fs' : Scene) :
  Failbit.cargarEscena (Some archivo) old = Ok fs' ->
  exists cantidad st,
    Failbit.get_size_t None (Failbit.mkStream archivo false)
    = Ok (Some cantidad, st)
    /\ Forall (fun p => exists forma, p = Some forma /\ bien_cargada forma) fs'
    /\ (List.length fs' <= Z.to_nat cantidad)%nat.
Proof.
  unfold Failbit.cargarEscena. intros H.
  match type of H with
  | bind ?c _ = _ => destruct c as [[fs1 rest]|f] eqn:E; [|discriminate]
  end.
  cbn [bind] in H. injection H as <-.
  next_lbind E. next_usar E.
  exists a0, st. split; [exact E0|].
  apply leer_formas_failbit_inv in E; [|constructor]. exact E.
Qed.

(** A size is never negative, also when the extraction fails. *)
Lemma get_size_t_failbit_nonneg (x : option Z) (st st' : Failbit.ifstream)
    (cantidad : Z) :
  (forall v, x = Some v -> 0 <= v) ->
  Failbit.get_size_t x st = Ok (Some cantidad, st') -> 0 <= cantidad.
Proof.
  intros Hx. unfold Failbit.get_size_t, Failbit.extraer.
  destruct (Failbit.failbit st).
  { intros H; injection H as H _. apply Hx, H. }
  destruct (skipws (Failbit.buffer st)) as [|c s] eqn:Es.
  { intros H; injection H as H _. apply Hx, H. }
  destruct (get_unsigned 64 (c :: s)) as [[v s']|f] eqn:E.
  - intros H; injection H as <- _.
    unfold get_unsigned in E.
    destruct (take_word (skipws (c :: s))) as [w r].
    destruct (scan_int w) as [[[neg n] w']|]; [|discriminate].
    destruct (Z.of_N n <? 2 ^ 64); [|discriminate].
    injection E as <- _. destruct neg; [|lia].
    apply Z.mod_pos_bound. lia.
  - intros H; injection H as <- _. unfold stored_unsigned.
    destruct (scan_int _); lia.
Qed.

(** So the scene of the eight kinds, a text record and the file that cannot
    be opened fare on the stream as they do above; a file that is no scene
    file, on which the readers above stop, empties the scene. *)
Lemma failing_stream_scenarios :
  Failbit.guardar_y_cargar escena_ocho = Fault StreamFail
  /\ Failbit.guardar_y_cargar [Some circulo_fino]
     = guardar_y_cargar [Some circulo_fino]
  /\ Failbit.guardar_y_cargar [Some linea] = guardar_y_cargar [Some linea]
  /\ Failbit.cargarEscena (Some archivo_texto) [] = Fault NullDeref
  /\ (forall fs, Failbit.cargarEscena None fs = Ok fs)
  /\ Failbit.cargarEscena (Some archivo_vacio) [Some circulo] = Ok []
  /\ cargarEscena (Some archivo_abc) [Some circulo] = Fault StreamFail
  /\ Failbit.cargarEscena (Some archivo_abc) [Some circulo] = Ok []
  /\ Failbit.cargarEscena (Some []) [Some circulo] = Fault StreamFail.
Proof. repeat split; vm_compute; reflexivity. Qed.

(** *** What [cargarEscena] can return *)

(** X13: whatever the file holds, and whether or not an extraction failed
    on the way, when [cargarEscena] returns no entry of the scene is null
    and every shape is a circle, rectangle, triangle, ellipse, polygon or
    line under the tag of its class, with its [sf::Shape], unselected: a
    text or a cube never comes out of a file. *)
Theorem cargarEscena_loads_six_kinds (archivo : text) (old fs' : Scene) :
  Failbit.cargarEscena (Some archivo) old = Ok fs' ->
  Forall (fun p => exists forma, p = Some forma /\ bien_cargada forma) fs'.
Proof.
  intros H. apply cargarEscena_failbit_inv in H as (c & st & _ & Hall & _).
  exact Hall.
Qed.

(** The circle of a file whose last field overflows: the extraction fails
    and the circle is loaded all the same, pulsing at [FLT_MAX]. *)
Lemma cargarEscena_loads_six_kinds_witness :
  exists fs',
    Failbit.cargarEscena (Some archivo_circulo_1e39) [Some texto] = Ok fs'
    /\ cargarEscena (Some archivo_circulo_1e39) [Some texto] = Fault StreamFail
    /\ Forall (fun p => exists forma, p = Some forma /\ bien_cargada forma) fs'.
Proof.
  eexists. split; [vm_compute; reflexivity|]. split; [reflexivity|].
  apply (cargarEscena_loads_six_kinds archivo_circulo_1e39 [Some texto]).
  vm_compute; reflexivity.
Defined.

(** X14: [cargarEscena] never returns more shapes than the count it
    extracts first, which is 0 when the file does not start with a
    number. *)
Theorem cargarEscena_at_most_count (archivo : text) (old fs' : Scene) :
  Failbit.cargarEscena (Some archivo) old = Ok fs' ->
  exists cantidad st,
    Failbit.get_size_t None (Failbit.mkStream archivo false)
    = Ok (Some cantidad, st)
    /\ Z.of_nat (List.length fs') <= cantidad.
Proof.
  intros H. apply cargarEscena_failbit_inv in H as (c & st & E & _ & Hlen).
  exists c, st. split; [exact E|].
  apply get_size_t_failbit_nonneg in E; [lia | discriminate].
Qed.

(** A file with two records that gives one shape, and a file that is no
    scene file, which gives none. *)
Lemma cargarEscena_at_most_count_witness :
  (exists fs' st,
     Failbit.cargarEscena (Some archivo_cubo_circulo) [] = Ok fs'
     /\ Failbit.get_size_t None (Failbit.mkStream archivo_cubo_circulo false)
        = Ok (Some 2, st)
     /\ List.length fs' = 1%nat)
  /\ exists fs' cantidad st,
       Failbit.cargarEscena (Some archivo_abc) [Some circulo] = Ok fs'
       /\ Failbit.get_size_t None (Failbit.mkStream archivo_abc false)
          = Ok (Some cantidad, st)
       /\ Z.of_nat (List.length fs') <= cantidad.
Proof.
  split.
  - eexists; eexists. split; [vm_compute; reflexivity|].
    split; [vm_compute; reflexivity | reflexivity].
  - destruct (cargarEscena_at_most_count archivo_abc [Some circulo] [])
      as (cantidad & st & E & Hle); [vm_compute; reflexivity|].
    exists [], cantidad, st. split; [vm_compute; reflexivity|].
    split; [exact E | exact Hle].
Defined.

(** X15: a record under tag 6, [ShapeType::Cube], which the [switch] of the
    loader has no case for, is read to the end of its common fields and
    dropped: no shape is pushed and the stream stands right after the
    animation flag. *)
Theorem leer_forma_drops_cube_tag (forma : ShapeBase) (c : ascii) (k : text) :
  type forma = Cube -> comunes_ok forma = true -> isspace c = true ->
  leer_forma (c :: registro forma k) = Ok (None, " "%char :: k).
Proof.
  intros Hty Hok Hc. unfold comunes_ok in Hok.
  rewrite !andb_true_iff in Hok.
  destruct Hok as [[[Hpos Hrot] Hscl] Hcol].
  to_props Hpos. to_props Hscl.
  destruct Hpos as [Hpx Hpy]. destruct Hscl as [Hsx Hsy].
  pose proof (Color_rgba_id _ Hcol) as Hrgba.
  to_props Hcol. destruct Hcol as [[[Hr Hg] Hb] Ha].
  apply Uint8_ok_range in Hr, Hg, Hb, Ha.
  unfold leer_forma, registro, propiedades_text. rewrite Hty.
  cbn [ShapeType_to_int].
  erewrite rbind_ok by (apply get_int_next; [exact Hc | lia | reflexivity]).
  read_float Hpx. read_float Hpy. read_float Hrot.
  read_float Hsx. read_float Hsy.
  read_int. read_int. read_int. read_int.
  erewrite rbind_ok by (apply get_bool_next; reflexivity).
  destruct (derived forma); reflexivity.
Qed.

Lemma leer_forma_drops_cube_tag_witness :
  leer_forma ("010"%char
              :: registro (mkShape Cube None (vec 500 400) sf.Yellow
                             (F32.of_Z 0) (vec 1 1) false false
                             (CubeShapeClass (F32.of_Z 100) (F32.of_Z 50)
                                (F32.of_Z 0))) nl)
  = Ok (None, " "%char :: nl).
Proof.
  apply leer_forma_drops_cube_tag; vm_compute; reflexivity.
Defined.

(** ** Files [guardarEscena] wrote *)

Lemma guardarEscena_texto (fs : Scene) (l : list ShapeBase) :
  sin_nulos fs = Some l ->
  guardarEscena true fs
  = Ok (Some (put_N (N.of_nat (List.length fs)) ++ "010"%char :: registros l)).
Proof.
  intros H. unfold guardarEscena.
  rewrite (escribir_formas_registros fs l _ H).
  unfold insert, Insert_string, Insert_size_t, nl; cbn [bind app].
  rewrite <- app_assoc. reflexivity.
Qed.

Lemma registros_app (l : list ShapeBase) (f : ShapeBase) (extra : text) :
  registros (f :: l) ++ extra
  = registro f ("010"%char :: (registros l ++ extra)).
Proof. cbn [registros]. rewrite registro_app. reflexivity. Qed.

Lemma leer_formas_registros_extra (l : list ShapeBase) (acc : Scene)
    (c : ascii) (extra : text) :
  forallb serializable l = true -> isspace c = true ->
  exists rest,
    leer_formas (List.length l) acc (c :: registros l ++ extra)
    = Ok (acc ++ map (fun forma => Some (recargada forma)) l, rest).
Proof.
  revert acc c; induction l as [|forma l IH]; intros acc c Hok Hc.
  - eexists. cbn. rewrite app_nil_r. reflexivity.
  - cbn [forallb] in Hok. apply andb_true_iff in Hok as [Hf Hl].
    rewrite registros_app. cbn [List.length leer_formas].
    erewrite rbind_ok
      by (apply leer_forma_registro; [exact Hf | exact Hc | reflexivity]).
    destruct (IH (acc ++ [Some (recargada forma)]) "010"%char Hl eq_refl)
      as [rest Hrest].
    exists rest. rewrite Hrest. cbn [map]. rewrite <- app_assoc. reflexivity.
Qed.

Lemma cargar_registros (l : list ShapeBase) (extra : text) (old : Scene) :
  forallb serializable l = true -> Z.of_nat (List.length l) < 2 ^ 64 ->
  cargarEscena
    (Some (put_N (N.of_nat (List.length l))
           ++ "010"%char :: registros l ++ extra)) old
  = Ok (map (fun forma => Some (recargada forma)) l).
Proof.
  intros Hok Hlen. unfold cargarEscena.
  destruct (leer_formas_registros_extra l [] "010"%char extra Hok eq_refl)
    as [rest Hrest].
  erewrite rbind_ok by (apply get_size_t_put; [lia | reflexivity]).
  replace (Z.to_nat (Z.of_N (N.of_nat (List.length l))))
    with (List.length l) by lia.
  rewrite Hrest. reflexivity.
Qed.

Lemma scene_serializable_inv (fs : Scene) :
  scene_serializable fs = true ->
  exists l, sin_nulos fs = Some l /\ fs = map Some l
            /\ forallb serializable l = true
            /\ Z.of_nat (List.length l) < 2 ^ 64
            /\ List.length fs = List.length l.
Proof.
  unfold scene_serializable. intros H.
  apply andb_true_iff in H as [Hlen Hfs].
  destruct (scene_serializable_sin_nulos fs Hfs) as (l & Hl & Hmap & Hok).
  exists l. repeat split; try assumption.
  - rewrite Hmap, length_map in Hlen. lia.
  - rewrite Hmap, length_map. reflexivity.
Qed.

(** X16: text after the last record of a file [guardarEscena] wrote is not
    read: [cargarEscena] returns the same scene with and without it. *)
Theorem cargarEscena_ignores_rest (fs old : Scene) (archivo extra : text) :
  scene_serializable fs = true ->
  guardarEscena true fs = Ok (Some archivo) ->
  cargarEscena (Some (archivo ++ extra)) old = cargarEscena (Some archivo) old.
Proof.
  intros Hs Hg.
  destruct (scene_serializable_inv fs Hs) as (l & Hl & Hmap & Hok & Hlen & Hlf).
  rewrite (guardarEscena_texto fs l Hl) in Hg. injection Hg as <-.
  rewrite Hlf.
  pose proof (cargar_registros l [] old Hok Hlen) as E.
  rewrite app_nil_r in E.
  transitivity (Ok (map (fun forma => Some (recargada forma)) l) : result Scene);
    [|symmetry; exact E].
  rewrite <- app_assoc. cbn [app].
  apply (cargar_registros l extra old Hok Hlen).
Qed.

Lemma cargarEscena_ignores_rest_witness :
  exists archivo,
    guardarEscena true escena_seis = Ok (Some archivo)
    /\ cargarEscena (Some (archivo ++ list_ascii_of_string "7 sobra")) []
       = cargarEscena (Some archivo) [].
Proof.
  eexists. split; [vm_compute; reflexivity|].
  apply (cargarEscena_ignores_rest escena_seis []);
    vm_compute; reflexivity.
Defined.

Lemma registro_observably_equal (s s' : ShapeBase) (k : text) :
  observably_equal s s' -> registro s k = registro s' k.
Proof.
  destruct s as [ty p pos col rot scl sel an d].
  destruct s' as [ty' p' pos' col' rot' scl' sel' an' d'].
  unfold observably_equal, getType, getPosition, getRotation, getScale,
    getColor, animated.
  cbn [type position rotation scale color isAnimated derived].
  intros (<- & <- & <- & <- & <- & <- & Hd).
  unfold registro, propiedades_text.
  cbn [type position rotation scale color isAnimated derived].
  destruct d, d'; cbn [same_fields] in Hd; try contradiction;
    destruct ty; try reflexivity;
    repeat match goal with
           | H : _ /\ _ |- _ => destruct H
           end; subst; reflexivity.
Qed.

Lemma registro_recargada (forma : ShapeBase) (k : text) :
  serializable forma = true -> registro (recargada forma) k = registro forma k.
Proof.
  intros Hok. symmetry.
  apply registro_observably_equal, recargada_observably_equal, Hok.
Qed.

Lemma registros_recargada (l : list ShapeBase) :
  forallb serializable l = true ->
  registros (map recargada l) = registros l.
Proof.
  induction l as [|forma l IH]; intros H; [reflexivity|].
  cbn [forallb] in H. apply andb_true_iff in H as [Hf Hl].
  cbn [map registros]. rewrite IH by exact Hl.
  apply registro_recargada, Hf.
Qed.

Lemma sin_nulos_map_Some (l : list ShapeBase) : sin_nulos (map Some l) = Some l.
Proof. induction l as [|f l IH]; cbn; [|rewrite IH]; reflexivity. Qed.

(** X17: saving what was loaded from a saved file writes the same file
    again, character for character. *)
Theorem guardar_cargar_guardar (fs old : Scene) :
  scene_serializable fs = true ->
  exists archivo fs',
    guardarEscena true fs = Ok (Some archivo)
    /\ cargarEscena (Some archivo) old = Ok fs'
    /\ guardarEscena true fs' = Ok (Some archivo).
Proof.
  intros Hs.
  destruct (scene_serializable_inv fs Hs) as (l & Hl & Hmap & Hok & Hlen & Hlf).
  eexists; eexists. split; [apply (guardarEscena_texto fs l Hl)|].
  rewrite Hlf. split.
  - pose proof (cargar_registros l [] old Hok Hlen) as E.
    rewrite app_nil_r in E. exact E.
  - rewrite (guardarEscena_texto _ (map recargada l)).
    + rewrite length_map, registros_recargada by exact Hok. reflexivity.
    + rewrite <- (map_map recargada Some). apply sin_nulos_map_Some.
Qed.

Lemma guardar_cargar_guardar_witness :
  exists archivo fs',
    guardarEscena true escena_seis = Ok (Some archivo)
    /\ cargarEscena (Some archivo) [] = Ok fs'
    /\ guardarEscena true fs' = Ok (Some archivo).
Proof.
  apply (guardar_cargar_guardar escena_seis []). vm_compute; reflexivity.
Defined.

Lemma escribir_formas_observables (o : text) (fs fs' : Scene) :
  scenes_equal fs fs' -> escribir_formas o fs = escribir_formas o fs'.
Proof.
  intros H; revert o; induction H as [|p p' fs fs' Hp Hfs IH]; intros o;
    [reflexivity|].
  cbn [escribir_formas].
  destruct p as [s|], p' as [s'|]; try contradiction; [|reflexivity].
  cbn [deref bind]. rewrite !escribir_forma_registro.
  rewrite (registro_observably_equal s s' nl Hp). apply IH.
Qed.

(** X18: [guardarEscena] writes a scene by its observable fields alone: two
    scenes equal in them, whatever their selection, accumulators and
    [sf::Shape] objects, give the same file. *)
Theorem guardarEscena_observables (fs fs' : Scene) :
  scenes_equal fs fs' -> guardarEscena true fs = guardarEscena true fs'.
Proof.
  intros H. unfold guardarEscena.
  rewrite (Forall2_length H).
  rewrite (escribir_formas_observables _ fs fs' H). reflexivity.
Qed.

Lemma guardarEscena_observables_witness :
  guardarEscena true [Some linea]
  = guardarEscena true [Some (recargada linea)].
Proof.
  apply guardarEscena_observables.
  constructor; [|constructor].
  apply recargada_observably_equal. vm_compute; reflexivity.
Defined.

(** X19: whatever shapes a scene without null entry holds, cubes and texts
    included, the file starts with a count that reads back as the number of
    its entries. *)
Theorem guardarEscena_count (fs : Scene) :
  ~ In None fs -> Z.of_nat (List.length fs) < 2 ^ 64 ->
  exists archivo rest,
    guardarEscena true fs = Ok (Some archivo)
    /\ get_size_t archivo = Ok (Z.of_nat (List.length fs), rest).
Proof.
  intros Hnn Hlen.
  assert (Hl : exists l, sin_nulos fs = Some l).
  { induction fs as [|p fs IH]; [exists []; reflexivity|].
    destruct p as [s|]; [|exfalso; apply Hnn; left; reflexivity].
    destruct IH as [l Hl].
    - intros Hin; apply Hnn; right; exact Hin.
    - simpl in Hlen. lia.
    - exists (s :: l). cbn. rewrite Hl. reflexivity. }
  destruct Hl as [l Hl].
  eexists; eexists. split; [apply (guardarEscena_texto fs l Hl)|].
  rewrite get_size_t_put by (lia || reflexivity).
  rewrite nat_N_Z. reflexivity.
Qed.

Lemma guardarEscena_count_witness :
  exists archivo rest,
    guardarEscena true escena_ocho = Ok (Some archivo)
    /\ get_size_t archivo = Ok (Z.of_nat (List.length escena_ocho), rest).
Proof.
  apply guardarEscena_count.
  - unfold escena_ocho. intros H. apply in_map_iff in H as (s & Hs & _).
    discriminate.
  - vm_compute; reflexivity.
Defined.

Lemma Forall2_In_left {A B} (R : A -> B -> Prop) (l : list A) (l' : list B)
    (a : A) :
  Forall2 R l l' -> In a l -> exists b, In b l' /\ R a b.
Proof.
  intros H; induction H as [|x y l l' Hxy Hl IH]; intros Hin; [contradiction|].
  destruct Hin as [->|Hin].
  - exists y; split; [left; reflexivity | exact Hxy].
  - destruct (IH Hin) as (b & Hb & Hr). exists b; split; [right|]; assumption.
Qed.

(** X20: no scene holding a text or a cube survives saving and loading:
    whenever [cargarEscena] returns from the file [guardarEscena] wrote for
    it, failed extraction or not, the scene loaded is not observably equal
    to the one saved, not even within tolerance. *)
Theorem text_and_cube_never_round_trip (fs fs' : Scene) (s : ShapeBase) :
  In (Some s) fs ->
  (match derived s with
   | TextShapeClass _ _ _ _ _ | CubeShapeClass _ _ _ => True
   | _ => False
   end) ->
  Failbit.guardar_y_cargar fs = Ok fs' ->
  ~ scenes_equal fs fs' /\ ~ scenes_close fs fs'.
Proof.
  intros Hin Hcls Hload.
  unfold Failbit.guardar_y_cargar in Hload.
  destruct (guardarEscena true fs) as [[archivo|]|f] eqn:Eg;
    cbn [bind] in Hload; try discriminate.
  2:{ unfold guardarEscena in Eg.
      destruct (escribir_formas _ fs); discriminate. }
  apply cargarEscena_failbit_inv in Hload as (c & st & _ & Hall & _).
  rewrite Forall_forall in Hall.
  split; intros Heq;
    destruct (Forall2_In_left _ _ _ _ Heq Hin) as (p' & Hin' & Hp);
    destruct (Hall p' Hin') as (s' & -> & _ & _ & Hkind);
    cbn [entries_equal entries_close] in Hp;
    destruct Hp as (_ & _ & _ & _ & _ & _ & Hd);
    destruct (derived s), (derived s'); try contradiction;
    destruct (type s'); contradiction.
Qed.

(** A cube before a spinning circle: the cube's record is read as a
    polygon, the extraction of the circle's flag fails on 90, and one
    polygon comes back. *)
Lemma text_and_cube_never_round_trip_witness :
  exists p,
    Failbit.guardar_y_cargar escena_cubo_circulo = Ok [Some p]
    /\ getType p = Polygon
    /\ ~ scenes_equal escena_cubo_circulo [Some p]
    /\ ~ scenes_close escena_cubo_circulo [Some p].
Proof.
  eexists. split; [vm_compute; reflexivity|]. split; [reflexivity|].
  apply (text_and_cube_never_round_trip _ _ cubo);
    [left; reflexivity | exact I | vm_compute; reflexivity].
Defined.

(** X21: releasing a drag records [Modify]; [Deshacer] after it, on any
    scene, replaces the dragged shape by a null pointer and leaves every
    other entry as it was. *)
Theorem soltar_y_deshacer (l1 l2 : Scene) (s : ShapeBase)
    (m : UndoRedoManager) :
  exists a1 a2,
    soltar_arrastre (Z.of_nat (List.length l1))
      (mkApp (l1 ++ Some s :: l2) m) = Ok a1
    /\ formas a1 = l1 ++ Some s :: l2
    /\ boton_Deshacer a1 = Ok a2
    /\ formas a2 = l1 ++ None :: l2.
Proof.
  unfold soltar_arrastre. cbn [formas undoRedoManager].
  rewrite vec_at_middle. cbn [bind deref].
  eexists; eexists. split; [reflexivity|]. split; [reflexivity|].
  unfold boton_Deshacer, addAction, undo.
  cbn [undoRedoManager formas Action.move canUndo undoStack redoStack
       Action.type Action.index Action.shape].
  rewrite vec_assign_middle. cbn [bind]. split; reflexivity.
Qed.

(** ** Loading under a history *)

(** X22: loading a scene leaves the history as it was, so an [Add] recorded
    before still points at its old index: when the scene loaded is no
    longer than the scene was before that [Add], [Deshacer] erases out of
    range. *)
Theorem deshacer_after_cargar (nueva : ShapeBase) (app a1 a2 : App)
    (archivo : option text) :
  anadir nueva app = Ok a1 ->
  Failbit.boton_Cargar_Escena archivo a1 = Ok a2 ->
  (List.length (formas a2) <= List.length (formas app))%nat ->
  undoRedoManager a2 = undoRedoManager a1
  /\ boton_Deshacer a2 = Fault OutOfRange.
Proof.
  destruct app as [fs m]. unfold anadir. cbn [formas undoRedoManager].
  rewrite last_last. cbn [deref bind]. intros H1; injection H1 as <-.
  unfold Failbit.boton_Cargar_Escena. cbn [formas undoRedoManager].
  destruct (Failbit.cargarEscena archivo (fs ++ [Some nueva])) as [fs2|f];
    [|discriminate].
  cbn [bind]. intros H2; injection H2 as <-. cbn [formas]. intros Hlen.
  split; [reflexivity|].
  unfold boton_Deshacer, addAction, undo.
  cbn [undoRedoManager formas Action.move canUndo undoStack redoStack
       Action.type Action.index Action.shape].
  unfold vec_erase, vec_index. rewrite length_app. cbn [List.length].
  destruct (Z.ltb_spec (Z.of_nat (List.length fs + 1) - 1)
              (Z.of_nat (List.length fs2))); [lia|].
  rewrite andb_false_r. reflexivity.
Qed.

(** A circle is added to the empty scene, a file that is no scene file is
    loaded, and [Deshacer] erases entry 0 of the empty scene. *)
Lemma deshacer_after_cargar_witness :
  exists a1 a2,
    boton_Anadir_Circulo app0 = Ok a1
    /\ Failbit.boton_Cargar_Escena (Some archivo_abc) a1 = Ok a2
    /\ formas a2 = []
    /\ undoRedoManager a2 = undoRedoManager a1
    /\ boton_Deshacer a2 = Fault OutOfRange.
Proof.
  eexists; eexists. split; [reflexivity|]. split; [reflexivity|].
  split; [reflexivity|].
  eapply (deshacer_after_cargar _ app0 _ _ (Some archivo_abc));
    [reflexivity | reflexivity | simpl; lia].
Defined.
